(** * VeriCore AI backend: [backend/main.py]

    A shallow embedding of the analysis engine, [parse_llm_response] (the
    normalisation of a model reply) and [generate_demo_analysis] (the
    deterministic demo simulator), together with the parts of the Python
    runtime they call: text primitives, the [json] decoder, the two regular
    expressions handed to [re.search], [hashlib.md5], the [random] module
    and the wall clock; then of the rest of the file: [get_user_prompt],
    [generate_voice_summary] and the endpoints [root], [analyze_content],
    [get_history] and [get_stats] with the history they share.

    Text.  A Python [str] is a Rocq [string], and the model is exact on
    ASCII text: the character tables ([str.isspace], [str.isdigit],
    [str.upper], the class [\s]) are CPython's there.  Other characters are
    carried in their UTF-8 encoding, byte by byte, so on them [len], the
    slices and the character tables see bytes where Python sees
    characters.  Python integers are [Z]. *)

From Stdlib Require Import ZArith NArith List Bool Ascii String Lia.
From Stdlib Require Import DecimalString.
From Stdlib Require DecimalFacts DecimalPos.
From Stdlib Require Floats.PrimFloat Floats.FloatOps Floats.SpecFloat Uint63.
Import ListNotations.

Local Open Scope string_scope.
Local Open Scope Z_scope.

(** ** Text primitives *)

Module Text.

Definition ord (c : ascii) : N := N_of_ascii c.

Definition chr (n : N) : ascii := ascii_of_N n.

(** [str.isspace] on one character: TAB..CR, FS..US and the space. *)
Definition isspace (c : ascii) : bool :=
  ((9 <=? ord c) && (ord c <=? 13) || (28 <=? ord c) && (ord c <=? 32))%N.

(** [str.isdigit] on one character. *)
Definition isdigit (c : ascii) : bool :=
  ((48 <=? ord c) && (ord c <=? 57))%N.

Definition islower (c : ascii) : bool :=
  ((97 <=? ord c) && (ord c <=? 122))%N.


Fixpoint map (f : ascii -> ascii) (s : string) : string :=
  match s with
  | EmptyString => EmptyString
  | String c s' => String (f c) (map f s')
  end.

(** [s.upper()] *)
Definition upper (s : string) : string :=
  map (fun c => if islower c then chr (ord c - 32) else c) s.

(** [any(p(c) for c in s)], and [ch in s] for a one-character [ch]. *)
Fixpoint any (p : ascii -> bool) (s : string) : bool :=
  match s with
  | EmptyString => false
  | String c s' => p c || any p s'
  end.

Definition contains (ch : ascii) (s : string) : bool := any (Ascii.eqb ch) s.

(** [all(p(c) for c in s)] *)
Fixpoint all (p : ascii -> bool) (s : string) : bool :=
  match s with
  | EmptyString => true
  | String c s' => p c && all p s'
  end.

(** [s.startswith(w)] *)
Fixpoint startswith (w s : string) : bool :=
  match w, s with
  | EmptyString, _ => true
  | String a w', String b s' => Ascii.eqb a b && startswith w' s'
  | String _ _, EmptyString => false
  end.

(** [s.removeprefix(w)] where [s.startswith(w)]. *)
Fixpoint strip_prefix (w s : string) : option string :=
  match w, s with
  | EmptyString, _ => Some s
  | String a w', String b s' => if Ascii.eqb a b then strip_prefix w' s' else None
  | String _ _, EmptyString => None
  end.

(** [w in s] *)
Fixpoint has_sub (w s : string) : bool :=
  startswith w s ||
  match s with
  | EmptyString => false
  | String _ s' => has_sub w s'
  end.

(** [c * n] *)
Fixpoint repeat (c : ascii) (n : nat) : string :=
  match n with
  | O => EmptyString
  | S n' => String c (repeat c n')
  end.

(** [len(s)] *)
Definition len (s : string) : Z := Z.of_nat (String.length s).

(** [s[:n]] for a literal [n >= 0]. *)
Fixpoint take (n : nat) (s : string) : string :=
  match n, s with
  | S n', String c s' => String c (take n' s')
  | _, _ => EmptyString
  end.

(** [s.split()]: the maximal runs of non-whitespace characters, in order.
    [cur] is the run being read. *)
Fixpoint split_from (cur : string) (s : string) : list string :=
  match s with
  | EmptyString => if String.eqb cur "" then [] else [cur]
  | String c s' =>
      if isspace c
      then (if String.eqb cur "" then split_from "" s'
            else cur :: split_from "" s')
      else split_from (cur ++ String c "") s'
  end.

Definition split (s : string) : list string := split_from "" s.

(** [' '.join(l)] *)
Definition join (sep : string) (l : list string) : string :=
  String.concat sep l.

(** [l[a:b]] on a list, with Python's treatment of negative and
    out-of-range bounds. *)
Definition clip {A} (l : list A) (i : Z) : nat :=
  let n := Z.of_nat (List.length l) in
  Z.to_nat (if i <? 0 then Z.max (i + n) 0 else Z.min i n).

Definition slice {A} (l : list A) (a b : Z) : list A :=
  firstn (clip l b - clip l a) (skipn (clip l a) l).

(** [str(n)], also what an f-string prints for an integer. *)
Definition str_of_int (n : Z) : string :=
  NilZero.string_of_int (Z.to_int n).

(** Zero-padded decimal of width [w], as [strftime] prints a field. *)
Fixpoint zeros (n : nat) : string :=
  match n with O => "" | S n' => String "0" (zeros n') end.

Definition pad (w : nat) (n : Z) : string :=
  let s := str_of_int n in
  zeros (w - String.length s) ++ s.

End Text.

(** ** Python values

    What [json.loads] builds and what the two functions pass around: a dict
    is the list of its items in insertion order. *)

#[warnings="-register-all"]
Inductive value : Type :=
| VNone
| VBool (b : bool)
| VInt (n : Z)
| VFloat (lexeme : string)
| VStr (s : string)
| VList (l : list value)
| VDict (d : list (string * value)).

(** The exceptions that matter here.  [JSONDecodeError] is a subclass of
    [ValueError]; [ValueError] below stands for a [ValueError] that is not a
    [JSONDecodeError]. *)
Inductive exn : Type := JSONDecodeError | ValueError | RecursionError | TypeError.

Module Dict.

(** [d.get(key)] *)
Fixpoint get (key : string) (d : list (string * value)) : option value :=
  match d with
  | [] => None
  | (k, v) :: d' => if String.eqb k key then Some v else get key d'
  end.

(** [d[key] = v]: a present key keeps its place, a new one goes last. *)
Fixpoint set (key : string) (v : value) (d : list (string * value))
  : list (string * value) :=
  match d with
  | [] => [(key, v)]
  | (k, w) :: d' =>
      if String.eqb k key then (k, v) :: d' else (k, w) :: set key v d'
  end.

(** [dict(pairs)] *)
Definition of_pairs (pairs : list (string * value)) : list (string * value) :=
  fold_left (fun d kv => set (fst kv) (snd kv) d) pairs [].

End Dict.

(** ** The decoder behind [json.loads]

    CPython's [json.decoder] and [json.scanner] with the default settings
    ([strict=True], no hooks).  A float keeps its lexeme. *)

Module Json.

Inductive scanned (A : Type) : Type :=
| Scanned (a : A) (rest : string)
| Failed (e : exn).
Arguments Scanned {A} a rest.
Arguments Failed {A} e.

Definition quote : ascii := "034"%char.
Definition backslash : ascii := "092"%char.

(** [WHITESPACE]: space, TAB, LF and CR. *)
Definition is_ws (c : ascii) : bool :=
  Ascii.eqb c " " || Ascii.eqb c "009" || Ascii.eqb c "010" || Ascii.eqb c "013".

Fixpoint skip_ws (s : string) : string :=
  match s with
  | String c s' => if is_ws c then skip_ws s' else s
  | EmptyString => s
  end.

Definition hex_digit (c : ascii) : option N :=
  let n := Text.ord c in
  (if (48 <=? n) && (n <=? 57) then Some (n - 48)
   else if (97 <=? n) && (n <=? 102) then Some (n - 87)
   else if (65 <=? n) && (n <=? 70) then Some (n - 55)
   else None)%N.

Definition hex4 (a b c d : ascii) : option N :=
  match hex_digit a, hex_digit b, hex_digit c, hex_digit d with
  | Some x, Some y, Some z, Some w => Some (((x * 16 + y) * 16 + z) * 16 + w)%N
  | _, _, _, _ => None
  end.

(** [chr(n)], in UTF-8 (a lone surrogate takes the three-byte form). *)
Definition utf8 (n : N) : string :=
  (if n <? 128 then String (Text.chr n) ""
   else if n <? 2048 then
     String (Text.chr (192 + n / 64)) (String (Text.chr (128 + n mod 64)) "")
   else if n <? 65536 then
     String (Text.chr (224 + n / 4096))
       (String (Text.chr (128 + (n / 64) mod 64))
          (String (Text.chr (128 + n mod 64)) ""))
   else
     String (Text.chr (240 + n / 262144))
       (String (Text.chr (128 + (n / 4096) mod 64))
          (String (Text.chr (128 + (n / 64) mod 64))
             (String (Text.chr (128 + n mod 64)) ""))))%N.

(** The table [BACKSLASH]. *)
Definition unescape (c : ascii) : option ascii :=
  if Ascii.eqb c quote then Some quote
  else if Ascii.eqb c backslash then Some backslash
  else if Ascii.eqb c "/" then Some "/"%char
  else if Ascii.eqb c "b" then Some "008"%char
  else if Ascii.eqb c "f" then Some "012"%char
  else if Ascii.eqb c "n" then Some "010"%char
  else if Ascii.eqb c "r" then Some "013"%char
  else if Ascii.eqb c "t" then Some "009"%char
  else None.

Definition push (chunk : string) (r : scanned string) : scanned string :=
  match r with
  | Scanned a rest => Scanned (chunk ++ a) rest
  | Failed e => Failed e
  end.

Definition is_high (n : N) : bool := ((55296 <=? n) && (n <=? 56319))%N.
Definition is_low (n : N) : bool := ((56320 <=? n) && (n <=? 57343))%N.

(** [scanstring(s, end)], from the character after the opening quote. *)
Fixpoint scanstring (s : string) : scanned string :=
  match s with
  | EmptyString => Failed JSONDecodeError
  | String c rest =>
      if Ascii.eqb c quote then Scanned "" rest
      else if Ascii.eqb c backslash then
        match rest with
        | EmptyString => Failed JSONDecodeError
        | String esc rest1 =>
            if Ascii.eqb esc "u" then
              match rest1 with
              | String h1 (String h2 (String h3 (String h4 rest2))) =>
                  match hex4 h1 h2 h3 h4 with
                  | None => Failed JSONDecodeError
                  | Some uni =>
                      match rest2 with
                      | String b (String u
                          (String l1 (String l2 (String l3 (String l4 rest3))))) =>
                          if is_high uni && Ascii.eqb b backslash && Ascii.eqb u "u"
                          then
                            match hex4 l1 l2 l3 l4 with
                            | None => Failed JSONDecodeError
                            | Some uni2 =>
                                if is_low uni2
                                then push (utf8 (65536 + (uni - 55296) * 1024
                                                 + (uni2 - 56320))%N)
                                          (scanstring rest3)
                                else push (utf8 uni) (scanstring rest2)
                            end
                          else push (utf8 uni) (scanstring rest2)
                      | _ => push (utf8 uni) (scanstring rest2)
                      end
                  end
              | _ => Failed JSONDecodeError
              end
            else
              match unescape esc with
              | Some ch => push (String ch "") (scanstring rest1)
              | None => Failed JSONDecodeError
              end
        end
      else if (Text.ord c <? 32)%N then Failed JSONDecodeError
      else push (String c "") (scanstring rest)
  end.

(** The longest prefix of digits, and what follows it. *)
Fixpoint span_digits (s : string) : string * string :=
  match s with
  | String c s' =>
      if Text.isdigit c
      then let (d, r) := span_digits s' in (String c d, r)
      else (EmptyString, s)
  | EmptyString => (EmptyString, EmptyString)
  end.

(** The integer part of [NUMBER_RE]: an optional sign, then a single 0
    or a nonzero digit and the digits after it. *)
Definition match_integer (s : string) : option (string * string) :=
  let (sign, s1) :=
    match s with
    | String c s' => if Ascii.eqb c "-" then ("-", s') else ("", s)
    | EmptyString => ("", s)
    end in
  match s1 with
  | String c s2 =>
      if Ascii.eqb c "0" then Some (sign ++ "0", s2)
      else if Text.isdigit c
      then let (d, r) := span_digits s1 in Some (sign ++ d, r)
      else None
  | EmptyString => None
  end.

(** The optional fraction of [NUMBER_RE]: a dot and at least one digit. *)
Definition match_frac (s : string) : string * string :=
  match s with
  | String c s' =>
      if Ascii.eqb c "." then
        match span_digits s' with
        | (EmptyString, _) => ("", s)
        | (d, r) => (String "." d, r)
        end
      else ("", s)
  | EmptyString => ("", s)
  end.

(** The optional exponent of [NUMBER_RE]: e or E, an optional sign and at
    least one digit. *)
Definition match_exp (s : string) : string * string :=
  match s with
  | String e s' =>
      if Ascii.eqb e "e" || Ascii.eqb e "E" then
        let (sign, s1) :=
          match s' with
          | String c s2 =>
              if Ascii.eqb c "-" || Ascii.eqb c "+"
              then (String c "", s2) else ("", s')
          | EmptyString => ("", s')
          end in
        match span_digits s1 with
        | (EmptyString, _) => ("", s)
        | (d, r) => (String e (sign ++ d), r)
        end
      else ("", s)
  | EmptyString => ("", s)
  end.

(** [sys.int_info.default_max_str_digits]: [int] of a decimal literal with
    more digits raises [ValueError]. *)
Definition max_str_digits : nat := 4300.

Fixpoint digits_value (acc : Z) (s : string) : Z :=
  match s with
  | String c s' => digits_value (10 * acc + Z.of_N (Text.ord c - 48)) s'
  | EmptyString => acc
  end.

(** [int(lexeme)] for a lexeme matched by [match_integer]. *)
Definition parse_int (lexeme : string) : exn + Z :=
  let (negative, d) :=
    match lexeme with
    | String c d => if Ascii.eqb c "-" then (true, d) else (false, lexeme)
    | EmptyString => (false, lexeme)
    end in
  if (max_str_digits <? String.length d)%nat then inl ValueError
  else inr (if negative then - digits_value 0 d else digits_value 0 d).

Definition scan_number (s : string) : option (scanned value) :=
  match match_integer s with
  | None => None
  | Some (integer, s1) =>
      let (frac, s2) := match_frac s1 in
      let (exp, s3) := match_exp s2 in
      if String.eqb frac "" && String.eqb exp "" then
        match parse_int integer with
        | inl e => Some (Failed e)
        | inr n => Some (Scanned (VInt n) s3)
        end
      else Some (Scanned (VFloat (integer ++ frac ++ exp)) s3)
  end.

(** The scalars of [scan_once], in its order: null, true, false, a number,
    NaN, Infinity, -Infinity. *)
Definition scan_scalar (s : string) : scanned value :=
  match Text.strip_prefix "null" s, Text.strip_prefix "true" s, Text.strip_prefix "false" s with
  | Some r, _, _ => Scanned VNone r
  | _, Some r, _ => Scanned (VBool true) r
  | _, _, Some r => Scanned (VBool false) r
  | None, None, None =>
      match scan_number s with
      | Some r => r
      | None =>
          match Text.strip_prefix "NaN" s, Text.strip_prefix "Infinity" s,
                Text.strip_prefix "-Infinity" s with
          | Some r, _, _ => Scanned (VFloat "NaN") r
          | _, Some r, _ => Scanned (VFloat "Infinity") r
          | _, _, Some r => Scanned (VFloat "-Infinity") r
          | None, None, None => Failed JSONDecodeError
          end
      end
  end.

(** [scan_once], [JSONArray] and [JSONObject].  [fuel] bounds the depth
    of the calls; running out of it is the interpreter's
    [RecursionError].  [items] and [members] are the two [while] loops,
    entered where a value, respectively the text after a key's opening
    quote, is due. *)
Fixpoint scan_once (fuel : nat) (s : string) : scanned value :=
  match fuel with
  | O => Failed RecursionError
  | S fuel' =>
      match s with
      | EmptyString => Failed JSONDecodeError
      | String c rest =>
          if Ascii.eqb c quote then
            match scanstring rest with
            | Scanned str rest' => Scanned (VStr str) rest'
            | Failed e => Failed e
            end
          else if Ascii.eqb c "{" then
            match skip_ws rest with
            | String c1 rest1 =>
                if Ascii.eqb c1 "}" then Scanned (VDict []) rest1
                else if Ascii.eqb c1 quote then members fuel' rest1 []
                else Failed JSONDecodeError
            | EmptyString => Failed JSONDecodeError
            end
          else if Ascii.eqb c "[" then
            match skip_ws rest with
            | String c1 rest1 =>
                if Ascii.eqb c1 "]" then Scanned (VList []) rest1
                else items fuel' (String c1 rest1) []
            | EmptyString => items fuel' EmptyString []
            end
          else scan_scalar s
      end
  end

with items (fuel : nat) (s : string) (acc : list value) : scanned value :=
  match fuel with
  | O => Failed RecursionError
  | S fuel' =>
      match scan_once fuel' s with
      | Failed e => Failed e
      | Scanned v rest =>
          match skip_ws rest with
          | String c rest1 =>
              if Ascii.eqb c "]" then Scanned (VList (rev (v :: acc))) rest1
              else if Ascii.eqb c "," then items fuel' (skip_ws rest1) (v :: acc)
              else Failed JSONDecodeError
          | EmptyString => Failed JSONDecodeError
          end
      end
  end

with members (fuel : nat) (s : string) (acc : list (string * value))
  : scanned value :=
  match fuel with
  | O => Failed RecursionError
  | S fuel' =>
      match scanstring s with
      | Failed e => Failed e
      | Scanned key rest =>
          match skip_ws rest with
          | String c0 rest1 =>
              if Ascii.eqb c0 ":" then
                match scan_once fuel' (skip_ws rest1) with
                | Failed e => Failed e
                | Scanned v rest2 =>
                    match skip_ws rest2 with
                    | String c rest3 =>
                        if Ascii.eqb c "}"
                        then Scanned (VDict (Dict.of_pairs (rev ((key, v) :: acc))))
                                     rest3
                        else if Ascii.eqb c "," then
                          match skip_ws rest3 with
                          | String c' rest4 =>
                              if Ascii.eqb c' quote
                              then members fuel' rest4 ((key, v) :: acc)
                              else Failed JSONDecodeError
                          | EmptyString => Failed JSONDecodeError
                          end
                        else Failed JSONDecodeError
                    | EmptyString => Failed JSONDecodeError
                    end
                end
              else Failed JSONDecodeError
          | EmptyString => Failed JSONDecodeError
          end
      end
  end.

(** The outcome of a call of [json.loads]. *)
Inductive loaded : Type :=
| Decoded (v : value)
| Raised (e : exn).

(** [JSONDecoder.decode]: one value, whitespace around it, nothing else.
    The fuel given covers every text: two calls at most per character. *)
Definition decode (s : string) : loaded :=
  match scan_once (S (S (2 * String.length s))) (skip_ws s) with
  | Failed e => Raised e
  | Scanned v rest =>
      match skip_ws rest with
      | EmptyString => Decoded v
      | String _ _ => Raised JSONDecodeError
      end
  end.

(** [json.loads(s)] for a [str]. *)
Definition loads (s : string) : loaded := decode s.

End Json.

(** Test inputs are written with apostrophes where JSON has double quotes. *)
Definition dq (s : string) : string :=
  Text.map (fun c => if Ascii.eqb c "'" then Json.quote else c) s.

(** ** Regular expressions

    The backtracking matcher of Python's [re], for the constructs the two
    patterns of [parse_llm_response] are written with.  [matches r s] lists
    the ways [r] matches at the start of [s], in the order in which the
    matcher tries them: a greedy repetition prefers more characters, a lazy
    one fewer, an optional part is tried before it is skipped. *)

Module Re.

Inductive greed : Type := Greedy | Lazy.

Inductive regex : Type :=
| Lit (w : string)                       (* the characters of [w] *)
| Star (g : greed) (cls : ascii -> bool) (* [cls*] or [cls*?] *)
| Opt (r : regex)                        (* [(?:r)?] *)
| Group (r : regex)                      (* [(r)], group 1 *)
| Seq (r1 r2 : regex).

(** One way to match: the text matched, group 1 if it took part, and
    the text left. *)
Record found : Type :=
  Found { matched : string; group1 : option string; rest : string }.

Definition extend (c : ascii) (m : found) : found :=
  Found (String c (matched m)) (group1 m) (rest m).

Fixpoint star (g : greed) (cls : ascii -> bool) (s : string) : list found :=
  let stop := Found "" None s in
  match s with
  | String c s' =>
      if cls c then
        match g with
        | Greedy => List.map (extend c) (star g cls s') ++ [stop]
        | Lazy => stop :: List.map (extend c) (star g cls s')
        end
      else [stop]
  | EmptyString => [stop]
  end.

Definition then_ (m1 m2 : found) : found :=
  Found (matched m1 ++ matched m2)
        (match group1 m2 with Some g => Some g | None => group1 m1 end)
        (rest m2).

Fixpoint matches (r : regex) (s : string) : list found :=
  match r with
  | Lit w =>
      match Text.strip_prefix w s with
      | Some s' => [Found w None s']
      | None => []
      end
  | Star g cls => star g cls s
  | Opt r1 => matches r1 s ++ [Found "" None s]
  | Group r1 =>
      List.map (fun m => Found (matched m) (Some (matched m)) (rest m))
               (matches r1 s)
  | Seq r1 r2 =>
      flat_map (fun m1 => List.map (then_ m1) (matches r2 (rest m1)))
               (matches r1 s)
  end.

(** [re.search(r, s)]: the first way to match at the leftmost position
    that has one. *)
Fixpoint search (r : regex) (s : string) : option found :=
  match matches r s with
  | m :: _ => Some m
  | [] =>
      match s with
      | String _ s' => search r s'
      | EmptyString => None
      end
  end.

(** [\s] *)
Definition space : ascii -> bool := Text.isspace.

(** [[\s\S]] *)
Definition any : ascii -> bool := fun c => Text.isspace c || negb (Text.isspace c).

End Re.

(** ** [parse_llm_response] *)

(** What a call of the function does: it returns a value or lets an
    exception through. *)
Inductive outcome : Type :=
| Returns (v : value)
| Raises (e : exn).

(** The record returned when every attempt fails (lines 147-158). *)
Definition fallback : value :=
  VDict
    [("score", VInt 50);
     ("label", VStr "Medium");
     ("issues",
       VList
         [VDict
            [("snippet", VStr "Unable to parse AI response");
             ("riskType", VStr "uncertain");
             ("explanation",
               VStr "The trust analysis could not be completed properly. Manual review recommended.");
             ("humanCheckHint",
               VStr "Please review the original content manually and re-run the analysis.")]]);
     ("complianceReport",
       VStr "Analysis parsing encountered an issue. The AI-generated content should be reviewed manually by a qualified professional before any decisions are made based on it.");
     ("ndaauditNote",
       VStr "Automated trust analysis incomplete. Manual compliance review required.")].

(** [r'```(?:json)?\s*([\s\S]*?)\s*```'], from its end: the closing fence
    with the blanks before it, the interior (group 1) up to it, the
    pattern. *)
Definition fence_close : Re.regex :=
  Re.Seq (Re.Star Re.Greedy Re.space) (Re.Lit "```").

Definition fence_interior : Re.regex :=
  Re.Seq (Re.Group (Re.Star Re.Lazy Re.any)) fence_close.

Definition fence_re : Re.regex :=
  Re.Seq (Re.Lit "```")
    (Re.Seq (Re.Opt (Re.Lit "json"))
       (Re.Seq (Re.Star Re.Greedy Re.space) fence_interior)).

(** [r'\{[\s\S]*\}'] *)
Definition object_re : Re.regex :=
  Re.Seq (Re.Lit "{") (Re.Seq (Re.Star Re.Greedy Re.any) (Re.Lit "}")).

Section Parser.

(** [json.loads], as the function sees it. *)
Variable loads : string -> Json.loaded.

(** [try: return json.loads(text)  except json.JSONDecodeError: pass],
    followed by [otherwise]. *)
Definition try_loads (text : string) (otherwise : outcome) : outcome :=
  match loads text with
  | Json.Decoded v => Returns v
  | Json.Raised JSONDecodeError => otherwise
  | Json.Raised e => Raises e
  end.

(** Lines 139-158: the search for an object, then the fallback. *)
Definition parse_object (response_text : string) : outcome :=
  match Re.search object_re response_text with
  | Some json_match => try_loads (Re.matched json_match) (Returns fallback)
  | None => Returns fallback
  end.

(** Lines 131-158: the search for a fenced block, then the rest. *)
Definition parse_fenced (response_text : string) : outcome :=
  match Re.search fence_re response_text with
  | Some json_match =>
      match Re.group1 json_match with
      | Some interior => try_loads interior (parse_object response_text)
      | None => Raises TypeError  (* [json.loads(None)]; never the case *)
      end
  | None => parse_object response_text
  end.

Definition parse_llm_response (response_text : string) : outcome :=
  try_loads response_text (parse_fenced response_text).

End Parser.

(** ** The runtime behind the simulator

    [hashlib.md5] and the generator of the [random] module.  [seed n] is
    the state [random.seed(n)] leaves the generator in, [randint a b] one
    call of [random.randint(a, b)]: the integer drawn and the next state. *)

Class Runtime : Type := {
  md5 : string -> string;
  generator : Type;
  seed : Z -> generator;
  randint : Z -> Z -> generator -> Z * generator
}.

(** What the documentation of [random.randint] promises. *)
Class RuntimeLaws (RT : Runtime) : Prop := {
  randint_range :
    forall a b g, a <= b -> a <= fst (randint a b g) <= b
}.

(** [datetime.now()] *)
Record datetime : Type := Datetime {
  year : Z; month : Z; day : Z; hour : Z; minute : Z; second : Z
}.

(** [t.strftime('%Y-%m-%d %H:%M:%S')] *)
Definition strftime (t : datetime) : string :=
  Text.pad 4 (year t) ++ "-" ++ Text.pad 2 (month t) ++ "-" ++ Text.pad 2 (day t)
  ++ " " ++ Text.pad 2 (hour t) ++ ":" ++ Text.pad 2 (minute t) ++ ":"
  ++ Text.pad 2 (second t).

(** [b.hex()]: two lowercase digits for each byte. *)
Definition hex_char (n : N) : ascii :=
  Text.chr (if n <? 10 then 48 + n else 87 + n)%N.

Fixpoint hexdigest (digest : string) : string :=
  match digest with
  | EmptyString => EmptyString
  | String b d' =>
      String (hex_char (Text.ord b / 16)) (String (hex_char (Text.ord b mod 16))
        (hexdigest d'))
  end.

(** [int(s, 16)] on a string of hexadecimal digits, which is what
    [hexdigest] gives. *)
Definition int_of_hex (s : string) : Z :=
  (fix go (acc : Z) (s : string) : Z :=
     match s with
     | EmptyString => acc
     | String c s' =>
         go (16 * acc + match Json.hex_digit c with Some d => Z.of_N d | None => 0 end) s'
     end) 0 s.

(** [s.encode()]: the UTF-8 bytes, which a Rocq string already holds. *)
Definition encode (s : string) : string := s.

(** ** The records of the simulator *)

Record issue : Type := Issue {
  snippet : string;
  riskType : string;
  explanation : string;
  humanCheckHint : string
}.

(** The dict that [generate_demo_analysis] returns (lines 283-289). *)
Record analysis : Type := Analysis {
  score : Z;
  label : string;
  issues : list issue;
  complianceReport : string;
  ndaauditNote : string
}.

Record template : Type := Template {
  tpl_riskType : string;
  tpl_explanation : string;
  tpl_humanCheckHint : string
}.

(** [issue_templates] (lines 237-253) *)
Definition issue_templates : list (string * list template) :=
  [("legal", [
         Template "hallucination"
           "This statement references legal principles that require verification against current case law and jurisdiction-specific regulations."
           "Verify the legal citation with a qualified attorney and check if it applies to the relevant jurisdiction.";
         Template "compliance-risk"
           "The language used may create unintended legal obligations or liabilities if taken as formal legal advice."
           "Have legal counsel review before using in any binding documents or client communications.";
         Template "uncertain"
           "The claim lacks specific citations or references that would allow independent verification."
           "Request source documentation or legal precedent supporting this assertion."]);
   ("finance", [
         Template "hallucination"
           "Financial figures or projections mentioned require verification against audited financial statements."
           "Cross-reference with official financial reports and have a CPA verify the calculations.";
         Template "compliance-risk"
           "This statement could be interpreted as financial advice, which may trigger regulatory requirements."
           "Ensure appropriate disclaimers are included and review with compliance team.";
         Template "uncertain"
           "Market predictions or financial forecasts inherently carry uncertainty and should not be relied upon without additional analysis."
           "Conduct independent market research and consult with financial advisors."]);
   ("compliance", [
         Template "hallucination"
           "References to specific regulations or compliance requirements need verification against current regulatory frameworks."
           "Check the current version of referenced regulations and confirm applicability.";
         Template "compliance-risk"
           "The statement may not fully address all relevant compliance requirements for your industry or jurisdiction."
           "Conduct a comprehensive compliance review with your regulatory affairs team.";
         Template "uncertain"
           "Regulatory interpretations can vary; this guidance may not reflect the position of all relevant regulatory bodies."
           "Consult with regulatory counsel to confirm interpretation aligns with agency guidance."])].

(** [context_names] (line 270) *)
Definition context_names : list (string * string) :=
  [("legal", "legal"); ("finance", "financial");
   ("compliance", "regulatory compliance")].

(** [d.get(key, default)] for the two tables. *)
Fixpoint lookup {A} (key : string) (d : list (string * A)) (default : A) : A :=
  match d with
  | [] => default
  | (k, v) :: d' => if String.eqb k key then v else lookup key d' default
  end.

(** Line 255 *)
Definition templates_of (context_type : string) : list template :=
  lookup context_type issue_templates (lookup "legal" issue_templates []).

(** Line 214 *)
Definition clamp (base_score : Z) : Z := Z.max 20 (Z.min 95 base_score).

(** Lines 217-222 *)
Definition label_of (score : Z) : string :=
  if 75 <=? score then "High"
  else if 50 <=? score then "Medium"
  else "Low".

(** Line 258 *)
Definition num_issues_of (score : Z) : Z :=
  if 75 <=? score then 1 else (if 50 <=? score then 2 else 3).

(** Lines 259-267: the loop over [range(min(num_issues, len(snippets),
    len(templates)))]. *)
Definition make_issue (snippets : list string) (templates : list template)
  (i : nat) : issue :=
  let tpl := nth (i mod List.length templates) templates (Template "" "" "") in
  Issue (Text.take 100 (nth (i mod List.length snippets) snippets ""))
        (tpl_riskType tpl) (tpl_explanation tpl) (tpl_humanCheckHint tpl).

Definition make_issues (num_issues : Z) (snippets : list string)
  (templates : list template) : list issue :=
  let n := Z.min (Z.min num_issues (Z.of_nat (List.length snippets)))
                 (Z.of_nat (List.length templates)) in
  List.map (make_issue snippets templates) (seq 0 (Z.to_nat n)).

(** Lines 273-278 *)
Definition compliance_report_of (label ctx_name : string) (score : Z) : string :=
  if String.eqb label "High" then
    "Multi-model consensus analysis indicates this "
        ++ ctx_name
        ++ " content demonstrates generally acceptable trust levels with a score of "
        ++ Text.str_of_int score
        ++ "/100. The AI-generated response appears well-structured and avoids major red flags. However, standard verification protocols should still be followed before relying on this content for critical decisions. Minor areas flagged for review do not represent significant compliance risks but warrant acknowledgment in audit documentation."
  else if String.eqb label "Medium" then
    "Analysis reveals moderate trust concerns in this "
        ++ ctx_name
        ++ " content with a consensus score of "
        ++ Text.str_of_int score
        ++ "/100. Several claims require independent verification before the content can be used in official capacity. The multi-model review identified potential areas where the AI may have made assumptions or generalizations that need human expert validation. Recommend escalation to qualified professionals before proceeding."
  else
    "ALERT: This "
        ++ ctx_name
        ++ " content has received a low trust score of "
        ++ Text.str_of_int score
        ++ "/100 from multi-model consensus analysis. Significant concerns have been identified including potential hallucinations, unverifiable claims, and compliance risks. This content should NOT be used without thorough review by qualified professionals. Immediate escalation to legal/compliance team is recommended.".

(** Line 281, for the clock reading [t]. *)
Definition audit_note_text (t : datetime) (context_type : string) (score : Z)
  (label : string) (issues : list issue) : string :=
  "VeriCore AI analysis completed at " ++ strftime t
  ++ ". Context: " ++ Text.upper context_type
  ++ ". Trust Score: " ++ Text.str_of_int score ++ "/100 (" ++ label
  ++ " confidence). " ++ Text.str_of_int (Z.of_nat (List.length issues))
  ++ " issue(s) flagged for review. "
  ++ (if true then "Demo mode - simulated analysis." else "Production analysis.").

(** ** [generate_demo_analysis]

    The function mutates the generator of the [random] module and reads
    the clock: both are the [world] it runs in. *)

Section Demo.

Context {RT : Runtime}.

Record world : Type := World { random_state : generator; clock : datetime }.

Definition M (A : Type) : Type := world -> A * world.

Definition ret {A} (a : A) : M A := fun w => (a, w).

Definition bind {A B} (m : M A) (k : A -> M B) : M B :=
  fun w => let (a, w') := m w in k a w'.

Notation "x <- m ;; k" := (bind m (fun x => k))
  (at level 100, m at next level, right associativity).

(** [random.seed(n)] *)
Definition random_seed (n : Z) : M unit :=
  fun w => (tt, World (seed n) (clock w)).

(** [random.randint(a, b)] *)
Definition random_randint (a b : Z) : M Z :=
  fun w => let (n, g) := randint a b (random_state w) in (n, World g (clock w)).

(** [datetime.now()] *)
Definition datetime_now : M datetime := fun w => (clock w, w).

(** Line 193 *)
Definition text_hash (answer_text : string) : Z :=
  int_of_hex (Text.take 8 (hexdigest (md5 (encode answer_text)))).

(** Lines 197-210: the draw of the base score and the two penalties.
    ([has_quotes], line 200, is never read.) *)
Definition base_score_210 (answer_text : string) : M Z :=
  let text_length := Text.len answer_text in
  let has_numbers := Text.any Text.isdigit answer_text in
  let has_percentages := Text.contains "%" answer_text in
  base_score <- random_randint 45 85 ;;
  base_score <- (if has_numbers && has_percentages
                 then (d <- random_randint 5 15 ;; ret (base_score - d))
                 else ret base_score) ;;
  (if 500 <? text_length
   then (d <- random_randint 0 10 ;; ret (base_score - d))
   else ret base_score).

(** Lines 211-212: the bonus of a short text. *)
Definition base_score_212 (answer_text : string) (base_score : Z) : M Z :=
  let word_count := Z.of_nat (List.length (Text.split answer_text)) in
  if word_count <? 20
  then (d <- random_randint 5 10 ;; ret (base_score + d))
  else ret base_score.

(** Lines 225-234 *)
Definition make_snippets (answer_text : string) : M (list string) :=
  let words := Text.split answer_text in
  let len_words := Z.of_nat (List.length words) in
  let snippets : list string := [] in
  snippets <- (if 10 <? len_words
               then (start <- random_randint 0 (Z.min 5 (len_words - 5)) ;;
                     n <- random_randint 4 8 ;;
                     ret (snippets ++ [Text.join " " (Text.slice words start (start + n))])%list)
               else ret snippets) ;;
  snippets <- (if 20 <? len_words
               then (start <- random_randint 10 (Z.min 15 (len_words - 5)) ;;
                     n <- random_randint 4 8 ;;
                     ret (snippets ++ [Text.join " " (Text.slice words start (start + n))])%list)
               else ret snippets) ;;
  ret (match snippets with
       | [] => [if 50 <? Text.len answer_text
                then Text.take 50 answer_text ++ "..."
                else answer_text]
       | _ => snippets
       end).

(** Line 281 *)
Definition nda_audit_note_of (context_type : string) (score : Z)
  (label : string) (issues : list issue) : M string :=
  t <- datetime_now ;;
  ret (audit_note_text t context_type score label issues).

(** The local variables of a run that the results below speak about. *)
Record frame : Type := Frame {
  f_base_210 : Z;             (* [base_score] before line 211 *)
  f_base_212 : Z;             (* [base_score] after line 212 *)
  f_snippets : list string;   (* [snippets] after line 234 *)
  f_result : analysis         (* the dict returned *)
}.

Definition run_demo (answer_text context_type : string) : M frame :=
  _ <- random_seed (text_hash answer_text) ;;
  base_210 <- base_score_210 answer_text ;;
  base_score <- base_score_212 answer_text base_210 ;;
  let score := clamp base_score in
  let label := label_of score in
  snippets <- make_snippets answer_text ;;
  let templates := templates_of context_type in
  let num_issues := num_issues_of score in
  let issues := make_issues num_issues snippets templates in
  let ctx_name := lookup context_type context_names "general" in
  let compliance_report := compliance_report_of label ctx_name score in
  nda_audit_note <- nda_audit_note_of context_type score label issues ;;
  ret (Frame base_210 base_score snippets
         (Analysis score label issues compliance_report nda_audit_note)).

Definition generate_demo_analysis (answer_text context_type : string)
  : M analysis :=
  f <- run_demo answer_text context_type ;;
  ret (f_result f).

End Demo.

(** ** The runtime of CPython

    [hashlib.md5] (RFC 1321) and the Mersenne Twister behind the [random]
    module, as CPython's [_randommodule.c] and [random.py] have them. *)

Module Bits.
Definition mask32 : Z := 4294967295.
Definition u32 (x : Z) : Z := Z.land x mask32.
Definition rotl32 (x n : Z) : Z :=
  u32 (Z.lor (Z.shiftl x n) (Z.shiftr x (32 - n))).
Definition not32 (x : Z) : Z := Z.lxor x mask32.
End Bits.

Module MD5.
Import Bits.

Definition sines : list Z :=
  [3614090360; 3905402710; 606105819; 3250441966; 4118548399; 1200080426; 2821735955; 4249261313; 1770035416; 2336552879; 4294925233; 2304563134; 1804603682; 4254626195; 2792965006; 1236535329; 4129170786; 3225465664; 643717713; 3921069994; 3593408605; 38016083; 3634488961; 3889429448; 568446438; 3275163606; 4107603335; 1163531501; 2850285829; 4243563512; 1735328473; 2368359562; 4294588738; 2272392833; 1839030562; 4259657740; 2763975236; 1272893353; 4139469664; 3200236656; 681279174; 3936430074; 3572445317; 76029189; 3654602809; 3873151461; 530742520; 3299628645; 4096336452; 1126891415; 2878612391; 4237533241; 1700485571; 2399980690; 4293915773; 2240044497; 1873313359; 4264355552; 2734768916; 1309151649; 4149444226; 3174756917; 718787259; 3951481745].

Definition shifts : list Z :=
  [7; 12; 17; 22; 7; 12; 17; 22; 7; 12; 17; 22; 7; 12; 17; 22; 5; 9; 14; 20; 5; 9; 14; 20; 5; 9; 14; 20; 5; 9; 14; 20; 4; 11; 16; 23; 4; 11; 16; 23; 4; 11; 16; 23; 4; 11; 16; 23; 6; 10; 15; 21; 6; 10; 15; 21; 6; 10; 15; 21; 6; 10; 15; 21].

Definition bytes_of (s : string) : list Z :=
  List.map (fun c => Z.of_N (Text.ord c)) (list_ascii_of_string s).

(** little-endian bytes of [x], [n] of them *)
Fixpoint le_bytes (n : nat) (x : Z) : list Z :=
  match n with
  | O => []
  | S n' => Z.land x 255 :: le_bytes n' (Z.shiftr x 8)
  end.

Fixpoint le_word (bs : list Z) : Z :=
  match bs with
  | [] => 0
  | b :: bs' => b + 256 * le_word bs'
  end.

(** the message, the byte 0x80, zeros up to 56 modulo 64, the bit length *)
Definition pad (msg : list Z) : list Z :=
  let n := Z.of_nat (List.length msg) in
  let zeros := Z.to_nat ((55 - n) mod 64) in
  msg ++ [128] ++ repeat 0 zeros ++ le_bytes 8 (8 * n).

Fixpoint words (n : nat) (bs : list Z) : list Z :=
  match n with
  | O => []
  | S n' => le_word (firstn 4 bs) :: words n' (skipn 4 bs)
  end.

Definition state : Type := (Z * Z * Z * Z)%type.

Definition step (M : list Z) (st : state) (i : nat) : state :=
  let '(A, B, C, D) := st in
  let zi := Z.of_nat i in
  let '(F, g) :=
    if zi <? 16 then (Z.lor (Z.land B C) (Z.land (not32 B) D), zi)
    else if zi <? 32 then (Z.lor (Z.land D B) (Z.land (not32 D) C), (5 * zi + 1) mod 16)
    else if zi <? 48 then (Z.lxor (Z.lxor B C) D, (3 * zi + 5) mod 16)
    else (Z.lxor C (Z.lor B (not32 D)), (7 * zi) mod 16) in
  let F := u32 (F + A + nth i sines 0 + nth (Z.to_nat g) M 0) in
  (D, u32 (B + rotl32 F (nth i shifts 0)), B, C).

Definition block (st : state) (M : list Z) : state :=
  let '(A, B, C, D) := st in
  let '(A', B', C', D') := fold_left (step M) (seq 0 64) st in
  (u32 (A + A'), u32 (B + B'), u32 (C + C'), u32 (D + D')).

Fixpoint blocks (n : nat) (st : state) (bs : list Z) : state :=
  match n with
  | O => st
  | S n' => blocks n' (block st (words 16 (firstn 64 bs))) (skipn 64 bs)
  end.

Definition digest_bytes (msg : list Z) : list Z :=
  let bs := pad msg in
  let '(A, B, C, D) :=
    blocks (List.length bs / 64) (1732584193, 4023233417, 2562383102, 271733878) bs in
  le_bytes 4 A ++ le_bytes 4 B ++ le_bytes 4 C ++ le_bytes 4 D.

(** [hashlib.md5(b).digest()] *)
Definition digest (s : string) : string :=
  string_of_list_ascii
    (List.map (fun b => Text.chr (Z.to_N b)) (digest_bytes (bytes_of s))).
End MD5.

Module MT.
Import Bits.

Definition size : nat := 624.
Definition period : nat := 397.

Record state : Type := State { mt : list Z; index : nat }.

Definition get (l : list Z) (i : nat) : Z := nth i l 0.

Fixpoint set (l : list Z) (i : nat) (v : Z) : list Z :=
  match l, i with
  | [], _ => []
  | _ :: l', O => v :: l'
  | x :: l', S i' => x :: set l' i' v
  end.

(** [init_genrand(s)] *)
Fixpoint init_loop (n : nat) (i : Z) (prev : Z) : list Z :=
  match n with
  | O => []
  | S n' =>
      let x := u32 (1812433253 * Z.lxor prev (Z.shiftr prev 30) + i) in
      x :: init_loop n' (i + 1) x
  end.

Definition init_genrand (s : Z) : list Z :=
  let s := u32 s in s :: init_loop (size - 1) 1 s.

(** the first loop of [init_by_array] *)
Fixpoint mix1 (k : nat) (key : list Z) (mt : list Z) (i j : nat) : list Z * nat :=
  match k with
  | O => (mt, i)
  | S k' =>
      let prev := get mt (i - 1) in
      let v := u32 (Z.lxor (get mt i) (Z.lxor prev (Z.shiftr prev 30) * 1664525)
                    + get key j + Z.of_nat j) in
      let mt := set mt i v in
      let i := S i in
      let j := S j in
      let '(mt, i) := if (size <=? i)%nat then (set mt 0 (get mt (size - 1)), 1%nat) else (mt, i) in
      let j := if (List.length key <=? j)%nat then O else j in
      mix1 k' key mt i j
  end.

(** the second loop of [init_by_array] *)
Fixpoint mix2 (k : nat) (mt : list Z) (i : nat) : list Z :=
  match k with
  | O => mt
  | S k' =>
      let prev := get mt (i - 1) in
      let v := u32 (Z.lxor (get mt i) (Z.lxor prev (Z.shiftr prev 30) * 1566083941)
                    - Z.of_nat i) in
      let mt := set mt i v in
      let i := S i in
      let '(mt, i) := if (size <=? i)%nat then (set mt 0 (get mt (size - 1)), 1%nat) else (mt, i) in
      mix2 k' mt i
  end.

Definition init_by_array (key : list Z) : state :=
  let mt := init_genrand 19650218 in
  let '(mt, i) := mix1 (Nat.max size (List.length key)) key mt 1 0 in
  let mt := mix2 (size - 1) mt i in
  State (set mt 0 2147483648) size.

(** the 32-bit words of [abs(n)], least significant first; one word for 0 *)
Fixpoint key_words (fuel : nat) (n : Z) : list Z :=
  match fuel with
  | O => []
  | S f => u32 n :: (if Z.shiftr n 32 =? 0 then [] else key_words f (Z.shiftr n 32))
  end.

Definition seed (n : Z) : state :=
  let a := Z.abs n in
  init_by_array (key_words (S (Z.to_nat (Z.log2 a))) a).

Definition twist_word (cur next far : Z) : Z :=
  let y := Z.lor (Z.land cur 2147483648) (Z.land next 2147483647) in
  Z.lxor (Z.lxor far (Z.shiftr y 1)) (if Z.odd y then 2567483615 else 0).

(** the regeneration of the 624 words, in place, word [kk] onward *)
Fixpoint twist (n : nat) (kk : nat) (mt : list Z) : list Z :=
  match n with
  | O => mt
  | S n' =>
      let v := twist_word (get mt kk) (get mt (S kk mod size)) (get mt ((kk + period) mod size)) in
      twist n' (S kk) (set mt kk v)
  end.

Definition temper (y : Z) : Z :=
  let y := Z.lxor y (Z.shiftr y 11) in
  let y := Z.lxor y (Z.land (Z.shiftl y 7) 2636928640) in
  let y := Z.lxor y (Z.land (Z.shiftl y 15) 4022730752) in
  Z.lxor y (Z.shiftr y 18).

Definition genrand_uint32 (g : state) : Z * state :=
  let g := if (size <=? index g)%nat then State (twist size 0 (mt g)) 0 else g in
  (u32 (temper (get (mt g) (index g))), State (mt g) (S (index g))).

(** [getrandbits(k)] for [k > 0]: words of 32 bits, least significant
    first, the last one cut to the bits still due *)
Fixpoint getrandbits_words (words : nat) (k : Z) (g : state) : Z * state :=
  match words with
  | O => (0, g)
  | S w' =>
      let (r, g) := genrand_uint32 g in
      let r := if k <? 32 then Z.shiftr r (32 - k) else r in
      let (hi, g) := getrandbits_words w' (k - 32) g in
      (r + Z.shiftl hi 32, g)
  end.

Definition getrandbits (k : Z) (g : state) : Z * state :=
  getrandbits_words (Z.to_nat ((k - 1) / 32 + 1)) k g.

Fixpoint randbelow_loop (fuel : nat) (n k : Z) (g : state) : Z * state :=
  match fuel with
  | O => (0, g)
  | S f =>
      let (r, g) := getrandbits k g in
      if r <? n then (r, g) else randbelow_loop f n k g
  end.

Definition randbelow (n : Z) (g : state) : Z * state :=
  randbelow_loop 1024 n (Z.log2 n + 1) g.

Definition randint (a b : Z) (g : state) : Z * state :=
  if b <? a then (a, g)
  else let (r, g) := randbelow (b - a + 1) g in (a + r, g).
End MT.

(** CPython's [random.randint] draws until a draw is below the width of the
    range; [MT.randbelow] stops after 1024 draws, each of which is refused
    with a chance below one half. *)
Definition cpython : Runtime :=
  {| md5 := MD5.digest;
     generator := MT.state;
     seed := MT.seed;
     randint := MT.randint |}.


(** ** The vocabulary of the specification *)

(** Step 7 of the simulator in the specification: the number of issues a
    label calls for. *)
Definition issue_count_for_label (label : string) : Z :=
  if String.eqb label "High" then 1
  else if String.eqb label "Medium" then 2
  else 3.

(** The score of a run had lines 211-212 not been there: line 214 applied
    to [base_score] as it stands before line 211. *)
Definition score_without_bonus (f : frame) : Z :=
  clamp (f_base_210 f).

(** [sub] occurs in [text]. *)
Definition substring_of (sub text : string) : Prop :=
  exists pre post, text = pre ++ sub ++ post.




(** The texts [parse_llm_response] may hand to [json.loads]: the reply,
    group 1 of the fence pattern, the match of the object pattern. *)
Definition candidates (response_text : string) : list string :=
  ([response_text]
   ++ match Re.search fence_re response_text with
      | Some m => match Re.group1 m with Some g => [g] | None => [] end
      | None => []
      end
   ++ match Re.search object_re response_text with
      | Some m => [Re.matched m]
      | None => []
      end)%list.


(** The shape of a result, after the models [Issue] and [AnalyzeResponse]
    (lines 40-53) and the values their comments list. *)
Definition is_str (v : option value) : bool :=
  match v with Some (VStr _) => true | _ => false end.

Definition is_one_of (names : list string) (v : option value) : bool :=
  match v with
  | Some (VStr s) => existsb (String.eqb s) names
  | _ => false
  end.

Definition is_issue (v : value) : bool :=
  match v with
  | VDict d =>
      is_str (Dict.get "snippet" d)
      && is_one_of ["hallucination"; "uncertain"; "compliance-risk"]
           (Dict.get "riskType" d)
      && is_str (Dict.get "explanation" d)
      && is_str (Dict.get "humanCheckHint" d)
  | _ => false
  end.

Definition is_analysis_result (v : value) : bool :=
  match v with
  | VDict d =>
      match Dict.get "score" d with Some (VInt _) => true | _ => false end
      && is_one_of ["High"; "Medium"; "Low"] (Dict.get "label" d)
      && match Dict.get "issues" d with
         | Some (VList l) => forallb is_issue l
         | _ => false
         end
      && is_str (Dict.get "complianceReport" d)
      && is_str (Dict.get "ndaauditNote" d)
  | _ => false
  end.

(** What a scan may do on [s]: stop at a shorter rest, or fail with
    [JSONDecodeError] or [ValueError]. *)
Definition shorter {A} (s : string) (r : Json.scanned A) : Prop :=
  match r with
  | Json.Scanned _ rest => (String.length rest < String.length s)%nat
  | Json.Failed e => e = JSONDecodeError \/ e = ValueError
  end.

(** A regular expression whose every match sets group 1. *)
Fixpoint sets_group (r : Re.regex) : bool :=
  match r with
  | Re.Group _ => true
  | Re.Seq r1 r2 => sets_group r1 || sets_group r2
  | _ => false
  end.


(** A computation that neither reads nor moves the clock. *)
Definition clock_free {RT : Runtime} {A} (m : M A) : Prop :=
  forall g t t',
    m (World g t') = (fst (m (World g t)), World (random_state (snd (m (World g t)))) t').

(** A line feed. *)
Definition nl : string := String "010" EmptyString.

(** One more character in front of a match and of its group. *)
Definition grow (c : ascii) (m : Re.found) : Re.found :=
  Re.Found (String c (Re.matched m)) (option_map (String c) (Re.group1 m))
           (Re.rest m).


(** A process of CPython just started, on 3 November 2026 at 09:00:00. *)
Definition sample_world : @world cpython :=
  @World cpython (MT.seed 0) (Datetime 2026 11 3 9 0 0).

(** A reply of the shape the prompt asks for, from brace to brace, and the
    value it decodes to. *)
Definition sample_body : string :=
  dq "'score': 82, 'label': 'High', 'issues': [{'snippet': 'within thirty days', 'riskType': 'uncertain', 'explanation': 'No source is given.', 'humanCheckHint': 'Ask for the clause.'}], 'complianceReport': 'Low risk.', 'ndaauditNote': 'Reviewed.'".

Definition sample_reply : string := String "{" (sample_body ++ "}").

Definition sample_value : value :=
  VDict
    [("score", VInt 82); ("label", VStr "High");
     ("issues",
       VList
         [VDict
            [("snippet", VStr "within thirty days");
             ("riskType", VStr "uncertain");
             ("explanation", VStr "No source is given.");
             ("humanCheckHint", VStr "Ask for the clause.")]]);
     ("complianceReport", VStr "Low risk."); ("ndaauditNote", VStr "Reviewed.")].

(** * The request handlers

    The rest of [backend/main.py]: the prompt sent to the model, the voice
    summary, and the four endpoints with the history they keep. *)

(** ** More text primitives *)

Module Str.

Definition isupper (c : ascii) : bool :=
  ((65 <=? Text.ord c) && (Text.ord c <=? 90))%N.

(** [s.lower()] *)
Definition lower (s : string) : string :=
  Text.map (fun c => if isupper c then Text.chr (Text.ord c + 32) else c) s.

(** [s.lstrip()], [s.rstrip()] and [s.strip()] *)
Fixpoint lstrip (s : string) : string :=
  match s with
  | String c s' => if Text.isspace c then lstrip s' else s
  | EmptyString => EmptyString
  end.

Fixpoint rstrip (s : string) : string :=
  match s with
  | String c s' =>
      match rstrip s' with
      | EmptyString => if Text.isspace c then EmptyString else String c EmptyString
      | r => String c r
      end
  | EmptyString => EmptyString
  end.

Definition strip (s : string) : string := rstrip (lstrip s).

(** [s[:n] + "..." if len(s) > n else s] (lines 234 and 369) *)
Definition preview (n : nat) (s : string) : string :=
  if Z.of_nat n <? Text.len s then Text.take n s ++ "..." else s.

End Str.

(** ** [get_user_prompt] *)

(** A double quote. *)
Definition dquote : string := String Json.quote EmptyString.

(** [SYSTEM_PROMPT] (lines 56-99), line by line. *)
Definition SYSTEM_PROMPT : string :=
  Text.join nl
    ["You are 'VeriCore AI', an advanced AI trust and compliance reviewer designed for enterprise use in high-stakes domains like legal, financial, and regulatory compliance.";
     "";
     "INTERNAL PROCESS (Multi-Model Consensus Simulation):";
     "You internally simulate 3 independent expert models reviewing the given AI-generated answer:";
     "- Expert A (GPT-like): Focuses on factual accuracy and logical consistency";
     "- Expert B (Claude-like): Focuses on nuance, caveats, and potential misinterpretations  ";
     "- Expert C (Llama-like): Focuses on domain-specific compliance risks and red flags";
     "";
     "For each important claim in the AI answer, you consider:";
     "1. Do the three experts agree on its accuracy and appropriateness?";
     "2. Is this claim specific and verifiable in principle, or is it vague/unsubstantiated?";
     "3. Does this claim pose risk in a legal/financial/compliance context?";
     "4. Could this claim lead to regulatory issues, liability, or misinformation if acted upon?";
     "";
     "IMPORTANT GUIDELINES:";
     "- You DO NOT invent specific laws, article numbers, or regulations unless they are widely known";
     "- You reason about RISK CATEGORIES and WHERE HUMAN REVIEW IS REQUIRED";
     "- You are conservative: when in doubt, flag for human review";
     "- You provide actionable guidance for compliance officers and legal teams";
     "";
     "SCORING METHODOLOGY:";
     "- Score 80-100 (High Trust): Experts largely agree, claims are well-reasoned, low compliance risk";
     "- Score 50-79 (Medium Trust): Some disagreement or uncertainty, moderate risk, human review recommended";
     "- Score 0-49 (Low Trust): Significant issues identified, potential hallucinations, high compliance risk";
     "";
     "OUTPUT FORMAT:";
     "You MUST output ONLY a valid JSON object with NO additional text, markdown, or explanation. The JSON must follow this exact structure:";
     "";
     "{";
     "  " ++ dquote ++ "score" ++ dquote ++ ": <number 0-100>,";
     "  " ++ dquote ++ "label" ++ dquote ++ ": " ++ dquote ++ "<High|Medium|Low>" ++ dquote ++ ",";
     "  " ++ dquote ++ "issues" ++ dquote ++ ": [";
     "    {";
     "      " ++ dquote ++ "snippet" ++ dquote ++ ": " ++ dquote ++ "<short quote of the risky/problematic part from the input>" ++ dquote ++ ",";
     "      " ++ dquote ++ "riskType" ++ dquote ++ ": " ++ dquote ++ "<hallucination|uncertain|compliance-risk>" ++ dquote ++ ",";
     "      " ++ dquote ++ "explanation" ++ dquote ++ ": " ++ dquote ++ "<clear explanation in plain English of why this is flagged>" ++ dquote ++ ",";
     "      " ++ dquote ++ "humanCheckHint" ++ dquote ++ ": " ++ dquote ++ "<specific guidance on what a human reviewer should verify>" ++ dquote;
     "    }";
     "  ],";
     "  " ++ dquote ++ "complianceReport" ++ dquote ++ ": " ++ dquote ++ "<4-8 sentence summary suitable for a lawyer/compliance officer>" ++ dquote ++ ",";
     "  " ++ dquote ++ "ndaauditNote" ++ dquote ++ ": " ++ dquote ++ "<2-4 sentences suitable for an audit log or NDA file>" ++ dquote;
     "}";
     "";
     "If the input is generally trustworthy with no major issues, still provide at least one minor observation in issues array and appropriate high-trust scores."].

(** [context_descriptions] (lines 104-108) *)
Definition context_descriptions : list (string * string) :=
  [("legal", "Legal / Contract Review - This content may be used for legal decisions, contract analysis, or legal advice");
   ("finance", "Financial / Audit / Risk - This content may be used for financial decisions, audit reports, or risk assessments");
   ("compliance", "Policy / Regulatory Compliance - This content may be used for regulatory filings, policy decisions, or compliance documentation")].

(** The two fixed parts of the prompt, after the description and after
    the answer. *)
Definition prompt_middle : string :=
  nl ++ nl ++ "AI-GENERATED ANSWER TO ANALYZE:" ++ nl ++ dquote ++ dquote ++ dquote ++ nl.

Definition prompt_tail : string :=
  nl ++ dquote ++ dquote ++ dquote ++ nl ++ nl
  ++ "Please analyze this AI-generated answer for trust, accuracy, and compliance risks. Simulate multi-model consensus and output your analysis as a JSON object following the specified format. Remember to output ONLY valid JSON with no additional text.".

Definition get_user_prompt (answer_text context_type : string) : string :=
  let context_desc :=
    lookup context_type context_descriptions
      (lookup "legal" context_descriptions "") in
  "CONTEXT TYPE: " ++ context_desc ++ prompt_middle ++ answer_text ++ prompt_tail.

(** Lines 329-331 *)
Definition full_prompt (answer_text context_type : string) : string :=
  SYSTEM_PROMPT ++ nl ++ nl ++ get_user_prompt answer_text context_type.

(** ** Exceptions and dicts at run time *)

(** What the handlers may raise: an exception of [json.loads], one of the
    interpreter's on a value of the wrong kind, or an exception that comes
    out of a library (the Gemini client, pydantic, [datetime]). *)
Inductive raised : Type :=
| Exn (e : exn)
| AttributeError
| OverflowError
| LibraryError.

(** A computation that returns or raises. *)
Definition result (A : Type) : Type := (raised + A)%type.

Definition raise {A} (e : raised) : result A := inl e.

Definition and_then {A B} (r : result A) (k : A -> result B) : result B :=
  match r with
  | inl e => inl e
  | inr a => k a
  end.

Notation "'let*' x ':=' r 'in' k" := (and_then r (fun x => k))
  (at level 10, x name, r at level 100, k at level 200).

(** [[f(x) for x in l]] *)
Fixpoint for_each {A B} (f : A -> result B) (l : list A) : result (list B) :=
  match l with
  | [] => inr []
  | x :: l' =>
      let* y := f x in
      let* ys := for_each f l' in
      inr (y :: ys)
  end.

Module Py.

(** [analysis.get(key, default)]: only a dict has the method. *)
Definition get (analysis : value) (key : string) (default : value)
  : result value :=
  match analysis with
  | VDict d =>
      inr (match Dict.get key d with Some v => v | None => default end)
  | _ => raise AttributeError
  end.

(** [len(v)] *)
Definition len (v : value) : result Z :=
  match v with
  | VList l => inr (Z.of_nat (List.length l))
  | VStr s => inr (Text.len s)
  | VDict d => inr (Z.of_nat (List.length d))
  | _ => raise (Exn TypeError)
  end.

(** [for x in v]: the elements of a list, the characters of a text, the
    keys of a dict. *)
Fixpoint chars (s : string) : list value :=
  match s with
  | EmptyString => []
  | String c s' => VStr (String c EmptyString) :: chars s'
  end.

Definition iter (v : value) : result (list value) :=
  match v with
  | VList l => inr l
  | VStr s => inr (chars s)
  | VDict d => inr (List.map (fun kv => VStr (fst kv)) d)
  | _ => raise (Exn TypeError)
  end.

End Py.

(** The dict that [generate_demo_analysis] returns (lines 262-267 and
    283-289), as a value. *)
Definition dict_of_issue (i : issue) : value :=
  VDict [("snippet", VStr (snippet i)); ("riskType", VStr (riskType i));
         ("explanation", VStr (explanation i));
         ("humanCheckHint", VStr (humanCheckHint i))].

Definition dict_of (a : analysis) : value :=
  VDict [("score", VInt (score a)); ("label", VStr (label a));
         ("issues", VList (List.map dict_of_issue (issues a)));
         ("complianceReport", VStr (complianceReport a));
         ("ndaauditNote", VStr (ndaauditNote a))].

(** ** The models of the API (lines 35-53) *)

Module Request.
Record t : Type := Make {
  answerText : string;
  contextType : string;
  voiceMode : bool
}.
End Request.

Module Response.
Record t : Type := Make {
  score : Z;
  label : string;
  issues : list issue;
  complianceReport : string;
  ndaauditNote : string;
  voiceSummary : option string;
  timestamp : string
}.
End Response.

(** An entry of [analysis_history] (lines 364-371). *)
Module Entry.
Record t : Type := Make {
  timestamp : string;
  contextType : string;
  label : string;
  score : Z;
  inputPreview : string;
  voiceMode : bool
}.
End Entry.

(** ** The clock and the timestamps *)

(** A reading of [datetime.now()], to the microsecond. *)
Record instant : Type := Instant { date_time : datetime; microsecond : Z }.

Definition is_leap (y : Z) : bool :=
  (y mod 4 =? 0) && (negb (y mod 100 =? 0) || (y mod 400 =? 0)).

Definition days_in_month (y m : Z) : Z :=
  if m =? 2 then (if is_leap y then 29 else 28)
  else if (m =? 4) || (m =? 6) || (m =? 9) || (m =? 11) then 30
  else 31.

(** The readings a clock can give. *)
Definition valid_instant (t : instant) : bool :=
  let d := date_time t in
  (1 <=? year d) && (year d <=? 9999)
  && (1 <=? month d) && (month d <=? 12)
  && (1 <=? day d) && (day d <=? days_in_month (year d) (month d))
  && (0 <=? hour d) && (hour d <=? 23)
  && (0 <=? minute d) && (minute d <=? 59)
  && (0 <=? second d) && (second d <=? 59)
  && (0 <=? microsecond t) && (microsecond t <=? 999999).

(** [t.isoformat()]: the fraction is left out when it is zero. *)
Definition isoformat (t : instant) : string :=
  let d := date_time t in
  Text.pad 4 (year d) ++ "-" ++ Text.pad 2 (month d) ++ "-" ++ Text.pad 2 (day d)
  ++ "T" ++ Text.pad 2 (hour d) ++ ":" ++ Text.pad 2 (minute d) ++ ":"
  ++ Text.pad 2 (second d)
  ++ (if microsecond t =? 0 then "" else "." ++ Text.pad 6 (microsecond t)).

(** [t.date()], and [==] on dates. *)
Definition date_of (t : instant) : Z * Z * Z :=
  (year (date_time t), month (date_time t), day (date_time t)).

Definition date_eqb (a b : Z * Z * Z) : bool :=
  let '(y1, m1, d1) := a in
  let '(y2, m2, d2) := b in
  (y1 =? y2) && (m1 =? m2) && (d1 =? d2).

(** ** The libraries behind the handlers

    [str] on the values whose text depends on the interpreter (a float, a
    list, a dict); the two constructors of pydantic, [new_Issue v] being
    [Issue] called with the items of [v] for keywords (line 356) and
    [new_AnalyzeResponse] the call of lines 353-361; and
    [datetime.fromisoformat].  [None] stands for an exception. *)

Class Library : Type := {
  str_of : value -> string;
  new_Issue : value -> option issue;
  new_AnalyzeResponse :
    value -> value -> list issue -> value -> value -> option string -> string
    -> option Response.t;
  fromisoformat : string -> option instant
}.

(** What the libraries promise: pydantic takes fields of the declared
    types as they are, and [fromisoformat] reads what [isoformat] wrote. *)
Class LibraryLaws (LB : Library) : Prop := {
  new_Issue_typed : forall i, new_Issue (dict_of_issue i) = Some i;
  new_AnalyzeResponse_typed :
    forall n l i c a v t,
      new_AnalyzeResponse (VInt n) (VStr l) i (VStr c) (VStr a) v t
      = Some (Response.Make n l i c a v t);
  fromisoformat_isoformat :
    forall t, valid_instant t = true -> fromisoformat (isoformat t) = Some t
}.

(** ** [generate_voice_summary] *)

(** [context_names] of line 177 *)
Definition voice_context_names : list (string * string) :=
  [("legal", "legal"); ("finance", "financial"); ("compliance", "compliance")].

(** [label == name] *)
Definition is_text (v : value) (name : string) : bool :=
  match v with
  | VStr s => String.eqb s name
  | _ => false
  end.

Section Voice.

Context {LB : Library}.

(** What an f-string prints for a value. *)
Definition format_value (v : value) : string :=
  match v with
  | VNone => "None"
  | VBool true => "True"
  | VBool false => "False"
  | VInt n => Text.str_of_int n
  | VStr s => s
  | _ => str_of v
  end.

Definition generate_voice_summary (analysis : value) (context_type : string)
  : result string :=
  let* score := Py.get analysis "score" (VInt 50) in
  let* label := Py.get analysis "label" (VStr "Medium") in
  let* issues := Py.get analysis "issues" (VList []) in
  let* num_issues := Py.len issues in
  let (status, recommendation) :=
    if is_text label "High" then
      ("appears to be trustworthy", "can likely proceed with standard review")
    else if is_text label "Medium" then
      ("has some areas of concern",
       "should be reviewed by a qualified professional before proceeding")
    else
      ("has significant trust and compliance risks",
       "should be escalated for thorough human review before any action") in
  let ctx := lookup context_type voice_context_names "" in
  inr ("Based on multi-model consensus analysis, this " ++ ctx ++ " content "
       ++ status ++ " with a trust score of " ++ format_value score
       ++ " out of 100. I identified " ++ Text.str_of_int num_issues
       ++ " potential issue" ++ (if negb (num_issues =? 1) then "s" else "")
       ++ " that " ++ (if negb (num_issues =? 1) then "require" else "requires")
       ++ " attention. My recommendation is that this content "
       ++ recommendation ++ ".").

End Voice.

(** ** Numbers

    [a / b] on integers, [x * 100] and [round(x)]: floats are the binary64
    numbers of the interpreter.  An integer below 2^53 is converted
    exactly. *)

Module Num.

Definition float_of_int (n : Z) : PrimFloat.float :=
  PrimFloat.of_uint63 (Uint63.of_Z n).

Definition true_divide (a b : Z) : PrimFloat.float :=
  PrimFloat.div (float_of_int a) (float_of_int b).

(** The integer nearest to [n / d], the even one of two, for [0 <= n] and
    [0 < d]. *)
Definition nearest_even (n d : Z) : Z :=
  let k := n / d in
  let r := n mod d in
  if 2 * r <? d then k
  else if d <? 2 * r then k + 1
  else if Z.even k then k else k + 1.

(** [round(x)]: a float is [m * 2^e] exactly. *)
Definition round (x : PrimFloat.float) : result Z :=
  match FloatOps.Prim2SF x with
  | SpecFloat.S754_nan => raise (Exn ValueError)
  | SpecFloat.S754_infinity _ => raise OverflowError
  | SpecFloat.S754_zero _ => inr 0
  | SpecFloat.S754_finite s m e =>
      let v := if 0 <=? e then Zpos m * 2 ^ e
               else nearest_even (Zpos m) (2 ^ (- e)) in
      inr (if s then - v else v)
  end.

End Num.

(** ** The endpoints *)

(** What a request finds outside the process: the two environment
    variables, the readings of the clock in the order in which the
    handler takes them, and what the Gemini client answers to a prompt
    ([None] when it raises). *)
Record outside : Type := Outside {
  GEMINI_API_KEY : option string;
  DEMO_MODE : option string;
  readings : nat -> instant;
  generate_content : string -> option string
}.

(** A response: the body, [HTTPException(status_code=400, detail=...)], or
    [HTTPException(status_code=500, ...)], whose detail quotes the
    exception caught. *)
Inductive http (A : Type) : Type :=
| OK (body : A)
| BadRequest (detail : string)
| InternalError.
Arguments OK {A} body.
Arguments BadRequest {A} detail.
Arguments InternalError {A}.

(** The body of [root] (lines 295-300). *)
Module Health.
Record t : Type := Make {
  status : string;
  service : string;
  version : string;
  mode : string
}.
End Health.

(** The body of [get_stats] (lines 419-423). *)
Module Stats.
Record t : Type := Make {
  checksToday : Z;
  highRiskPercentage : Z;
  estimatedFinesAvoided : Z
}.
End Stats.

(** [not s] for what [os.getenv] returns. *)
Definition unset (s : option string) : bool :=
  match s with
  | None => true
  | Some s => String.eqb s ""
  end.

(** Line 318 *)
Definition use_demo_mode (o : outside) : bool :=
  unset (GEMINI_API_KEY o)
  || String.eqb (Str.lower (match DEMO_MODE o with Some s => s | None => "" end))
       "true".

(** [root] *)
Definition root (o : outside) : Health.t :=
  Health.Make "online" "VeriCore AI" "1.0.0"
    (if unset (GEMINI_API_KEY o) then "demo" else "production").

(** A call into a library. *)
Definition checked {A} (r : option A) : result A :=
  match r with
  | Some a => inr a
  | None => raise LibraryError
  end.

Section Handlers.

Context {RT : Runtime} {LB : Library}.

(** The state of the process: the generator of the [random] module and
    [analysis_history]. *)
Record server : Type := Server {
  rng : generator;
  analysis_history : list Entry.t
}.

(** Lines 321-342: the analysis, the state it leaves and the number of
    readings of the clock it took. *)
Definition run_analysis (o : outside) (request : Request.t) (st : server)
  : result value * server * nat :=
  if use_demo_mode o then
    let (analysis, w) :=
      generate_demo_analysis (Request.answerText request)
        (Request.contextType request)
        (World (rng st) (date_time (readings o 0))) in
    (inr (dict_of analysis), Server (random_state w) (analysis_history st), 1%nat)
  else
    match generate_content o
            (full_prompt (Request.answerText request) (Request.contextType request))
    with
    | None => (raise LibraryError, st, 0%nat)
    | Some llm_response =>
        match parse_llm_response Json.loads llm_response with
        | Returns analysis => (inr analysis, st, 0%nat)
        | Raises e => (raise (Exn e), st, 0%nat)
        end
    end.

(** Lines 344-361: the voice summary, the timestamp and the response. *)
Definition build_response (o : outside) (request : Request.t)
  (analysis : value) (reads : nat) : result (Response.t * string) :=
  let* voice_summary :=
    (if Request.voiceMode request
     then (let* s := generate_voice_summary analysis (Request.contextType request) in
           inr (Some s))
     else inr None) in
  let timestamp := isoformat (readings o reads) in
  let* score := Py.get analysis "score" (VInt 50) in
  let* label := Py.get analysis "label" (VStr "Medium") in
  let* raw_issues := Py.get analysis "issues" (VList []) in
  let* items := Py.iter raw_issues in
  let* issues := for_each (fun issue => checked (new_Issue issue)) items in
  let* compliance_report := Py.get analysis "complianceReport" (VStr "") in
  let* nda_audit_note := Py.get analysis "ndaauditNote" (VStr "") in
  let* result :=
    checked (new_AnalyzeResponse score label issues compliance_report
               nda_audit_note voice_summary timestamp) in
  inr (result, timestamp).

(** Lines 363-374: the entry goes first, and the oldest one leaves once
    there are more than 50. *)
Definition store (history_entry : Entry.t) (history : list Entry.t)
  : list Entry.t :=
  let history := history_entry :: history in
  if 50 <? Z.of_nat (List.length history) then removelast history else history.

Definition analyze_content (o : outside) (request : Request.t) (st : server)
  : http Response.t * server :=
  if String.eqb (Request.answerText request) ""
     || (Text.len (Str.strip (Request.answerText request)) <? 10)
  then (BadRequest "Answer text must be at least 10 characters", st)
  else if negb (existsb (String.eqb (Request.contextType request))
                  ["legal"; "finance"; "compliance"])
  then (BadRequest "Invalid context type. Must be: legal, finance, or compliance", st)
  else
    let '(analysis, st, reads) := run_analysis o request st in
    match (let* analysis := analysis in build_response o request analysis reads) with
    | inr (result, timestamp) =>
        let history_entry :=
          Entry.Make timestamp (Request.contextType request)
            (Response.label result) (Response.score result)
            (Str.preview 40 (Request.answerText request))
            (Request.voiceMode request) in
        (OK result, Server (rng st) (store history_entry (analysis_history st)))
    | inl _ => (InternalError, st)
    end.

(** [get_history] *)
Definition get_history (st : server) : list Entry.t :=
  firstn 10 (analysis_history st).

(** [get_stats] *)
Definition fines_avoided (history : list Entry.t) : Z :=
  fold_left
    (fun fines h =>
       if String.eqb (Entry.label h) "Low" then fines + 50000
       else if String.eqb (Entry.label h) "Medium" then fines + 10000
       else fines)
    history 0.

Definition get_stats (o : outside) (st : server) : result Stats.t :=
  match analysis_history st with
  | [] => inr (Stats.Make 0 0 0)
  | _ =>
      let today := date_of (readings o 0) in
      let* stamps :=
        for_each (fun h => checked (fromisoformat (Entry.timestamp h)))
          (analysis_history st) in
      let checks_today :=
        Z.of_nat (List.length (filter (fun t => date_eqb (date_of t) today) stamps)) in
      let total := Z.of_nat (List.length (analysis_history st)) in
      let high_risk :=
        Z.of_nat (List.length (filter (fun h => String.eqb (Entry.label h) "Low")
                                 (analysis_history st))) in
      let* high_risk_percentage :=
        (if 0 <? total
         then Num.round (PrimFloat.mul (Num.true_divide high_risk total)
                          (Num.float_of_int 100))
         else inr 0) in
      inr (Stats.Make checks_today high_risk_percentage
             (fines_avoided (analysis_history st)))
  end.

End Handlers.

(** ** A library that keeps its promises

    pydantic as it is in strict mode (a field takes a value of its
    declared type and nothing else, keys that are no fields are ignored),
    [fromisoformat] for the two layouts that [isoformat] writes, and a
    float printed as it was read. *)

Module Strict.

Definition text_at (key : string) (d : list (string * value)) : option string :=
  match Dict.get key d with
  | Some (VStr s) => Some s
  | _ => None
  end.

Definition new_Issue (v : value) : option issue :=
  match v with
  | VDict d =>
      match text_at "snippet" d, text_at "riskType" d, text_at "explanation" d,
            text_at "humanCheckHint" d with
      | Some s, Some r, Some e, Some h => Some (Issue s r e h)
      | _, _, _, _ => None
      end
  | _ => None
  end.

Definition new_AnalyzeResponse (score label : value) (issues : list issue)
  (compliance_report nda_audit_note : value) (voice_summary : option string)
  (timestamp : string) : option Response.t :=
  match score, label, compliance_report, nda_audit_note with
  | VInt n, VStr l, VStr c, VStr a =>
      Some (Response.Make n l issues c a voice_summary timestamp)
  | _, _, _, _ => None
  end.

(** [w] decimal digits, read from the left. *)
Fixpoint digits (w : nat) (acc : Z) (s : string) : option (Z * string) :=
  match w with
  | O => Some (acc, s)
  | S w' =>
      match s with
      | String c s' =>
          if Text.isdigit c
          then digits w' (10 * acc + Z.of_N (Text.ord c - 48)) s'
          else None
      | EmptyString => None
      end
  end.

Definition field (w : nat) (sep : string) (s : string) : option (Z * string) :=
  match Text.strip_prefix sep s with
  | Some s' => digits w 0 s'
  | None => None
  end.

Definition fromisoformat (s : string) : option instant :=
  match field 4 "" s with
  | Some (y, s) =>
  match field 2 "-" s with
  | Some (m, s) =>
  match field 2 "-" s with
  | Some (d, s) =>
  match field 2 "T" s with
  | Some (h, s) =>
  match field 2 ":" s with
  | Some (mi, s) =>
  match field 2 ":" s with
  | Some (sec, s) =>
      let fraction :=
        match s with
        | EmptyString => Some 0
        | _ => match field 6 "." s with
               | Some (us, EmptyString) => Some us
               | _ => None
               end
        end in
      match fraction with
      | Some us =>
          let t := Instant (Datetime y m d h mi sec) us in
          if valid_instant t then Some t else None
      | None => None
      end
  | None => None end
  | None => None end
  | None => None end
  | None => None end
  | None => None end
  | None => None end.

Definition str_of (v : value) : string :=
  match v with
  | VFloat lexeme => lexeme
  | _ => ""
  end.

End Strict.

Definition strict : Library :=
  {| str_of := Strict.str_of;
     new_Issue := Strict.new_Issue;
     new_AnalyzeResponse := Strict.new_AnalyzeResponse;
     fromisoformat := Strict.fromisoformat |}.

(** ** Vocabulary of the results on the handlers *)


(** One of the three categories of the API. *)
Definition known_context (context_type : string) : bool :=
  existsb (String.eqb context_type) ["legal"; "finance"; "compliance"].

Definition is_dict (v : value) : bool :=
  match v with
  | VDict _ => true
  | _ => false
  end.


(** The entry that [analyze_content] stores for a request it answered. *)
Definition entry_of (timestamp : string) (request : Request.t)
  (result : Response.t) : Entry.t :=
  Entry.Make timestamp (Request.contextType request) (Response.label result)
    (Response.score result) (Str.preview 40 (Request.answerText request))
    (Request.voiceMode request).

(** A history whose timestamps were written by [isoformat] from readings
    of the clock. *)
Definition stamped (history : list Entry.t) : Prop :=
  Forall (fun h => exists t, valid_instant t = true /\
                             Entry.timestamp h = isoformat t) history.

(** The number of entries with a given label. *)
Definition labelled (name : string) (history : list Entry.t) : Z :=
  Z.of_nat (List.length (filter (fun h => String.eqb (Entry.label h) name) history)).

Section Served.

Context {RT : Runtime} {LB : Library}.

(** The state after a sequence of calls of [analyze_content], each with
    what it finds outside. *)
Fixpoint serve (calls : list (outside * Request.t)) (st : server) : server :=
  match calls with
  | [] => st
  | (o, request) :: calls' => serve calls' (snd (analyze_content o request st))
  end.

End Served.

(** A clock for the examples: 3 November 2026, from 09:00:00.25 on, one
    second between two readings. *)
Definition sample_readings (k : nat) : instant :=
  Instant (Datetime 2026 11 3 9 0 (Z.of_nat k mod 60)) 250000.

(** No key in the environment: demo mode. *)
Definition demo_outside : outside :=
  Outside None None sample_readings (fun _ => None).

(** A key in the environment and a model that answers [reply]. *)
Definition live_outside (reply : string) : outside :=
  Outside (Some "key") None sample_readings (fun _ => Some reply).

(** A process of CPython just started. *)
Definition sample_server : @server cpython :=
  @Server cpython (MT.seed 0) [].

Definition sample_request : Request.t :=
  Request.Make "Contract terms appear standard." "legal" true.

Create HintDb clock.

(** * Results *)

(** ** Text *)

Lemma append_nil_r s : s ++ "" = s.
Proof. induction s as [| c s IH]; cbn; [reflexivity | now rewrite IH]. Qed.

Lemma append_assoc s1 s2 s3 : (s1 ++ s2) ++ s3 = s1 ++ s2 ++ s3.
Proof. induction s1 as [| c s1 IH]; cbn; [reflexivity | now rewrite IH]. Qed.

Lemma strip_prefix_sound w : forall s r,
  Text.strip_prefix w s = Some r -> s = w ++ r.
Proof.
  induction w as [| a w IH]; intros s r H; cbn in *.
  - now inversion H.
  - destruct s as [| b s]; [discriminate |].
    destruct (Ascii.eqb_spec a b) as [-> |]; [| discriminate].
    now rewrite (IH _ _ H).
Qed.

Lemma strip_prefix_append w r : Text.strip_prefix w (w ++ r) = Some r.
Proof.
  induction w as [| a w IH]; cbn; [reflexivity |].
  now rewrite Ascii.eqb_refl.
Qed.

Lemma substring_of_refl s : substring_of s s.
Proof. exists "", "". cbn. now rewrite append_nil_r. Qed.

Lemma substring_of_trans a b c :
  substring_of a b -> substring_of b c -> substring_of a c.
Proof.
  intros (p1 & q1 & ->) (p2 & q2 & ->).
  exists (p2 ++ p1), (q1 ++ q2). now rewrite !append_assoc.
Qed.




(** ** The matcher *)

Lemma star_sound g cls : forall s m,
  In m (Re.star g cls s) ->
  s = Re.matched m ++ Re.rest m /\ Re.group1 m = None.
Proof.
  induction s as [| c s IH]; intros m H; cbn in H.
  - destruct H as [<- | []]. now split.
  - destruct (cls c).
    + assert (m = Re.Found "" None (String c s)
              \/ In m (List.map (Re.extend c) (Re.star g cls s))) as [-> | H'].
      { destruct g; cbn in H.
        - apply in_app_or in H. destruct H as [H | [<- | []]]; auto.
        - destruct H as [<- | H]; auto. }
      * now split.
      * apply in_map_iff in H'. destruct H' as (m' & <- & Hm').
        destruct (IH _ Hm') as [E G]. cbn. split; [now rewrite E at 1 | exact G].
    + destruct H as [<- | []]. now split.
Qed.

Lemma matches_sound r : forall s m,
  In m (Re.matches r s) ->
  s = Re.matched m ++ Re.rest m /\
  forall g, Re.group1 m = Some g -> substring_of g (Re.matched m).
Proof.
  induction r as [w | g cls | r IH | r IH | r1 IH1 r2 IH2]; intros s m H; cbn in H.
  - destruct (Text.strip_prefix w s) as [s' |] eqn:E; [| contradiction].
    destruct H as [<- | []]. cbn. split; [now apply strip_prefix_sound | discriminate].
  - destruct (star_sound _ _ _ _ H) as [E G]. split; [exact E |].
    intros g0 Hg. congruence.
  - apply in_app_or in H. destruct H as [H | [<- | []]].
    + now apply IH.
    + cbn. split; [reflexivity | discriminate].
  - apply in_map_iff in H. destruct H as (m' & <- & Hm'). cbn.
    destruct (IH _ _ Hm') as [E _]. split; [exact E |].
    intros g0 Hg. inversion Hg. apply substring_of_refl.
  - apply in_flat_map in H. destruct H as (m1 & H1 & H).
    apply in_map_iff in H. destruct H as (m2 & <- & H2).
    destruct (IH1 _ _ H1) as [E1 G1]. destruct (IH2 _ _ H2) as [E2 G2].
    cbn. split.
    + rewrite append_assoc, <- E2. exact E1.
    + intros g0 Hg. destruct (Re.group1 m2) as [g2 |] eqn:Eg.
      * inversion Hg; subst g0. destruct (G2 _ eq_refl) as (p & q & ->).
        exists (Re.matched m1 ++ p), q. now rewrite !append_assoc.
      * destruct (G1 _ Hg) as (p & q & ->).
        exists p, (q ++ Re.matched m2). now rewrite !append_assoc.
Qed.

Lemma matches_sets_group r : sets_group r = true ->
  forall s m, In m (Re.matches r s) -> Re.group1 m <> None.
Proof.
  induction r as [w | g cls | r IH | r IH | r1 IH1 r2 IH2]; cbn;
    try discriminate; intros Hs s m H.
  - apply in_map_iff in H. destruct H as (m' & <- & _). discriminate.
  - cbn in H. apply in_flat_map in H. destruct H as (m1 & H1 & H).
    apply in_map_iff in H. destruct H as (m2 & <- & H2). cbn.
    destruct (Re.group1 m2) eqn:E2; [discriminate |].
    apply orb_true_iff in Hs. destruct Hs as [Hs | Hs].
    + now apply (IH1 Hs _ _ H1).
    + exfalso. now apply (IH2 Hs _ _ H2).
Qed.

Lemma search_sound r : forall s m,
  Re.search r s = Some m ->
  substring_of (Re.matched m) s /\
  (forall g, Re.group1 m = Some g -> substring_of g s) /\
  (sets_group r = true -> Re.group1 m <> None).
Proof.
  induction s as [| c s IH]; intros m H; cbn in H.
  - destruct (Re.matches r "") as [| m0 l] eqn:E; [discriminate |].
    inversion H; subst m0.
    assert (In m (Re.matches r "")) as Hin by (rewrite E; now left).
    destruct (matches_sound _ _ _ Hin) as [Es G]. repeat split.
    + exists "", (Re.rest m). exact Es.
    + intros g Hg. eapply substring_of_trans; [apply (G _ Hg) |].
      exists "", (Re.rest m). exact Es.
    + intros Hs. now apply (matches_sets_group _ Hs _ _ Hin).
  - destruct (Re.matches r (String c s)) as [| m0 l] eqn:E.
    + destruct (IH _ H) as (S1 & S2 & S3). repeat split.
      * eapply substring_of_trans; [exact S1 |]. exists (String c ""), "".
        cbn. now rewrite append_nil_r.
      * intros g Hg. eapply substring_of_trans; [exact (S2 _ Hg) |].
        exists (String c ""), "". cbn. now rewrite append_nil_r.
      * exact S3.
    + inversion H; subst m0.
      assert (In m (Re.matches r (String c s))) as Hin by (rewrite E; now left).
      destruct (matches_sound _ _ _ Hin) as [Es G]. repeat split.
      * exists "", (Re.rest m). exact Es.
      * intros g Hg. eapply substring_of_trans; [apply (G _ Hg) |].
        exists "", (Re.rest m). exact Es.
      * intros Hs. now apply (matches_sets_group _ Hs _ _ Hin).
Qed.

(** ** The two patterns on a reply that embeds an object *)


Lemma any_char c : Re.any c = true.
Proof. unfold Re.any. apply orb_negb_r. Qed.

Lemma has_sub_cons w c s :
  Text.has_sub w (String c s) = false ->
  Text.startswith w (String c s) = false /\ Text.has_sub w s = false.
Proof. cbn [Text.has_sub]. intros H. now apply orb_false_iff in H. Qed.

Lemma startswith_append w : forall x y,
  Text.startswith w x = true -> Text.startswith w (x ++ y) = true.
Proof.
  induction w as [| a w IH]; intros x y H; [reflexivity |].
  destruct x as [| b x]; cbn in *; [discriminate |].
  apply andb_true_iff in H. destruct H as [-> H]. cbn. now apply IH.
Qed.

Lemma has_sub_append_l w y : forall x,
  Text.has_sub w (x ++ y) = false -> Text.has_sub w x = false.
Proof.
  induction x as [| c x IH]; intros H.
  - cbn [append] in H. destruct w as [| a w]; [destruct y; discriminate H |].
    reflexivity.
  - cbn [append] in H. apply has_sub_cons in H. destruct H as [H1 H2].
    cbn [Text.has_sub]. rewrite (IH H2), orb_false_r.
    destruct (Text.startswith w (String c x)) eqn:E; [| reflexivity].
    apply (startswith_append _ _ y) in E. cbn [append] in E. congruence.
Qed.

Lemma strip_prefix_startswith w : forall s,
  Text.startswith w s = false -> Text.strip_prefix w s = None.
Proof.
  induction w as [| a w IH]; intros s H; [discriminate |].
  destruct s as [| b s]; [reflexivity |]. cbn in *.
  destruct (Ascii.eqb a b); [now apply IH | reflexivity].
Qed.


Lemma flat_map_map {A B C} (f : B -> list C) (g : A -> B) l :
  flat_map f (List.map g l) = flat_map (fun x => f (g x)) l.
Proof. induction l as [| x l IH]; cbn; [reflexivity | now rewrite IH]. Qed.

Lemma map_flat_map {A B C} (h : B -> C) (f : A -> list B) l :
  List.map h (flat_map f l) = flat_map (fun x => List.map h (f x)) l.
Proof.
  induction l as [| x l IH]; cbn; [reflexivity |]. now rewrite map_app, IH.
Qed.

Lemma search_here r s m tl : Re.matches r s = m :: tl -> Re.search r s = Some m.
Proof. intros H. destruct s; cbn; now rewrite H. Qed.

Lemma search_skip r c s :
  Re.matches r (String c s) = [] -> Re.search r (String c s) = Re.search r s.
Proof. intros H. cbn. now rewrite H. Qed.

Lemma seq_lit_none w r s :
  Text.strip_prefix w s = None -> Re.matches (Re.Seq (Re.Lit w) r) s = [].
Proof. intros H. cbn. now rewrite H. Qed.

Lemma seq_lit_some w r s :
  Re.matches (Re.Seq (Re.Lit w) r) (w ++ s)
  = List.map (Re.then_ (Re.Found w None s)) (Re.matches r s).
Proof. cbn. rewrite strip_prefix_append. cbn. now rewrite app_nil_r. Qed.

Lemma seq_opt_lit w r s :
  Re.matches (Re.Seq (Re.Opt (Re.Lit w)) r) s
  = (match Text.strip_prefix w s with
     | Some s' => List.map (Re.then_ (Re.Found w None s')) (Re.matches r s')
     | None => []
     end ++ List.map (Re.then_ (Re.Found "" None s)) (Re.matches r s))%list.
Proof.
  cbn. destruct (Text.strip_prefix w s); cbn; now rewrite ?app_nil_r.
Qed.

Lemma seq_star_stop g cls r s :
  match s with String c _ => cls c = false | EmptyString => True end ->
  Re.matches (Re.Seq (Re.Star g cls) r) s
  = List.map (Re.then_ (Re.Found "" None s)) (Re.matches r s).
Proof.
  intros H. destruct s as [| c s]; cbn.
  - now rewrite app_nil_r.
  - rewrite H. cbn. now rewrite app_nil_r.
Qed.

Lemma seq_star_greedy_cons cls r c s :
  cls c = true ->
  Re.matches (Re.Seq (Re.Star Re.Greedy cls) r) (String c s)
  = (List.map (Re.extend c) (Re.matches (Re.Seq (Re.Star Re.Greedy cls) r) s)
     ++ List.map (Re.then_ (Re.Found "" None (String c s)))
          (Re.matches r (String c s)))%list.
Proof.
  intros H. cbn [Re.matches Re.star]. rewrite H.
  rewrite flat_map_app. cbn [flat_map]. rewrite app_nil_r. f_equal.
  rewrite flat_map_map, map_flat_map. apply flat_map_ext. intros m1.
  cbn [Re.rest Re.extend]. rewrite map_map. reflexivity.
Qed.

Lemma seq_group_lazy_cons cls r c s :
  cls c = true ->
  (forall s' m, In m (Re.matches r s') -> Re.group1 m = None) ->
  Re.matches (Re.Seq (Re.Group (Re.Star Re.Lazy cls)) r) (String c s)
  = (List.map (Re.then_ (Re.Found "" (Some "") (String c s)))
       (Re.matches r (String c s))
     ++ List.map (grow c)
          (Re.matches (Re.Seq (Re.Group (Re.Star Re.Lazy cls)) r) s))%list.
Proof.
  intros H N. cbn [Re.matches Re.star]. rewrite H.
  cbn [List.map flat_map Re.matched Re.rest]. f_equal.
  rewrite !flat_map_map, map_flat_map. apply flat_map_ext. intros m1.
  cbn [Re.rest Re.extend Re.matched]. rewrite map_map.
  apply map_ext_in. intros m2 Hin. unfold Re.then_, grow. cbn.
  now rewrite (N _ _ Hin).
Qed.

Lemma seq_group_lazy_here cls r s m tl :
  Re.matches r s = m :: tl -> Re.group1 m = None ->
  exists tl',
    Re.matches (Re.Seq (Re.Group (Re.Star Re.Lazy cls)) r) s
    = Re.Found (Re.matched m) (Some "") (Re.rest m) :: tl'.
Proof.
  intros H N. destruct s as [| c s]; cbn [Re.matches Re.star].
  - cbn. rewrite H. cbn. unfold Re.then_. cbn. rewrite N. now eexists.
  - destruct (cls c); cbn; rewrite H; cbn; unfold Re.then_; cbn; rewrite N;
      now eexists.
Qed.

Lemma fence_close_no_group s m :
  In m (Re.matches fence_close s) -> Re.group1 m = None.
Proof.
  unfold fence_close. cbn [Re.matches]. intros H.
  apply in_flat_map in H. destruct H as (m1 & H1 & H).
  apply in_map_iff in H. destruct H as (m2 & <- & H2).
  destruct (star_sound _ _ _ _ H1) as [_ G1].
  destruct (Text.strip_prefix "```" (Re.rest m1)); [| contradiction].
  destruct H2 as [<- | []]. cbn. exact G1.
Qed.

Lemma space_not_backtick c s :
  Re.space c = true -> Text.strip_prefix "```" (String c s) = None.
Proof.
  intros H. cbn [Text.strip_prefix].
  destruct (Ascii.eqb_spec "`" c) as [<- |]; [| reflexivity].
  discriminate H.
Qed.

Lemma fence_close_space c s :
  Re.space c = true ->
  Re.matches fence_close (String c s)
  = List.map (Re.extend c) (Re.matches fence_close s).
Proof.
  intros H. unfold fence_close. rewrite (seq_star_greedy_cons _ _ _ _ H).
  cbn [Re.matches]. rewrite (space_not_backtick _ _ H). cbn.
  now rewrite app_nil_r.
Qed.

Lemma fence_close_nonspace c s :
  Re.space c = false -> Text.strip_prefix "```" (String c s) = None ->
  Re.matches fence_close (String c s) = [].
Proof.
  intros H N. unfold fence_close. rewrite seq_star_stop by exact H.
  cbn [Re.matches]. now rewrite N.
Qed.

Lemma strip_fence_before_brace x v :
  Text.startswith "```" x = false ->
  Text.strip_prefix "```" (x ++ String "}" v) = None.
Proof.
  intros H.
  destruct x as [| c1 [| c2 [| c3 x]]];
    cbn [Text.strip_prefix Text.startswith append] in *;
    change (Ascii.eqb "`" "}") with false;
    repeat match goal with
           | |- context [Ascii.eqb "`" ?c] => destruct (Ascii.eqb "`" c)
           end; cbn in *; congruence.
Qed.

(** Up to a closing brace that no fence precedes, the closing fence does
    not match. *)
Lemma fence_close_closed v : forall y,
  Text.has_sub "```" y = false ->
  Re.matches fence_close (y ++ String "}" v) = [].
Proof.
  induction y as [| c y IH]; intros H.
  - now apply fence_close_nonspace.
  - apply has_sub_cons in H. destruct H as [H1 H2]. cbn [append].
    destruct (Re.space c) eqn:E.
    + rewrite (fence_close_space _ _ E), (IH H2). reflexivity.
    + apply (fence_close_nonspace _ _ E).
      apply (strip_fence_before_brace (String c y) v H1).
Qed.

(** The lazy interior stops at the first closing fence. *)
Lemma fence_interior_head v mv tl : forall y,
  Text.has_sub "```" y = false ->
  Re.matches fence_close v = mv :: tl ->
  exists tl',
    Re.matches fence_interior (y ++ String "}" v)
    = Re.Found (y ++ String "}" (Re.matched mv)) (Some (y ++ "}")) (Re.rest mv)
      :: tl'.
Proof.
  intros y H Hv.
  assert (Re.group1 mv = None) as N.
  { apply (fence_close_no_group v). rewrite Hv. now left. }
  induction y as [| c y IH]; unfold fence_interior in *; cbn [append].
  - rewrite (seq_group_lazy_cons _ _ _ _ (any_char _) fence_close_no_group).
    pose proof (fence_close_closed v "" eq_refl) as C. cbn [append] in C.
    rewrite C. cbn [List.map app].
    destruct (seq_group_lazy_here Re.any _ _ _ _ Hv N) as (tl' & ->).
    cbn. now eexists.
  - apply has_sub_cons in H. destruct H as [H1 H2].
    rewrite (seq_group_lazy_cons _ _ _ _ (any_char _) fence_close_no_group).
    pose proof (fence_close_closed v (String c y)) as C. cbn [append] in C.
    rewrite C by (cbn [Text.has_sub]; now rewrite H1, H2).
    destruct (IH H2) as (tl' & ->). cbn. now eexists.
Qed.

(** The object pattern: from the first opening brace to the last closing
    one. *)
Lemma brace_tail_none : forall Q,
  Text.contains "}" Q = false ->
  Re.matches (Re.Seq (Re.Star Re.Greedy Re.any) (Re.Lit "}")) Q = [].
Proof.
  induction Q as [| c Q IH]; intros H.
  - reflexivity.
  - unfold Text.contains in H. cbn [Text.any] in H.
    apply orb_false_iff in H. destruct H as [H1 H2].
    rewrite (seq_star_greedy_cons _ _ _ _ (any_char c)), (IH H2).
    cbn [Re.matches Text.strip_prefix List.map app]. now rewrite H1.
Qed.



Lemma fence_search_none : forall s,
  Text.has_sub "```" s = false -> Re.search fence_re s = None.
Proof.
  assert (forall s, Text.has_sub "```" s = false -> Re.matches fence_re s = [])
    as M.
  { intros s H. unfold fence_re. apply seq_lit_none, strip_prefix_startswith.
    destruct s; [reflexivity |]. now apply has_sub_cons in H. }
  induction s as [| c s IH]; intros H.
  - cbn [Re.search]. now rewrite (M _ H).
  - rewrite search_skip by now apply M. apply IH. now apply has_sub_cons in H.
Qed.

Lemma append_brace body z : (body ++ "}") ++ z = body ++ String "}" z.
Proof. now rewrite append_assoc. Qed.

Lemma group1_then m1 m2 g :
  Re.group1 m2 = Some g -> Re.group1 (Re.then_ m1 m2) = Some g.
Proof. intros H. cbn. now rewrite H. Qed.





(** ** The parser *)

Section ParserFacts.

Variable loads : string -> Json.loaded.

Lemma fence_group_present text m :
  Re.search fence_re text = Some m -> exists g, Re.group1 m = Some g.
Proof.
  intros H. destruct (search_sound _ _ _ H) as (_ & _ & G).
  destruct (Re.group1 m) as [g |]; [now exists g |].
  exfalso. now apply G.
Qed.


(** The ladder, case by case: the fallback when every candidate tried is
    rejected, the value of the first candidate that decodes, the exception
    of the first candidate on which [json.loads] raises anything else. *)
Lemma parse_cases text :
  (parse_llm_response loads text = Returns fallback /\
   forall c, In c (candidates text) -> loads c = Json.Raised JSONDecodeError)
  \/ (exists c v, In c (candidates text) /\ loads c = Json.Decoded v /\
        parse_llm_response loads text = Returns v)
  \/ (exists c e, In c (candidates text) /\ loads c = Json.Raised e /\
        e <> JSONDecodeError /\ parse_llm_response loads text = Raises e).
Proof.
  assert (forall c k,
            In c (candidates text) ->
            (loads c = Json.Raised JSONDecodeError -> try_loads loads c k = k) /\
            ((exists v, loads c = Json.Decoded v /\ try_loads loads c k = Returns v)
             \/ (exists e, loads c = Json.Raised e /\ e <> JSONDecodeError /\
                   try_loads loads c k = Raises e)
             \/ loads c = Json.Raised JSONDecodeError)) as T.
  { intros c k _. unfold try_loads. destruct (loads c) as [v | e].
    - split; [discriminate |]. left. now exists v.
    - destruct e; (split; [reflexivity || discriminate |]);
        try (right; right; reflexivity);
        right; left; eexists; repeat split; discriminate. }
  unfold parse_llm_response, parse_fenced, parse_object, candidates in *.
  set (k3 := Returns fallback).
  destruct (Re.search fence_re text) as [m2 |] eqn:E2;
    [destruct (fence_group_present _ _ E2) as (g2 & G2); rewrite G2 in * |];
    (destruct (Re.search object_re text) as [m3 |] eqn:E3);
    cbn [app] in *.
  all: repeat match goal with
         | |- context [try_loads loads ?c ?k] =>
             let H := fresh in
             destruct (T c k ltac:(cbn; tauto)) as
               [H [(? & ? & ->) | [(? & ? & ? & ->) | ?]]];
             [ right; left; do 2 eexists; repeat split; [| eassumption]; cbn; tauto
             | right; right; do 2 eexists; repeat split;
               [| eassumption | assumption]; cbn; tauto
             | rewrite H by assumption; clear H ]
         end.
  all: left; split; [reflexivity |];
    intros c Hc; cbn in Hc; intuition (subst; assumption).
Qed.

(** A decoder that rejects with [JSONDecodeError] and nothing else never
    makes the function raise. *)
Lemma parse_returns_when_loads_only_rejects text :
  (forall c e, loads c = Json.Raised e -> e = JSONDecodeError) ->
  exists v, parse_llm_response loads text = Returns v.
Proof.
  intros H. destruct (parse_cases text) as [[-> _] | [(c & v & _ & _ & ->) | X]].
  - now eexists.
  - now eexists.
  - destruct X as (c & e & _ & E & N & _). now apply H in E.
Qed.

Lemma fallback_is_analysis_result : is_analysis_result fallback = true.
Proof. reflexivity. Qed.

(** C3, as the code has it.  What the function returns is the fallback
    record, which has the shape of a result, or the value [json.loads]
    decoded from the reply, from the interior of its first fenced block or
    from its first-brace-to-last-brace span, as decoded and unchecked; it
    raises what [json.loads] raises besides [JSONDecodeError]. *)
Theorem parse_returns_fallback_or_decoded (text : string) :
  is_analysis_result fallback = true /\
  (parse_llm_response loads text = Returns fallback
   \/ (exists c v, In c (candidates text) /\ loads c = Json.Decoded v /\
         parse_llm_response loads text = Returns v)
   \/ (exists c e, In c (candidates text) /\ loads c = Json.Raised e /\
         e <> JSONDecodeError /\ parse_llm_response loads text = Raises e)).
Proof.
  split; [exact fallback_is_analysis_result |].
  destruct (parse_cases text) as [[H _] | [H | H]]; auto.
Qed.



End ParserFacts.

(** ** The decoder never runs out of fuel *)

Lemma length_append s1 s2 :
  String.length (s1 ++ s2) = (String.length s1 + String.length s2)%nat.
Proof. induction s1 as [| c s1 IH]; cbn; [reflexivity | now rewrite IH]. Qed.

Lemma skip_ws_length s : (String.length (Json.skip_ws s) <= String.length s)%nat.
Proof.
  induction s as [| c s IH]; cbn; [lia |]. destruct (Json.is_ws c); cbn; lia.
Qed.

Lemma skip_ws_cons s c r :
  Json.skip_ws s = String c r -> (String.length r < String.length s)%nat.
Proof. intros H. pose proof (skip_ws_length s) as L. rewrite H in L. cbn in L. lia. Qed.

Lemma shorter_weaken {A} s s' (r : Json.scanned A) :
  (String.length s' <= String.length s)%nat -> shorter s' r -> shorter s r.
Proof. destruct r; cbn; [lia | trivial]. Qed.

Lemma shorter_push s s' chunk r :
  (String.length s' <= String.length s)%nat ->
  shorter s' r -> shorter s (Json.push chunk r).
Proof. destruct r; cbn; [lia | trivial]. Qed.

Lemma scanstring_shorter n : forall s,
  (String.length s <= n)%nat -> shorter s (Json.scanstring s).
Proof.
  induction n as [| n IH]; intros s L.
  - destruct s; [cbn; auto | cbn in L; lia].
  - destruct s as [| c rest]; [cbn; auto |].
    cbn [Json.scanstring].
    repeat match goal with
           | |- shorter _ (Json.push _ (Json.scanstring ?r)) =>
               apply (shorter_push _ r); [cbn in *; lia | apply IH; cbn in *; lia]
           | |- shorter _ (Json.Scanned _ _) => cbn in *; lia
           | |- shorter _ (Json.Failed _) => cbn; auto
           | |- shorter _ (if ?b then _ else _) => destruct b
           | |- shorter _ (match ?x with _ => _ end) => destruct x
           end.
Qed.

Lemma span_digits_length s :
  (String.length (snd (Json.span_digits s)) <= String.length s)%nat.
Proof.
  induction s as [| c s IH]; cbn; [lia |].
  destruct (Text.isdigit c); [| cbn; lia].
  destruct (Json.span_digits s); cbn in *; lia.
Qed.

Lemma span_digits_cons c s :
  Text.isdigit c = true ->
  (String.length (snd (Json.span_digits (String c s))) <= String.length s)%nat.
Proof.
  intros D. cbn [Json.span_digits]. rewrite D.
  pose proof (span_digits_length s) as L.
  destruct (Json.span_digits s). exact L.
Qed.

Lemma match_integer_shorter s i r :
  Json.match_integer s = Some (i, r) -> (String.length r < String.length s)%nat.
Proof.
  assert (forall sign s i r,
            match s with
            | String c s2 =>
                if Ascii.eqb c "0" then Some (sign ++ "0", s2)
                else if Text.isdigit c
                then let (d, r) := Json.span_digits s in Some (sign ++ d, r)
                else None
            | EmptyString => None
            end = Some (i, r) -> (String.length r < String.length s)%nat) as B.
  { intros sign s0 i0 r0 H. destruct s0 as [| c s0]; [discriminate H |].
    destruct (Ascii.eqb c "0"); [inversion H; subst; cbn; lia |].
    destruct (Text.isdigit c) eqn:D; [| discriminate H].
    pose proof (span_digits_cons c s0 D) as L.
    destruct (Json.span_digits (String c s0)). inversion H; subst.
    cbn in *. lia. }
  unfold Json.match_integer. intros H.
  destruct s as [| c s]; [discriminate H |].
  destruct (Ascii.eqb c "-").
  - apply (B "-" s) in H. cbn. lia.
  - now apply (B "" (String c s)) in H.
Qed.

Lemma match_frac_length s :
  (String.length (snd (Json.match_frac s)) <= String.length s)%nat.
Proof.
  unfold Json.match_frac. destruct s as [| c s]; cbn; [lia |].
  destruct (Ascii.eqb c "."); [| cbn; lia].
  pose proof (span_digits_length s) as L.
  destruct (Json.span_digits s) as [[| d ds] r]; cbn in *; lia.
Qed.

Lemma match_exp_length s :
  (String.length (snd (Json.match_exp s)) <= String.length s)%nat.
Proof.
  unfold Json.match_exp. destruct s as [| e s]; cbn; [lia |].
  destruct (Ascii.eqb e "e" || Ascii.eqb e "E"); [| cbn; lia].
  destruct s as [| c s].
  - cbn. lia.
  - destruct (Ascii.eqb c "-" || Ascii.eqb c "+").
    + pose proof (span_digits_length s) as L.
      destruct (Json.span_digits s) as [[| d ds] r]; cbn in *; lia.
    + pose proof (span_digits_length (String c s)) as L.
      destruct (Json.span_digits (String c s)) as [[| d ds] r]; cbn in *; lia.
Qed.

Lemma parse_int_exn lexeme e : Json.parse_int lexeme = inl e -> e = ValueError.
Proof.
  unfold Json.parse_int. intros H.
  destruct lexeme as [| c d]; cbn in H.
  - inversion H.
  - destruct (Ascii.eqb c "-");
      match type of H with
      | context [if ?b then _ else _] => destruct b
      end; now inversion H.
Qed.

Lemma scan_number_shorter s r : Json.scan_number s = Some r -> shorter s r.
Proof.
  unfold Json.scan_number. intros H.
  destruct (Json.match_integer s) as [[i s1] |] eqn:E; [| discriminate H].
  apply match_integer_shorter in E.
  pose proof (match_frac_length s1) as F.
  destruct (Json.match_frac s1) as [frac s2]. cbn [snd] in F.
  pose proof (match_exp_length s2) as X.
  destruct (Json.match_exp s2) as [exp s3]. cbn [snd] in X.
  destruct (String.eqb frac "" && String.eqb exp "").
  - destruct (Json.parse_int i) as [e | n] eqn:P; inversion H; subst; cbn.
    + right. now apply parse_int_exn in P.
    + lia.
  - inversion H; subst. cbn. lia.
Qed.

Lemma strip_prefix_shorter w s r :
  w <> "" -> Text.strip_prefix w s = Some r ->
  (String.length r < String.length s)%nat.
Proof.
  intros N H. apply strip_prefix_sound in H. subst s. rewrite length_append.
  destruct w; [congruence | cbn; lia].
Qed.

Lemma scan_scalar_shorter s : shorter s (Json.scan_scalar s).
Proof.
  unfold Json.scan_scalar.
  repeat match goal with
         | |- context [Text.strip_prefix ?w s] =>
             let E := fresh "E" in
             destruct (Text.strip_prefix w s) eqn:E;
             [apply strip_prefix_shorter in E; [| discriminate] |]
         | |- context [Json.scan_number s] =>
             let E := fresh "E" in
             destruct (Json.scan_number s) eqn:E;
             [apply scan_number_shorter in E |]
         end; cbn; auto.
Qed.

Lemma scan_shorter fuel :
  (forall s, (2 * String.length s + 1 <= fuel)%nat ->
             shorter s (Json.scan_once fuel s))
  /\ (forall s acc, (2 * String.length s + 2 <= fuel)%nat ->
                    shorter s (Json.items fuel s acc))
  /\ (forall s acc, (2 * String.length s + 2 <= fuel)%nat ->
                    shorter s (Json.members fuel s acc)).
Proof.
  induction fuel as [| f (IHs & IHi & IHm)];
    [repeat split; intros; lia |].
  repeat split.
  - intros s L. destruct s as [| c rest]; [cbn; auto |].
    cbn [Json.scan_once String.length] in *.
    destruct (Ascii.eqb c Json.quote).
    { pose proof (scanstring_shorter _ rest (le_n _)) as S.
      destruct (Json.scanstring rest); cbn in *; [lia | exact S]. }
    destruct (Ascii.eqb c "{").
    { destruct (Json.skip_ws rest) as [| c1 rest1] eqn:E; [cbn; auto |].
      apply skip_ws_cons in E.
      destruct (Ascii.eqb c1 "}"); [cbn; lia |].
      destruct (Ascii.eqb c1 Json.quote); [| cbn; auto].
      apply (shorter_weaken _ rest1); [cbn; lia |]. apply IHm. lia. }
    destruct (Ascii.eqb c "[").
    { destruct (Json.skip_ws rest) as [| c1 rest1] eqn:E.
      - apply (shorter_weaken _ ""); [cbn; lia |]. apply IHi. cbn. lia.
      - apply skip_ws_cons in E.
        destruct (Ascii.eqb c1 "]"); [cbn; lia |].
        apply (shorter_weaken _ (String c1 rest1)); [cbn; lia |].
        apply IHi. cbn. lia. }
    apply scan_scalar_shorter.
  - intros s acc L. cbn [Json.items].
    pose proof (IHs s ltac:(lia)) as S.
    destruct (Json.scan_once f s) as [v rest | e]; [| exact S]. cbn in S.
    destruct (Json.skip_ws rest) as [| c rest1] eqn:E; [cbn; auto |].
    apply skip_ws_cons in E.
    destruct (Ascii.eqb c "]"); [cbn; lia |].
    destruct (Ascii.eqb c ","); [| cbn; auto].
    pose proof (skip_ws_length rest1) as W.
    apply (shorter_weaken _ (Json.skip_ws rest1)); [lia |]. apply IHi. lia.
  - intros s acc L. cbn [Json.members].
    pose proof (scanstring_shorter _ s (le_n _)) as S.
    destruct (Json.scanstring s) as [key rest | e]; [| exact S]. cbn in S.
    destruct (Json.skip_ws rest) as [| c0 rest1] eqn:E; [cbn; auto |].
    apply skip_ws_cons in E.
    destruct (Ascii.eqb c0 ":"); [| cbn; auto].
    pose proof (skip_ws_length rest1) as W.
    pose proof (IHs (Json.skip_ws rest1) ltac:(lia)) as V.
    destruct (Json.scan_once f (Json.skip_ws rest1)) as [v rest2 | e];
      [| exact V]. cbn in V.
    destruct (Json.skip_ws rest2) as [| c rest3] eqn:E2; [cbn; auto |].
    apply skip_ws_cons in E2.
    destruct (Ascii.eqb c "}"); [cbn; lia |].
    destruct (Ascii.eqb c ","); [| cbn; auto].
    destruct (Json.skip_ws rest3) as [| c' rest4] eqn:E3; [cbn; auto |].
    apply skip_ws_cons in E3.
    destruct (Ascii.eqb c' Json.quote); [| cbn; auto].
    apply (shorter_weaken _ rest4); [lia |]. apply IHm. lia.
Qed.

(** [json.loads] on a [str] raises [JSONDecodeError] or [ValueError] and
    nothing else: the fuel that [decode] gives is never used up. *)
Lemma loads_exceptions s e :
  Json.loads s = Json.Raised e -> e = JSONDecodeError \/ e = ValueError.
Proof.
  unfold Json.loads, Json.decode. intros H.
  pose proof (skip_ws_length s) as W.
  pose proof (proj1 (scan_shorter (S (S (2 * String.length s))))
                (Json.skip_ws s) ltac:(lia)) as S.
  destruct (Json.scan_once _ (Json.skip_ws s)) as [v rest | e'].
  - destruct (Json.skip_ws rest); inversion H. now left.
  - inversion H; subst. exact S.
Qed.

(** So the function, run on CPython's decoder, returns or raises
    [ValueError]. *)
Lemma parse_raises_value_error_only text e :
  parse_llm_response Json.loads text = Raises e -> e = ValueError.
Proof.
  intros H.
  destruct (parse_cases Json.loads text)
    as [[R _] | [(c & v & _ & _ & R) | (c & e' & _ & L & N & R)]];
    rewrite R in H; inversion H; subst.
  destruct (loads_exceptions _ _ L); congruence.
Qed.



(** Prose that holds a number: the number alone is valid JSON, and none of
    the three attempts is made on it. *)
Example parse_prose_with_number :
  Json.loads "5" = Json.Decoded (VInt 5) /\
  candidates "Score: 5" = ["Score: 5"] /\
  parse_llm_response Json.loads "Score: 5" = Returns fallback.
Proof. vm_compute. repeat split. Qed.

(** What C3 says fails on replies that are JSON of another shape: a bare
    number is returned as the number, an object with a text for a score as
    that object. *)
Lemma parse_returns_any_json :
  parse_llm_response Json.loads "5" = Returns (VInt 5) /\
  is_analysis_result (VInt 5) = false /\
  parse_llm_response Json.loads (dq "{'score': 'high'}")
  = Returns (VDict [("score", VStr "high")]) /\
  is_analysis_result (VDict [("score", VStr "high")]) = false.
Proof. repeat split; vm_compute; reflexivity. Qed.

(** C2 at a reply the function raises on: an integer literal of 4301
    digits.  [json.loads] raises [ValueError] (the limit of [int] on
    decimal literals), which [except json.JSONDecodeError] lets through. *)
Theorem parse_raises_on_long_integer :
  Json.loads (Text.repeat "1" 4301) = Json.Raised ValueError /\
  parse_llm_response Json.loads (Text.repeat "1" 4301) = Raises ValueError.
Proof. split; vm_compute; reflexivity. Qed.

(** ** The decoder on a reply that does not start as JSON *)







(** ** C5 *)




(** ** The seed *)

Lemma hex_char_digit n :
  (n < 16)%N -> Json.hex_digit (hex_char n) = Some n.
Proof.
  intros H.
  assert (In n (List.map N.of_nat (seq 0 16))) as I.
  { apply in_map_iff. exists (N.to_nat n). split; [apply N2Nat.id |].
    apply in_seq. lia. }
  cbn in I. repeat (destruct I as [<- | I]; [reflexivity |]). contradiction.
Qed.

(** [hexdigest] gives hexadecimal digits only, which [int_of_hex] reads. *)
Lemma hexdigest_hex digest :
  Text.all (fun c => match Json.hex_digit c with Some _ => true | None => false end)
    (hexdigest digest) = true.
Proof.
  induction digest as [| b d IH]; [reflexivity |].
  cbn [hexdigest Text.all].
  assert (Text.ord b < 256)%N as B by (unfold Text.ord; apply N_ascii_bounded).
  rewrite !hex_char_digit, IH; [reflexivity | |].
  - apply N.mod_lt. discriminate.
  - apply N.Div0.div_lt_upper_bound. exact B.
Qed.

(** ** The simulator *)

Section DemoFacts.

Context {RT : Runtime}.

Lemma clock_free_ret {A} (a : A) : clock_free (ret a).
Proof. intros g t t'. reflexivity. Qed.

Lemma clock_free_randint a b : clock_free (random_randint a b).
Proof.
  intros g t t'. unfold random_randint. cbn.
  destruct (randint a b g) as [n g']. reflexivity.
Qed.

Lemma clock_free_bind {A B} (m : M A) (k : A -> M B) :
  clock_free m -> (forall a, clock_free (k a)) -> clock_free (bind m k).
Proof.
  intros Hm Hk g t t'. unfold bind.
  rewrite (Hm g t t').
  destruct (m (World g t)) as [a [g1 t1]] eqn:E. cbn [fst snd random_state].
  assert (t1 = t) as ->.
  { pose proof (Hm g t t) as H. rewrite E in H. cbn in H. congruence. }
  apply Hk.
Qed.

Lemma clock_free_if {A} (c : bool) (m1 m2 : M A) :
  clock_free m1 -> clock_free m2 -> clock_free (if c then m1 else m2).
Proof. destruct c; trivial. Qed.

#[local] Hint Resolve clock_free_ret clock_free_randint clock_free_bind
  clock_free_if : clock.

Lemma clock_free_base_210 text : clock_free (base_score_210 text).
Proof. unfold base_score_210. auto 10 with clock. Qed.

Lemma clock_free_base_212 text b : clock_free (base_score_212 text b).
Proof. unfold base_score_212. auto 10 with clock. Qed.

Lemma clock_free_snippets text : clock_free (make_snippets text).
Proof. unfold make_snippets. auto 12 with clock. Qed.

Lemma clock_free_run {A} (m : M A) :
  clock_free m ->
  forall g, exists a g', forall t, m (World g t) = (a, World g' t).
Proof.
  intros H g.
  pose (t0 := Datetime 0 0 0 0 0 0).
  exists (fst (m (World g t0))), (random_state (snd (m (World g t0)))).
  intros t. apply H.
Qed.

Lemma make_snippets_nonempty text w : fst (make_snippets text w) <> [].
Proof.
  unfold make_snippets, bind, ret.
  repeat match goal with
         | |- context [if ?c then _ else _] => destruct c
         | |- context [random_randint ?a ?b ?w] => destruct (random_randint a b w)
         end; cbn; try discriminate;
    match goal with |- context [(?l ++ [?x])%list] => destruct l; discriminate end.
Qed.

Lemma templates_of_length context_type :
  List.length (templates_of context_type) = 3%nat.
Proof.
  unfold templates_of, issue_templates. cbn.
  repeat match goal with |- context [if ?c then _ else _] => destruct c end;
    reflexivity.
Qed.

(** What a run computes, laid out: the two base scores, the snippets and
    the generator it leaves depend on the text alone; the category enters
    the issues and the two narratives, the clock the audit note. *)
Lemma run_demo_spec text :
  exists b210 g1 b212 snippets g,
    b212 = (if Z.of_nat (List.length (Text.split text)) <? 20
            then b210 + fst (randint 5 10 g1) else b210) /\
    snippets <> [] /\
    forall context_type w,
      let score := clamp b212 in
      let label := label_of score in
      let issues := make_issues (num_issues_of score) snippets
                      (templates_of context_type) in
      run_demo text context_type w =
      (Frame b210 b212 snippets
         (Analysis score label issues
            (compliance_report_of label
               (lookup context_type context_names "general") score)
            (audit_note_text (clock w) context_type score label issues)),
       World g (clock w)).
Proof.
  destruct (clock_free_run _ (clock_free_base_210 text) (seed (text_hash text)))
    as (b210 & g1 & H1).
  destruct (clock_free_run _ (clock_free_base_212 text b210) g1)
    as (b212 & g2 & H2).
  destruct (clock_free_run _ (clock_free_snippets text) g2)
    as (snippets & g & H3).
  exists b210, g1, b212, snippets, g. split; [| split].
  - pose proof (H2 (Datetime 0 0 0 0 0 0)) as E. revert E.
    unfold base_score_212, bind, ret, random_randint. cbn.
    destruct (_ <? 20).
    + cbn. destruct (randint 5 10 g1) as [d g']. cbn. congruence.
    + congruence.
  - pose proof (make_snippets_nonempty text (World g2 (Datetime 0 0 0 0 0 0))) as E.
    rewrite H3 in E. exact E.
  - intros context_type w. cbv zeta.
    unfold run_demo, bind, random_seed, nda_audit_note_of, datetime_now, ret.
    rewrite H1, H2, H3. reflexivity.
Qed.

End DemoFacts.

Section DemoClaims.

Context {RT : Runtime}.

Lemma generate_demo_analysis_frame text context_type w :
  fst (generate_demo_analysis text context_type w)
  = f_result (fst (run_demo text context_type w)).
Proof.
  unfold generate_demo_analysis, bind, ret.
  destruct (run_demo text context_type w). reflexivity.
Qed.

Lemma clamp_range b : 20 <= clamp b <= 95.
Proof. unfold clamp. lia. Qed.

Lemma clamp_monotone a b : a <= b -> clamp a <= clamp b.
Proof. unfold clamp. lia. Qed.

Lemma num_issues_of_label score :
  num_issues_of score = issue_count_for_label (label_of score).
Proof.
  unfold num_issues_of, issue_count_for_label, label_of.
  destruct (75 <=? score); [reflexivity |].
  destruct (50 <=? score); reflexivity.
Qed.

Lemma make_issues_length n snippets templates :
  Z.of_nat (List.length (make_issues n snippets templates))
  = Z.max 0 (Z.min (Z.min n (Z.of_nat (List.length snippets)))
                   (Z.of_nat (List.length templates))).
Proof.
  unfold make_issues. rewrite length_map, length_seq. lia.
Qed.

(** C6.  In demo mode the score lies between 20 and 95, and the label is
    High from 75 up, Medium from 50 to 74 and Low below 50. *)
Theorem demo_score_and_label (text context_type : string) (w : world) :
  let r := fst (generate_demo_analysis text context_type w) in
  20 <= score r <= 95 /\
  (75 <= score r -> label r = "High") /\
  (50 <= score r < 75 -> label r = "Medium") /\
  (score r < 50 -> label r = "Low").
Proof.
  cbv zeta. rewrite generate_demo_analysis_frame.
  destruct (run_demo_spec text) as (b210 & g1 & b212 & snippets & g & _ & _ & H).
  rewrite H. cbn [fst f_result score label].
  pose proof (clamp_range b212) as R. unfold label_of.
  destruct (75 <=? clamp b212) eqn:E75; [| destruct (50 <=? clamp b212) eqn:E50].
  - apply Z.leb_le in E75. repeat split; try lia; intros; lia.
  - apply Z.leb_gt in E75. apply Z.leb_le in E50.
    repeat split; try lia; intros; lia.
  - apply Z.leb_gt in E75. apply Z.leb_gt in E50.
    repeat split; try lia; intros; lia.
Qed.

(** C7.  In demo mode the number of issues is the least of the count the
    label calls for (1 for High, 2 for Medium, 3 for Low), the number of
    snippets of the run and 3; it never exceeds 3. *)
Theorem demo_issue_count (text context_type : string) (w : world) :
  let f := fst (run_demo text context_type w) in
  let r := fst (generate_demo_analysis text context_type w) in
  Z.of_nat (List.length (issues r))
  = Z.min (Z.min (issue_count_for_label (label r))
                 (Z.of_nat (List.length (f_snippets f)))) 3
  /\ (List.length (issues r) <= 3)%nat.
Proof.
  cbv zeta. rewrite generate_demo_analysis_frame.
  destruct (run_demo_spec text) as (b210 & g1 & b212 & snippets & g & _ & _ & H).
  rewrite H. cbn [fst f_result f_snippets issues label].
  rewrite num_issues_of_label.
  pose proof (make_issues_length (issue_count_for_label (label_of (clamp b212)))
                snippets (templates_of context_type)) as L.
  rewrite templates_of_length in L.
  assert (1 <= issue_count_for_label (label_of (clamp b212)) <= 3) as R.
  { unfold issue_count_for_label.
    repeat match goal with |- context [if ?c then _ else _] => destruct c end;
      lia. }
  lia.
Qed.

(** C10.  In demo mode score and label depend on the text alone: two
    categories give the same score and the same label, whatever state the
    generator and the clock are in at either call. *)
Theorem demo_score_ignores_category (text c1 c2 : string) (w1 w2 : world) :
  let r1 := fst (generate_demo_analysis text c1 w1) in
  let r2 := fst (generate_demo_analysis text c2 w2) in
  score r1 = score r2 /\ label r1 = label r2.
Proof.
  cbv zeta. rewrite !generate_demo_analysis_frame.
  destruct (run_demo_spec text) as (b210 & g1 & b212 & snippets & g & _ & _ & H).
  rewrite !H. split; reflexivity.
Qed.


(** C9.  For a text of fewer than 20 words the score is at least the score
    of the same run without lines 211-212: the bonus drawn lies between 5
    and 10, and the score is line 214 applied to the base score plus it. *)
Theorem short_text_bonus (L : RuntimeLaws RT) (text context_type : string)
  (w : world) :
  Z.of_nat (List.length (Text.split text)) < 20 ->
  let f := fst (run_demo text context_type w) in
  let r := fst (generate_demo_analysis text context_type w) in
  score_without_bonus f <= score r /\
  exists bonus, 5 <= bonus <= 10 /\ score r = clamp (f_base_210 f + bonus).
Proof.
  intros Hshort. cbv zeta. rewrite generate_demo_analysis_frame.
  destruct (run_demo_spec text) as (b210 & g1 & b212 & snippets & g & Hb & _ & H).
  rewrite H. cbn [fst f_result f_base_210 score]. unfold score_without_bonus.
  cbn [f_base_210].
  apply Z.ltb_lt in Hshort. rewrite Hshort in Hb.
  pose proof (randint_range 5 10 g1 ltac:(lia)) as R.
  split.
  - apply clamp_monotone. lia.
  - exists (fst (randint 5 10 g1)). split; [exact R | now rewrite Hb].
Qed.

End DemoClaims.

(** ** The runtime of CPython keeps the promise of [random.randint] *)

Lemma u32_nonneg x : 0 <= Bits.u32 x.
Proof. unfold Bits.u32. apply Z.land_nonneg. right. unfold Bits.mask32. lia. Qed.

Lemma genrand_uint32_nonneg g : 0 <= fst (MT.genrand_uint32 g).
Proof. unfold MT.genrand_uint32. cbn [fst]. apply u32_nonneg. Qed.

Lemma getrandbits_words_nonneg n : forall k g,
  0 <= fst (MT.getrandbits_words n k g).
Proof.
  induction n as [| n IH]; intros k g; cbn [MT.getrandbits_words fst]; [lia |].
  pose proof (genrand_uint32_nonneg g) as Hr.
  destruct (MT.genrand_uint32 g) as [r g1]. cbn [fst] in Hr.
  specialize (IH (k - 32) g1).
  destruct (MT.getrandbits_words n (k - 32) g1) as [hi g2]. cbn [fst] in *.
  assert (0 <= Z.shiftl hi 32) by (apply Z.shiftl_nonneg; exact IH).
  destruct (k <? 32).
  - assert (0 <= Z.shiftr r (32 - k)) by (apply Z.shiftr_nonneg; exact Hr). lia.
  - lia.
Qed.

Lemma randbelow_loop_range fuel : forall n k g,
  0 < n -> 0 <= fst (MT.randbelow_loop fuel n k g) < n.
Proof.
  induction fuel as [| fuel IH]; intros n k g Hn; cbn [MT.randbelow_loop fst];
    [lia |].
  pose proof (getrandbits_words_nonneg (Z.to_nat ((k - 1) / 32 + 1)) k g) as Hr.
  fold (MT.getrandbits k g) in Hr.
  destruct (MT.getrandbits k g) as [r g1]. cbn [fst] in Hr.
  destruct (r <? n) eqn:E.
  - apply Z.ltb_lt in E. cbn [fst]. lia.
  - apply IH. exact Hn.
Qed.

Lemma cpython_laws : RuntimeLaws cpython.
Proof.
  constructor. intros a b g Hab. cbn [randint cpython]. unfold MT.randint.
  destruct (b <? a) eqn:E; [apply Z.ltb_lt in E; lia |].
  unfold MT.randbelow.
  pose proof (randbelow_loop_range 1024 (b - a + 1) (Z.log2 (b - a + 1) + 1) g
                ltac:(lia)) as R.
  destruct (MT.randbelow_loop 1024 (b - a + 1) (Z.log2 (b - a + 1) + 1) g)
    as [r g1].
  cbn [fst] in *. lia.
Qed.

(** The two scenarios of the specification, run on CPython.  The first
    text has a digit and a percent sign: 55 is drawn, the penalty takes
    11, the bonus of its nine words gives 5; the label Low calls for three
    issues and the single snippet allows one. *)
Example demo_revenue_scenario :
  let f := fst (run_demo (RT := cpython)
                  "Revenue grew 25% last quarter according to internal estimates."
                  "finance" sample_world) in
  (f_base_210 f, f_base_212 f, score (f_result f), label (f_result f),
   f_snippets f, List.length (issues (f_result f)))
  = (44, 49, 49, "Low",
     ["Revenue grew 25% last quarter according to interna..."], 1%nat).
Proof. vm_compute. reflexivity. Qed.

Example demo_contract_scenario :
  let f := fst (run_demo (RT := cpython) "Contract terms appear standard."
                  "legal" sample_world) in
  (f_base_210 f, f_base_212 f, score (f_result f), label (f_result f),
   f_snippets f, List.length (issues (f_result f)))
  = (58, 64, 64, "Medium", ["Contract terms appear standard."], 1%nat).
Proof. vm_compute. reflexivity. Qed.


(** The five-word example of the specification, run on CPython. *)
Lemma short_text_bonus_witness :
  Z.of_nat (List.length (Text.split "Contract terms appear standard.")) < 20 /\
  score_without_bonus
    (fst (run_demo (RT := cpython) "Contract terms appear standard." "legal" sample_world))
  <= score (fst (generate_demo_analysis (RT := cpython) "Contract terms appear standard." "legal"
                   sample_world)).
Proof.
  assert (Z.of_nat (List.length (Text.split "Contract terms appear standard.")) < 20)
    as H by (vm_compute; reflexivity).
  split; [exact H |].
  exact (proj1 (short_text_bonus cpython_laws "Contract terms appear standard."
                  "legal" sample_world H)).
Defined.

(** ** The policy on issues *)


(** * More on the simulator *)

(** One draw, with the range the laws give it. *)
Lemma randint_draw {RT : Runtime} (L : RuntimeLaws RT) a b g :
  a <= b -> exists n g', randint a b g = (n, g') /\ a <= n <= b.
Proof.
  intros Hab. pose proof (randint_range a b g Hab) as R.
  destruct (randint a b g) as [n g']. exists n, g'. split; [reflexivity | exact R].
Qed.

Ltac draw L a b :=
  match goal with
  | |- context [randint a b ?g] =>
      let n := fresh "n" in
      let g' := fresh "g" in
      let E := fresh "E" in
      let R := fresh "R" in
      destruct (randint_draw L a b g ltac:(lia)) as (n & g' & E & R);
      rewrite E; cbn [fst snd random_state clock]
  end.

Section DemoMore.

Context {RT : Runtime}.

(** A run, step by step. *)
Lemma run_demo_steps text context_type w :
  exists b210 w1 b212 w2 snippets w3,
    base_score_210 text (World (seed (text_hash text)) (clock w)) = (b210, w1) /\
    base_score_212 text b210 w1 = (b212, w2) /\
    make_snippets text w2 = (snippets, w3) /\
    run_demo text context_type w =
    (let score := clamp b212 in
     let label := label_of score in
     let issues := make_issues (num_issues_of score) snippets
                     (templates_of context_type) in
     (Frame b210 b212 snippets
        (Analysis score label issues
           (compliance_report_of label
              (lookup context_type context_names "general") score)
           (audit_note_text (clock w3) context_type score label issues)),
      w3)).
Proof.
  destruct (base_score_210 text (World (seed (text_hash text)) (clock w)))
    as [b210 w1] eqn:E1.
  destruct (base_score_212 text b210 w1) as [b212 w2] eqn:E2.
  destruct (make_snippets text w2) as [snippets w3] eqn:E3.
  exists b210, w1, b212, w2, snippets, w3.
  split; [reflexivity | split; [exact E2 | split; [exact E3 |]]].
  unfold run_demo, bind, random_seed, nda_audit_note_of, datetime_now, ret.
  cbv beta iota. rewrite E1, E2, E3. reflexivity.
Qed.

Lemma base_score_210_range (L : RuntimeLaws RT) text w :
  let b := fst (base_score_210 text w) in
  20 <= b <= 85 /\
  (Text.any Text.isdigit text && Text.contains "%" text = false ->
   Text.len text <= 500 -> 45 <= b).
Proof.
  cbv zeta. unfold base_score_210, bind, ret, random_randint. cbn [fst snd].
  draw L 45 85.
  destruct (Text.any Text.isdigit text && Text.contains "%" text);
    destruct (500 <? Text.len text) eqn:E500;
    repeat (first [draw L 5 15 | draw L 0 10]); cbn [fst];
    (split; [lia |]); intros H1 H2; try discriminate;
    try (apply Z.ltb_lt in E500; lia); lia.
Qed.

Lemma base_score_212_range (L : RuntimeLaws RT) text b w :
  let b' := fst (base_score_212 text b w) in
  b <= b' <= b + 10 /\
  (Z.of_nat (List.length (Text.split text)) < 20 -> b + 5 <= b').
Proof.
  cbv zeta. unfold base_score_212, bind, ret, random_randint.
  destruct (_ <? 20) eqn:E20.
  - draw L 5 10. cbn [fst]. split; [lia | intros; lia].
  - cbn [fst]. apply Z.ltb_ge in E20. split; [lia | intros; lia].
Qed.


Lemma make_snippets_length text w :
  List.length (fst (make_snippets text w))
  = if 20 <? Z.of_nat (List.length (Text.split text)) then 2%nat else 1%nat.
Proof.
  unfold make_snippets, bind, ret, random_randint.
  destruct (10 <? _) eqn:E10; destruct (20 <? _) eqn:E20;
    try (apply Z.ltb_lt in E20; apply Z.ltb_ge in E10; lia);
    repeat match goal with
           | |- context [randint ?a ?b ?g] => destruct (randint a b g)
           end; reflexivity.
Qed.

Lemma make_snippets_short text w :
  Z.of_nat (List.length (Text.split text)) <= 10 ->
  fst (make_snippets text w) = [Str.preview 50 text].
Proof.
  intros H. unfold make_snippets, bind, ret.
  destruct (10 <? _) eqn:E10; [apply Z.ltb_lt in E10; lia |].
  destruct (20 <? _) eqn:E20; [apply Z.ltb_lt in E20; lia |].
  reflexivity.
Qed.



End DemoMore.

(** ** The score of the simulator *)

Section DemoScore.

Context {RT : Runtime}.


End DemoScore.


(** ** The issues of the simulator *)

Lemma take_length n : forall s, (String.length (Text.take n s) <= n)%nat.
Proof.
  induction n as [| n IH]; intros [| c s]; cbn; try lia.
  specialize (IH s). lia.
Qed.


Lemma take_length_min n : forall s,
  String.length (Text.take n s) = Nat.min n (String.length s).
Proof.
  induction n as [| n IH]; intros [| c s]; cbn; try reflexivity.
  rewrite IH. reflexivity.
Qed.


Lemma templates_risk_types context_type :
  List.map tpl_riskType (templates_of context_type)
  = ["hallucination"; "compliance-risk"; "uncertain"].
Proof.
  unfold templates_of, issue_templates. cbn.
  repeat match goal with |- context [if ?c then _ else _] => destruct c end;
    reflexivity.
Qed.

Lemma make_issues_nth n snippets templates i :
  (i < List.length (make_issues n snippets templates))%nat ->
  nth_error (make_issues n snippets templates) i
  = Some (make_issue snippets templates i).
Proof.
  unfold make_issues. rewrite length_map, length_seq. intros H.
  rewrite nth_error_map, nth_error_seq.
  destruct (Nat.ltb_spec i (Z.to_nat (Z.min (Z.min n (Z.of_nat (List.length snippets)))
                                        (Z.of_nat (List.length templates)))));
    [reflexivity | lia].
Qed.

Lemma make_issues_map {A} (g : issue -> A) n snippets templates :
  List.map g (make_issues n snippets templates)
  = List.map (fun i => g (make_issue snippets templates i))
      (seq 0 (List.length (make_issues n snippets templates))).
Proof.
  unfold make_issues. rewrite length_map, length_seq, map_map. reflexivity.
Qed.

Lemma map_nth_seq {A} (d : A) (l : list A) k :
  (k <= List.length l)%nat ->
  List.map (fun i => nth i l d) (seq 0 k) = firstn k l.
Proof.
  revert l. induction k as [| k IH]; intros l H; [reflexivity |].
  destruct l as [| x l]; [cbn in H; lia |].
  cbn [seq List.map firstn nth]. f_equal.
  rewrite <- seq_shift, map_map. cbn [nth]. apply IH. cbn in H. lia.
Qed.

Lemma in_firstn {A} (x : A) n l : In x (firstn n l) -> In x l.
Proof.
  intros H. rewrite <- (firstn_skipn n l). apply in_or_app. left. exact H.
Qed.

Lemma map_ext_seq {A} (f g : nat -> A) k :
  (forall i, (i < k)%nat -> f i = g i) ->
  List.map f (seq 0 k) = List.map g (seq 0 k).
Proof.
  intros H. apply map_ext_in. intros i Hi. apply in_seq in Hi. apply H. lia.
Qed.

Section DemoIssues.

Context {RT : Runtime}.

(** The issues of a run, read off the frame. *)
Lemma demo_issues_of_frame text context_type w :
  let f := fst (run_demo text context_type w) in
  let r := fst (generate_demo_analysis text context_type w) in
  issues r = make_issues (num_issues_of (score r)) (f_snippets f)
               (templates_of context_type)
  /\ List.length (f_snippets f)
     = (if 20 <? Z.of_nat (List.length (Text.split text)) then 2%nat else 1%nat)
  /\ (Z.of_nat (List.length (Text.split text)) <= 10 ->
      f_snippets f = [Str.preview 50 text]).
Proof.
  cbv zeta. rewrite generate_demo_analysis_frame.
  destruct (run_demo_steps text context_type w)
    as (b210 & w1 & b212 & w2 & snippets & w3 & E1 & E2 & E3 & H).
  rewrite H. cbn [fst f_result f_snippets score issues].
  pose proof (f_equal fst E3) as F. cbn [fst] in F. subst snippets.
  split; [reflexivity |]. split.
  - apply make_snippets_length.
  - apply make_snippets_short.
Qed.

Lemma demo_issues_length text context_type w :
  let r := fst (generate_demo_analysis text context_type w) in
  Z.of_nat (List.length (issues r))
  = Z.min (num_issues_of (score r))
      (if 20 <? Z.of_nat (List.length (Text.split text)) then 2 else 1).
Proof.
  cbv zeta.
  destruct (demo_issues_of_frame text context_type w) as (Hi & Hs & _).
  cbv zeta in Hi, Hs. rewrite Hi at 1.
  rewrite make_issues_length, templates_of_length, Hs.
  unfold num_issues_of.
  destruct (20 <? _); destruct (75 <=? _); try destruct (50 <=? _); lia.
Qed.


(** X3.  The risk types of the issues are fixed by their position, whatever
    the category: the first issue is a hallucination, the second a
    compliance risk; no issue of the simulator is of type uncertain. *)
Theorem demo_risk_types_by_position (text context_type : string) (w : world) :
  let r := fst (generate_demo_analysis text context_type w) in
  List.map riskType (issues r)
  = firstn (List.length (issues r)) ["hallucination"; "compliance-risk"]
  /\ ~ In "uncertain" (List.map riskType (issues r)).
Proof.
  cbv zeta.
  assert (List.length (issues (fst (generate_demo_analysis text context_type w)))
          <= 2)%nat as H2.
  { pose proof (demo_issues_length text context_type w) as L. cbv zeta in L.
    destruct (20 <? _); lia. }
  destruct (demo_issues_of_frame text context_type w) as (Hi & _).
  cbv zeta in Hi.
  assert (List.map riskType (issues (fst (generate_demo_analysis text context_type w)))
          = firstn (List.length (issues (fst (generate_demo_analysis text context_type w))))
              ["hallucination"; "compliance-risk"]) as E.
  { rewrite Hi in *. rewrite make_issues_map.
    set (k := List.length (make_issues _ _ _)) in *.
    rewrite (map_ext_seq _ (fun i => nth i ["hallucination"; "compliance-risk"] "")).
    - apply map_nth_seq. cbn. lia.
    - intros i Hik. unfold make_issue. cbn [riskType].
      rewrite templates_of_length.
      rewrite <- (map_nth tpl_riskType), templates_risk_types.
      assert (i = 0 \/ i = 1)%nat as [-> | ->] by lia; reflexivity. }
  split; [exact E |].
  rewrite E. intros Hin. apply in_firstn in Hin.
  cbn in Hin. destruct Hin as [Hin | [Hin | []]]; discriminate.
Qed.


(** X5.  A category that is none of the three is served as legal: the issues
    are those of the category legal, and the report speaks of general
    content. *)
Theorem demo_unknown_category (text context_type : string) (w : world) :
  existsb (String.eqb context_type) ["legal"; "finance"; "compliance"] = false ->
  let r := fst (generate_demo_analysis text context_type w) in
  let r' := fst (generate_demo_analysis text "legal" w) in
  issues r = issues r' /\
  complianceReport r = compliance_report_of (label r) "general" (score r).
Proof.
  intros Hc. cbv zeta. rewrite !generate_demo_analysis_frame.
  destruct (run_demo_spec text) as (b210 & g1 & b212 & snippets & g & _ & _ & H).
  rewrite !H. cbn [fst f_result issues complianceReport label score].
  cbn in Hc. apply orb_false_elim in Hc. destruct Hc as [Hl Hc].
  apply orb_false_elim in Hc. destruct Hc as [Hf Hc].
  apply orb_false_elim in Hc. destruct Hc as [Hc _].
  rewrite String.eqb_sym in Hl. rewrite String.eqb_sym in Hf.
  rewrite String.eqb_sym in Hc.
  unfold templates_of, issue_templates, context_names.
  cbn [lookup]. rewrite Hl, Hf, Hc. split; reflexivity.
Qed.

End DemoIssues.

Lemma demo_unknown_category_witness :
  issues (fst (generate_demo_analysis (RT := cpython)
                 "Contract terms appear standard." "medical" sample_world))
  = issues (fst (generate_demo_analysis (RT := cpython)
                   "Contract terms appear standard." "legal" sample_world)).
Proof.
  exact (proj1 (demo_unknown_category (RT := cpython)
                  "Contract terms appear standard." "medical" sample_world
                  eq_refl)).
Defined.

(** ** The snippets, the shape of the result and the generator *)

Lemma hex_digit_bound c d : Json.hex_digit c = Some d -> (d < 16)%N.
Proof.
  unfold Json.hex_digit. cbv zeta.
  repeat match goal with
         | |- context [if ?b then _ else _] => destruct b eqn:?
         end; intros [= <-];
    repeat match goal with
           | H : (_ && _) = true |- _ => apply andb_prop in H; destruct H
           | H : (_ <=? _)%N = true |- _ => apply N.leb_le in H
           end; lia.
Qed.

Lemma int_of_hex_range s :
  0 <= int_of_hex s < 16 ^ Z.of_nat (String.length s).
Proof.
  unfold int_of_hex.
  set (go := fix go (acc : Z) (s : string) {struct s} : Z :=
         match s with
         | EmptyString => acc
         | String c s' =>
             go (16 * acc + match Json.hex_digit c with
                            | Some d => Z.of_N d
                            | None => 0
                            end) s'
         end).
  assert (forall s acc, 0 <= acc ->
            acc * 16 ^ Z.of_nat (String.length s) <= go acc s
            < (acc + 1) * 16 ^ Z.of_nat (String.length s)) as G.
  { clear s. induction s as [| c s IH]; intros acc Hacc.
    - cbn. lia.
    - cbn [go String.length].
      assert (0 <= match Json.hex_digit c with
                   | Some d => Z.of_N d
                   | None => 0
                   end < 16) as D.
      { destruct (Json.hex_digit c) as [d |] eqn:E; [| lia].
        apply hex_digit_bound in E. lia. }
      specialize (IH (16 * acc + match Json.hex_digit c with
                                 | Some d => Z.of_N d
                                 | None => 0
                                 end) ltac:(lia)).
      rewrite Nat2Z.inj_succ, Z.pow_succ_r by lia.
      assert (0 < 16 ^ Z.of_nat (String.length s)) by (apply Z.pow_pos_nonneg; lia).
      nia. }
  specialize (G s 0 ltac:(lia)). lia.
Qed.

Section DemoRest.

Context {RT : Runtime}.

(** X6.  The seed drawn from the text is a number of 32 bits, whatever
    [hashlib.md5] returns. *)
Theorem text_hash_range (text : string) : 0 <= text_hash text < 2 ^ 32.
Proof.
  unfold text_hash.
  pose proof (int_of_hex_range (Text.take 8 (hexdigest (md5 (encode text))))) as R.
  pose proof (take_length 8 (hexdigest (md5 (encode text)))) as T.
  assert (16 ^ Z.of_nat (String.length (Text.take 8 (hexdigest (md5 (encode text)))))
          <= 16 ^ 8) as P by (apply Z.pow_le_mono_r; lia).
  change (2 ^ 32) with (16 ^ 8). lia.
Qed.

(** X7.  A call reseeds the generator of the [random] module: the state it
    leaves behind is fixed by the text alone, whatever the state before, the
    category and the clock, and the clock is left as it was. *)
Theorem demo_leaves_generator (text c1 c2 : string) (w1 w2 : world) :
  random_state (snd (generate_demo_analysis text c1 w1))
  = random_state (snd (generate_demo_analysis text c2 w2))
  /\ clock (snd (generate_demo_analysis text c1 w1)) = clock w1.
Proof.
  destruct (run_demo_spec text) as (b210 & g1 & b212 & snippets & g & _ & _ & H).
  unfold generate_demo_analysis, bind, ret. rewrite !H. split; reflexivity.
Qed.


(** X9.  What the simulator returns has the shape of a result: an integer
    score, one of the three labels, issues with four texts and one of the
    three risk types, and the two narratives. *)
Theorem demo_result_shape (text context_type : string) (w : world) :
  is_analysis_result (dict_of (fst (generate_demo_analysis text context_type w)))
  = true.
Proof.
  rewrite generate_demo_analysis_frame.
  destruct (run_demo_spec text) as (b210 & g1 & b212 & snippets & g & _ & _ & H).
  rewrite H. cbn [fst f_result].
  unfold is_analysis_result, dict_of.
  cbn [Dict.get String.eqb Ascii.eqb Bool.eqb score label issues complianceReport
       ndaauditNote is_str is_one_of andb].
  assert (existsb (String.eqb (label_of (clamp b212))) ["High"; "Medium"; "Low"] = true)
    as ->.
  { unfold label_of. destruct (75 <=? _); [reflexivity |].
    destruct (50 <=? _); reflexivity. }
  cbn [andb]. rewrite andb_true_r, andb_true_r.
  rewrite forallb_forall. intros v Hv.
  apply in_map_iff in Hv. destruct Hv as (i & <- & Hi).
  unfold make_issues in Hi. apply in_map_iff in Hi. destruct Hi as (n & <- & _).
  unfold make_issue, is_issue, dict_of_issue.
  cbn [Dict.get String.eqb Ascii.eqb Bool.eqb snippet riskType explanation
       humanCheckHint is_str is_one_of andb].
  rewrite andb_true_r. rewrite templates_of_length.
  rewrite <- (map_nth tpl_riskType), templates_risk_types.
  assert (n mod 3 < 3)%nat as Hn by (apply Nat.mod_upper_bound; lia).
  destruct (n mod 3)%nat as [| [| [| k]]]; try reflexivity. lia.
Qed.

End DemoRest.


(** * The prompt *)

Lemma append_cancel_l p : forall x y, p ++ x = p ++ y -> x = y.
Proof.
  induction p as [| c p IH]; intros x y H; [exact H |].
  cbn [append] in H. injection H as H. apply IH. exact H.
Qed.

Lemma append_cancel_r t : forall a a', a ++ t = a' ++ t -> a = a'.
Proof.
  assert (forall r c, t <> String c (r ++ t)) as N.
  { intros r c E. apply (f_equal String.length) in E.
    cbn [String.length] in E. rewrite length_append in E. lia. }
  induction a as [| c a IH]; intros [| c' a'] H; cbn [append] in H.
  - reflexivity.
  - exfalso. exact (N _ _ H).
  - exfalso. symmetry in H. exact (N _ _ H).
  - injection H as -> H. f_equal. apply IH. exact H.
Qed.

Lemma context_description_cases context_type :
  let d := lookup context_type context_descriptions
             (lookup "legal" context_descriptions "") in
  (d = lookup "legal" context_descriptions "" /\
   (known_context context_type = true -> context_type = "legal"))
  \/ (d = lookup "finance" context_descriptions "" /\ context_type = "finance")
  \/ (d = lookup "compliance" context_descriptions "" /\ context_type = "compliance").
Proof.
  cbv zeta. unfold context_descriptions, known_context. cbn [lookup existsb].
  rewrite (String.eqb_sym context_type "legal"),
    (String.eqb_sym context_type "finance"),
    (String.eqb_sym context_type "compliance").
  destruct (String.eqb_spec "legal" context_type) as [<- | N1].
  - left. split; [reflexivity | reflexivity].
  - destruct (String.eqb_spec "finance" context_type) as [<- | N2].
    + right. left. split; reflexivity.
    + destruct (String.eqb_spec "compliance" context_type) as [<- | N3].
      * right. right. split; reflexivity.
      * left. split; [reflexivity | discriminate].
Qed.

(** X10.  The prompt determines the answer it quotes: two calls that build
    the same user prompt, or the same full prompt, were given the same
    answer text and, when both categories are among the three, the same
    category.  The answer is quoted as it is, whatever it contains. *)
Theorem get_user_prompt_injective (a a' c c' : string) :
  get_user_prompt a c = get_user_prompt a' c'
  \/ full_prompt a c = full_prompt a' c' ->
  a = a' /\ (known_context c = true -> known_context c' = true -> c = c').
Proof.
  intros H.
  assert (get_user_prompt a c = get_user_prompt a' c') as G.
  { destruct H as [H | H]; [exact H |]. unfold full_prompt in H.
    apply append_cancel_l, append_cancel_l, append_cancel_l in H. exact H. }
  clear H. revert G. unfold get_user_prompt. cbv zeta. intros H.
  apply (append_cancel_l "CONTEXT TYPE: ") in H.
  destruct (context_description_cases c) as [[E K] | [[E K] | [E K]]];
    destruct (context_description_cases c') as [[E' K'] | [[E' K'] | [E' K']]];
    cbv zeta in E, E'; rewrite E, E' in H;
    try (exfalso; cbn in H; discriminate H);
    apply append_cancel_l, append_cancel_l, append_cancel_r in H;
    (split; [exact H |]); intros Hc Hc'; try (subst; reflexivity).
  rewrite (K Hc), (K' Hc'). reflexivity.
Qed.

(** The same answer under the category legal and under one that is none
    of the three: the prompts are equal. *)
Lemma get_user_prompt_injective_witness :
  "The lease ends in May." = "The lease ends in May.".
Proof.
  exact (proj1 (get_user_prompt_injective "The lease ends in May."
                  "The lease ends in May." "legal" "medical"
                  (or_introl eq_refl))).
Defined.

(** * The voice summary *)

Section VoiceFacts.

Context {RT : Runtime} {LB : Library}.

Lemma demo_label_of_score text context_type w :
  let r := fst (generate_demo_analysis text context_type w) in
  label r = label_of (score r).
Proof.
  cbv zeta. rewrite generate_demo_analysis_frame.
  destruct (run_demo_spec text) as (b210 & g1 & b212 & snippets & g & _ & _ & H).
  rewrite H. reflexivity.
Qed.


(** X11.  The summary raises exactly when the analysis is not a dict
    ([AttributeError]) or its issues have no length ([TypeError]):  [None],
    a Boolean or a number.  A dict without the key counts no issue. *)
Theorem voice_summary_errors (analysis : value) (context_type : string) :
  match analysis with
  | VDict d =>
      match Dict.get "issues" d with
      | Some (VList _) | Some (VStr _) | Some (VDict _) | None =>
          exists s, generate_voice_summary analysis context_type = inr s
      | Some _ =>
          generate_voice_summary analysis context_type = inl (Exn TypeError)
      end
  | _ => generate_voice_summary analysis context_type = inl AttributeError
  end.
Proof.
  destruct analysis as [| b | n | x | s | l | d]; try reflexivity.
  unfold generate_voice_summary. cbn [Py.get and_then].
  destruct (Dict.get "issues" d) as [[| b | n | x | s | l | d'] |];
    cbn [Py.len and_then raise]; try reflexivity;
    (destruct (is_text _ "High"); [| destruct (is_text _ "Medium")];
     eexists; reflexivity).
Qed.

(** X12.  In demo mode the summary follows the score: trustworthy from 75
    up, areas of concern from 50 to 74, significant risks below 50; it
    counts one issue or two, and never raises. *)
Theorem voice_summary_of_demo_result (text context_type : string) (w : world) :
  let r := fst (generate_demo_analysis text context_type w) in
  generate_voice_summary (dict_of r) context_type
  = inr ("Based on multi-model consensus analysis, this "
         ++ lookup context_type voice_context_names "" ++ " content "
         ++ (if 75 <=? score r then "appears to be trustworthy"
             else if 50 <=? score r then "has some areas of concern"
             else "has significant trust and compliance risks")
         ++ " with a trust score of " ++ Text.str_of_int (score r)
         ++ " out of 100. I identified "
         ++ (if (List.length (issues r) =? 1)%nat
             then "1 potential issue that requires"
             else "2 potential issues that require")
         ++ " attention. My recommendation is that this content "
         ++ (if 75 <=? score r then "can likely proceed with standard review"
             else if 50 <=? score r
             then "should be reviewed by a qualified professional before proceeding"
             else "should be escalated for thorough human review before any action")
         ++ ".").
Proof.
  cbv zeta.
  pose proof (demo_label_of_score text context_type w) as Hl. cbv zeta in Hl.
  pose proof (demo_issues_length text context_type w) as Hn. cbv zeta in Hn.
  set (r := fst (generate_demo_analysis text context_type w)) in *.
  assert (List.length (issues r) = 1 \/ List.length (issues r) = 2)%nat as Hc.
  { unfold num_issues_of in Hn.
    destruct (20 <? _); destruct (75 <=? _); try destruct (50 <=? _); lia. }
  unfold generate_voice_summary, dict_of.
  cbn [Py.get Dict.get String.eqb Ascii.eqb Bool.eqb and_then Py.len format_value
       is_text].
  rewrite length_map, Hl. unfold label_of.
  destruct (75 <=? score r); [| destruct (50 <=? score r)];
    destruct Hc as [-> | ->]; reflexivity.
Qed.

End VoiceFacts.

(** * Timestamps

    [isoformat] writes fields of fixed width, which the strict
    [fromisoformat] reads back. *)

Lemma string_of_uint_length d :
  String.length (NilEmpty.string_of_uint d) = Decimal.nb_digits d.
Proof. induction d; cbn; congruence. Qed.

Lemma digits_of_uint_acc rest : forall d acc,
  Strict.digits (Decimal.nb_digits d) (Zpos acc)
    (NilEmpty.string_of_uint d ++ rest)
  = Some (Zpos (Pos.of_uint_acc d acc), rest).
Proof.
  induction d as [| d IH | d IH | d IH | d IH | d IH | d IH | d IH | d IH | d IH
                  | d IH]; intros acc;
    cbn [Decimal.nb_digits NilEmpty.string_of_uint append Strict.digits
         Pos.of_uint_acc];
    try reflexivity;
    match goal with
    | |- context [Text.isdigit ?c] =>
        change (Text.isdigit c) with true; cbv iota;
        let v := eval vm_compute in (Z.of_N (Text.ord c - 48)) in
        change (Z.of_N (Text.ord c - 48)) with v;
        rewrite <- IH; f_equal; lia
    end.
Qed.

Lemma digits_of_uint rest : forall d,
  Strict.digits (Decimal.nb_digits d) 0 (NilEmpty.string_of_uint d ++ rest)
  = Some (Z.of_N (Pos.of_uint d), rest).
Proof.
  induction d as [| d IH | d IH | d IH | d IH | d IH | d IH | d IH | d IH | d IH
                  | d IH];
    cbn [Decimal.nb_digits NilEmpty.string_of_uint append Strict.digits
         Pos.of_uint];
    try reflexivity;
    match goal with
    | |- context [Text.isdigit ?c] =>
        change (Text.isdigit c) with true; cbv iota;
        let v := eval vm_compute in (Z.of_N (Text.ord c - 48)) in
        change (Z.of_N (Text.ord c - 48)) with v
    end;
    first [exact IH | apply digits_of_uint_acc].
Qed.

Lemma digits_zeros s : forall k w,
  Strict.digits (k + w) 0 (Text.zeros k ++ s) = Strict.digits w 0 s.
Proof.
  induction k as [| k IH]; intros w; [reflexivity |].
  cbn [Nat.add Text.zeros append Strict.digits].
  change (Text.isdigit "0") with true. cbv iota. apply IH.
Qed.

Lemma of_uint_acc_lower : forall d acc,
  Zpos acc * 10 ^ Z.of_nat (Decimal.nb_digits d) <= Zpos (Pos.of_uint_acc d acc).
Proof.
  induction d as [| d IH | d IH | d IH | d IH | d IH | d IH | d IH | d IH | d IH
                  | d IH]; intros acc;
    cbn [Decimal.nb_digits Pos.of_uint_acc]; [cbn; lia | ..];
    rewrite Nat2Z.inj_succ, Z.pow_succ_r by lia;
    match goal with
    | |- _ <= Zpos (Pos.of_uint_acc _ ?a) => specialize (IH a)
    end;
    assert (0 < 10 ^ Z.of_nat (Decimal.nb_digits d))
      by (apply Z.pow_pos_nonneg; lia);
    nia.
Qed.

Lemma to_uint_digits p w :
  Zpos p < 10 ^ Z.of_nat w -> (Decimal.nb_digits (Pos.to_uint p) <= w)%nat.
Proof.
  intros H.
  pose proof (DecimalPos.Unsigned.of_to p) as E.
  pose proof (DecimalPos.Unsigned.to_of (Pos.to_uint p)) as N.
  rewrite E in N. cbn [N.to_uint] in N.
  pose proof (DecimalPos.Unsigned.to_uint_nonzero p) as Z0.
  assert (Decimal.nzhead (Pos.to_uint p) = Pos.to_uint p) as NZ.
  { unfold Decimal.unorm in N.
    destruct (Decimal.nzhead (Pos.to_uint p)); congruence. }
  pose proof (DecimalFacts.nzhead_nonzero (Pos.to_uint p)) as NH. rewrite NZ in NH.
  pose proof (DecimalPos.Unsigned.to_uint_nonnil p) as NN.
  assert (10 ^ Z.of_nat (Decimal.nb_digits (Pos.to_uint p) - 1) <= Zpos p) as L.
  { destruct (Pos.to_uint p) as [| d | d | d | d | d | d | d | d | d | d];
      try congruence; try (exfalso; exact (NH d eq_refl));
      cbn [Pos.of_uint] in E; injection E as E; rewrite <- E;
      cbn [Decimal.nb_digits];
      replace (S (Decimal.nb_digits d) - 1)%nat with (Decimal.nb_digits d) by lia;
      match goal with
      | |- _ <= Zpos (Pos.of_uint_acc d ?a) =>
          pose proof (of_uint_acc_lower d a) as B
      end;
      assert (0 < 10 ^ Z.of_nat (Decimal.nb_digits d))
        by (apply Z.pow_pos_nonneg; lia);
      nia. }
  destruct (Nat.le_gt_cases (Decimal.nb_digits (Pos.to_uint p)) w) as [G | G];
    [exact G | exfalso].
  assert (10 ^ Z.of_nat w <= 10 ^ Z.of_nat (Decimal.nb_digits (Pos.to_uint p) - 1))
    by (apply Z.pow_le_mono_r; lia).
  lia.
Qed.

(** A field of width [w] is read back as the number written. *)
Lemma digits_pad w n rest :
  (0 < w)%nat -> 0 <= n < 10 ^ Z.of_nat w ->
  Strict.digits w 0 (Text.pad w n ++ rest) = Some (n, rest).
Proof.
  intros Hw Hn. unfold Text.pad, Text.str_of_int. cbv zeta.
  destruct n as [| p | p]; [| | lia].
  - cbn [Z.to_int NilZero.string_of_int NilZero.string_of_uint String.length].
    rewrite append_assoc.
    replace w with ((w - 1) + 1)%nat at 1 by lia.
    rewrite digits_zeros. reflexivity.
  - cbn [Z.to_int NilZero.string_of_int].
    assert (NilZero.string_of_uint (Pos.to_uint p)
            = NilEmpty.string_of_uint (Pos.to_uint p)) as ->.
    { pose proof (DecimalPos.Unsigned.to_uint_nonnil p).
      destruct (Pos.to_uint p); [congruence | reflexivity ..]. }
    rewrite string_of_uint_length, append_assoc.
    pose proof (to_uint_digits p w (proj2 Hn)) as B.
    replace w with ((w - Decimal.nb_digits (Pos.to_uint p))
                    + Decimal.nb_digits (Pos.to_uint p))%nat at 1 by lia.
    rewrite digits_zeros, digits_of_uint, DecimalPos.Unsigned.of_to.
    reflexivity.
Qed.

Lemma field_pad w sep n rest :
  (0 < w)%nat -> 0 <= n < 10 ^ Z.of_nat w ->
  Strict.field w sep (sep ++ Text.pad w n ++ rest) = Some (n, rest).
Proof.
  intros Hw Hn. unfold Strict.field.
  rewrite strip_prefix_append. apply digits_pad; assumption.
Qed.

Lemma fromisoformat_isoformat_strict t :
  valid_instant t = true -> Strict.fromisoformat (isoformat t) = Some t.
Proof.
  intros V. pose proof V as V'.
  destruct t as [[y m d h mi s] us].
  unfold valid_instant in V'. cbn [date_time microsecond year month day hour
                                   minute second] in V'.
  repeat (apply andb_prop in V'; destruct V' as [V' ?]).
  repeat match goal with
         | H : (_ <=? _) = true |- _ => apply Z.leb_le in H
         end.
  assert (d <= 31) as Hd.
  { unfold days_in_month in *.
    repeat match goal with
           | H : context [if ?b then _ else _] |- _ => destruct b
           end; lia. }
  unfold Strict.fromisoformat, isoformat.
  cbn [date_time microsecond year month day hour minute second].
  change (Text.pad 4 y ++ ?r) with ("" ++ Text.pad 4 y ++ r).
  rewrite (field_pad 4 "" y) by (cbn; lia).
  rewrite (field_pad 2 "-" m) by (cbn; lia).
  rewrite (field_pad 2 "-" d) by (cbn; lia).
  rewrite (field_pad 2 "T" h) by (cbn; lia).
  rewrite (field_pad 2 ":" mi) by (cbn; lia).
  rewrite (field_pad 2 ":" s) by (cbn; lia).
  destruct (us =? 0) eqn:E.
  - apply Z.eqb_eq in E. subst us. rewrite V. reflexivity.
  - apply Z.eqb_neq in E.
    rewrite <- (append_nil_r (Text.pad 6 us)).
    change ("." ++ Text.pad 6 us ++ "")
      with (String "." (Text.pad 6 us ++ "")) at 1. cbv iota.
    rewrite (field_pad 6 "." us "") by (cbn; lia).
    rewrite V. reflexivity.
Qed.

Lemma strict_laws : LibraryLaws strict.
Proof.
  constructor.
  - intros [s r e h]. reflexivity.
  - reflexivity.
  - exact fromisoformat_isoformat_strict.
Qed.

(** * The endpoints *)

Lemma store_length (e : Entry.t) history :
  (List.length history <= 50)%nat ->
  List.length (store e history) = Nat.min (S (List.length history)) 50.
Proof.
  intros H. unfold store. cbv zeta.
  destruct (50 <? _) eqn:E.
  - apply Z.ltb_lt in E. rewrite removelast_firstn_len. rewrite length_firstn.
    cbn [List.length] in *. lia.
  - apply Z.ltb_ge in E. cbn [List.length] in *. lia.
Qed.


Section EndpointFacts.

Context {RT : Runtime} {LB : Library}.



Lemma accepted_text text :
  10 <= Text.len (Str.strip text) ->
  String.eqb text "" || (Text.len (Str.strip text) <? 10) = false.
Proof.
  intros H. destruct (String.eqb_spec text "") as [-> | _].
  - cbn in H. lia.
  - cbn [orb]. apply Z.ltb_ge. exact H.
Qed.


(** What a request that is not refused does. *)
Lemma analyze_accepted o request st :
  10 <= Text.len (Str.strip (Request.answerText request)) ->
  known_context (Request.contextType request) = true ->
  analyze_content o request st
  = (let '(analysis, st1, reads) := run_analysis o request st in
     match (let* analysis := analysis in build_response o request analysis reads)
     with
     | inr (result, timestamp) =>
         (OK result,
          Server (rng st1)
            (store (entry_of timestamp request result) (analysis_history st1)))
     | inl _ => (InternalError, st1)
     end).
Proof.
  intros Ht Hc. unfold analyze_content.
  rewrite (accepted_text _ Ht). unfold known_context in Hc. rewrite Hc.
  reflexivity.
Qed.



(** X16.  In live mode a request is answered with status 500, and the state
    is left as it was, when the Gemini client raises, when
    [parse_llm_response] raises, and when the reply decodes to a value that
    is not an object. *)
Theorem analyze_live_failure (o : outside) (request : Request.t) (st : server) :
  use_demo_mode o = false ->
  10 <= Text.len (Str.strip (Request.answerText request)) ->
  known_context (Request.contextType request) = true ->
  match generate_content o
          (full_prompt (Request.answerText request) (Request.contextType request))
  with
  | None => True
  | Some reply =>
      match parse_llm_response Json.loads reply with
      | Raises _ => True
      | Returns v => is_dict v = false
      end
  end ->
  analyze_content o request st = (InternalError, st).
Proof.
  intros Hd Ht Hc H.
  rewrite (analyze_accepted _ _ _ Ht Hc). unfold run_analysis. rewrite Hd.
  destruct (generate_content o _) as [reply |]; [| reflexivity].
  destruct (parse_llm_response Json.loads reply) as [v | e]; [| reflexivity].
  cbn [and_then]. unfold build_response.
  destruct v; try discriminate H;
    (destruct (Request.voiceMode request); reflexivity).
Qed.

(** The three outcomes of a call. *)
Lemma analyze_outcome (o : outside) (request : Request.t) (st : server) :
  (exists detail, analyze_content o request st = (BadRequest detail, st))
  \/ (exists st1,
        analyze_content o request st = (InternalError, st1)
        /\ analysis_history st1 = analysis_history st)
  \/ (exists result timestamp st1,
        (timestamp = isoformat (readings o 0)
         \/ timestamp = isoformat (readings o 1))
        /\ analysis_history st1 = analysis_history st
        /\ analyze_content o request st
           = (OK result,
              Server (rng st1)
                (store (entry_of timestamp request result)
                   (analysis_history st1)))).
Proof.
  unfold analyze_content.
  destruct (_ || _); [left; eexists; reflexivity |].
  destruct (negb _); [left; eexists; reflexivity |]. right.
  assert (analysis_history (snd (fst (run_analysis o request st)))
          = analysis_history st) as Hh.
  { unfold run_analysis. destruct (use_demo_mode o).
    - destruct (generate_demo_analysis _ _ _). reflexivity.
    - destruct (generate_content o _); [| reflexivity].
      destruct (parse_llm_response _ _); reflexivity. }
  assert (snd (run_analysis o request st) = 0 \/ snd (run_analysis o request st) = 1)%nat
    as Hr.
  { unfold run_analysis. destruct (use_demo_mode o).
    - destruct (generate_demo_analysis _ _ _). right. reflexivity.
    - destruct (generate_content o _); [| left; reflexivity].
      destruct (parse_llm_response _ _); left; reflexivity. }
  destruct (run_analysis o request st) as [[a s] r]. cbn [fst snd] in Hh, Hr.
  destruct a as [e | v]; cbn [and_then];
    [left; exists s; split; [reflexivity | exact Hh] |].
  destruct (build_response o request v r) as [e | [result ts]] eqn:B;
    [left; exists s; split; [reflexivity | exact Hh] |].
  right. exists result, ts, s. split; [| split; [exact Hh | reflexivity]].
  assert (ts = isoformat (readings o r)) as ->.
  { revert B. unfold build_response.
    repeat match goal with
           | |- context [and_then ?x _] => destruct x; cbn [and_then]
           end; try discriminate; intros [= _ <-]; reflexivity. }
  destruct Hr as [-> | ->]; [left | right]; reflexivity.
Qed.



End EndpointFacts.

(** ** The history over a run of the server *)

Section HistoryFacts.

Context {RT : Runtime} {LB : Library}.

Lemma analyze_history_length o request st :
  (List.length (analysis_history st) <= 50)%nat ->
  (List.length (analysis_history st)
   <= List.length (analysis_history (snd (analyze_content o request st)))
   <= Nat.min (S (List.length (analysis_history st))) 50)%nat.
Proof.
  intros H.
  destruct (analyze_outcome o request st)
    as [(detail & ->) | [(st1 & -> & Hh) | (result & ts & st1 & _ & Hh & ->)]];
    cbn [snd analysis_history].
  - lia.
  - rewrite Hh. lia.
  - rewrite store_length by (rewrite Hh; exact H). rewrite Hh. lia.
Qed.

Lemma stamped_store e history :
  (exists t, valid_instant t = true /\ Entry.timestamp e = isoformat t) ->
  stamped history -> stamped (store e history).
Proof.
  intros He Hh. unfold store. cbv zeta.
  assert (stamped (e :: history)) as S by (constructor; assumption).
  destruct (50 <? _); [| exact S].
  rewrite removelast_firstn_len. unfold stamped in *.
  apply Forall_forall. intros x Hx. apply in_firstn in Hx.
  revert x Hx. apply Forall_forall. exact S.
Qed.

Lemma analyze_history_stamped o request st :
  (forall k, valid_instant (readings o k) = true) ->
  stamped (analysis_history st) ->
  stamped (analysis_history (snd (analyze_content o request st))).
Proof.
  intros V H.
  destruct (analyze_outcome o request st)
    as [(detail & ->) | [(st1 & -> & Hh) | (result & ts & st1 & Hts & Hh & ->)]];
    cbn [snd analysis_history].
  - exact H.
  - rewrite Hh. exact H.
  - rewrite Hh. apply stamped_store; [| exact H].
    destruct Hts as [-> | ->]; eexists; (split; [apply V |]); reflexivity.
Qed.

(** X19.  The history never holds more than 50 entries, however many
    requests are served, and [get_history] never returns more than 10; a
    request adds one entry at most. *)
Theorem history_bounded (calls : list (outside * Request.t)) (st : server) :
  (List.length (analysis_history st) <= 50)%nat ->
  (List.length (analysis_history (serve calls st)) <= 50)%nat
  /\ (List.length (analysis_history (serve calls st))
      <= List.length (analysis_history st) + List.length calls)%nat
  /\ (List.length (get_history (serve calls st)) <= 10)%nat.
Proof.
  intros H.
  assert ((List.length (analysis_history (serve calls st)) <= 50)%nat
          /\ (List.length (analysis_history (serve calls st))
              <= List.length (analysis_history st) + List.length calls)%nat) as B.
  { revert st H. induction calls as [| [o request] calls IH]; intros st H.
    - cbn [serve List.length]. lia.
    - cbn [serve List.length].
      pose proof (analyze_history_length o request st H) as S.
      destruct (IH (snd (analyze_content o request st)) ltac:(lia)) as [B1 B2].
      lia. }
  destruct B as [B1 B2]. split; [exact B1 | split; [exact B2 |]].
  unfold get_history. rewrite length_firstn. lia.
Qed.

(** Every timestamp in the history of a server that started with none
    was written by [isoformat] from a reading of the clock. *)
Lemma serve_stamped calls : forall st,
  Forall (fun c => forall k, valid_instant (readings (fst c) k) = true) calls ->
  stamped (analysis_history st) ->
  stamped (analysis_history (serve calls st)).
Proof.
  induction calls as [| [o request] calls IH]; intros st V H; [exact H |].
  cbn [serve]. inversion V as [| c l V1 V2]; subst. cbn [fst] in V1.
  apply IH; [exact V2 |]. apply analyze_history_stamped; assumption.
Qed.

End HistoryFacts.

(** ** The two readings of the mode *)

(** X20.  [root] and [analyze_content] read the mode differently:  [root]
    reports demo exactly when no key is set, and then [analyze_content] runs
    the simulator too; with a key set and [DEMO_MODE] spelling true in any
    case of letters, [root] reports production while [analyze_content] runs
    the simulator, and in no other setting do the two differ. *)
Theorem root_mode_and_demo_mode (o : outside) :
  (Health.mode (root o) = "demo" <-> unset (GEMINI_API_KEY o) = true)
  /\ (Health.mode (root o) = "demo" -> use_demo_mode o = true)
  /\ (Health.mode (root o) = "production" /\ use_demo_mode o = true
      <-> unset (GEMINI_API_KEY o) = false
          /\ exists s, DEMO_MODE o = Some s /\ Str.lower s = "true").
Proof.
  unfold root, use_demo_mode. cbn [Health.mode].
  destruct (unset (GEMINI_API_KEY o)); cbn [orb].
  - split; [split; reflexivity |]. split; [reflexivity |].
    split; [intros [H _]; discriminate | intros [H _]; discriminate].
  - split; [split; discriminate |]. split; [discriminate |].
    split.
    + intros [_ H]. split; [reflexivity |].
      destruct (DEMO_MODE o) as [s |].
      * exists s. split; [reflexivity |]. apply String.eqb_eq. exact H.
      * discriminate H.
    + intros [_ (s & -> & H)]. split; [reflexivity |].
      apply String.eqb_eq. exact H.
Qed.

(** ** The statistics *)

(** [round((low / total) * 100)] for every history of at most 50 entries:
    the floats give an integer nearest to the exact percentage. *)
Lemma percentage_table :
  forallb
    (fun total =>
       forallb
         (fun low =>
            match Num.round (PrimFloat.mul
                               (Num.true_divide (Z.of_nat low) (Z.of_nat total))
                               (Num.float_of_int 100)) with
            | inr p =>
                (0 <=? p) && (p <=? 100)
                && (2 * Z.abs (100 * Z.of_nat low - p * Z.of_nat total)
                    <=? Z.of_nat total)
            | inl _ => false
            end)
         (seq 0 (S total)))
    (seq 1 50) = true.
Proof. vm_compute. reflexivity. Qed.

Lemma percentage_nearest low total :
  0 <= low <= total -> 1 <= total <= 50 ->
  exists p,
    Num.round (PrimFloat.mul (Num.true_divide low total) (Num.float_of_int 100))
    = inr p
    /\ 0 <= p <= 100
    /\ 2 * Z.abs (100 * low - p * total) <= total.
Proof.
  intros Hl Ht. pose proof percentage_table as T.
  rewrite forallb_forall in T.
  specialize (T (Z.to_nat total) ltac:(apply in_seq; lia)).
  rewrite forallb_forall in T.
  specialize (T (Z.to_nat low) ltac:(apply in_seq; lia)).
  rewrite !Z2Nat.id in T by lia.
  destruct (Num.round _) as [e | p]; [discriminate |].
  exists p. split; [reflexivity |].
  apply andb_prop in T. destruct T as [T T3].
  apply andb_prop in T. destruct T as [T1 T2].
  apply Z.leb_le in T1, T2, T3. lia.
Qed.

(** The one tie that the floats break downwards: 23 of 40 is 57.5 per
    cent, and the percentage reported is 57. *)
Example percentage_of_23_in_40 :
  Num.round (PrimFloat.mul (Num.true_divide 23 40) (Num.float_of_int 100))
  = inr 57
  /\ Num.nearest_even (100 * 23) 40 = 58.
Proof. split; vm_compute; reflexivity. Qed.

Lemma labelled_cons name h history :
  labelled name (h :: history)
  = (if String.eqb (Entry.label h) name then 1 else 0) + labelled name history.
Proof.
  unfold labelled. cbn [filter].
  destruct (String.eqb (Entry.label h) name); cbn [List.length]; lia.
Qed.

Lemma labelled_range name history :
  0 <= labelled name history <= Z.of_nat (List.length history).
Proof.
  unfold labelled. pose proof (filter_length_le
    (fun h => String.eqb (Entry.label h) name) history). lia.
Qed.

Lemma fines_avoided_count history :
  fines_avoided history
  = 50000 * labelled "Low" history + 10000 * labelled "Medium" history.
Proof.
  unfold fines_avoided.
  assert (forall acc,
            fold_left
              (fun fines h =>
                 if String.eqb (Entry.label h) "Low" then fines + 50000
                 else if String.eqb (Entry.label h) "Medium" then fines + 10000
                 else fines) history acc
            = acc + 50000 * labelled "Low" history
              + 10000 * labelled "Medium" history) as G.
  { induction history as [| h history IH]; intros acc.
    - cbn. lia.
    - cbn [fold_left]. rewrite IH, !labelled_cons.
      destruct (String.eqb_spec (Entry.label h) "Low") as [E | _].
      + rewrite E. cbn [String.eqb Ascii.eqb Bool.eqb]. lia.
      + destruct (String.eqb (Entry.label h) "Medium"); lia. }
  rewrite G. lia.
Qed.

Section StatsFacts.

Context {RT : Runtime} {LB : Library}.

Lemma for_each_stamped (LL : LibraryLaws LB) history :
  stamped history ->
  exists stamps,
    for_each (fun h => checked (fromisoformat (Entry.timestamp h))) history
    = inr stamps
    /\ List.map Entry.timestamp history = List.map isoformat stamps.
Proof.
  induction history as [| h history IH]; intros S.
  - exists []. split; reflexivity.
  - inversion S as [| x l (t & V & E) S']; subst.
    destruct (IH S') as (stamps & F & L).
    exists (t :: stamps). cbn [for_each List.map]. rewrite E.
    rewrite (fromisoformat_isoformat t V). cbn [checked and_then].
    rewrite F. cbn [and_then]. rewrite L. split; reflexivity.
Qed.

(** X21.  On a history of at most 50 entries whose timestamps were written
    by [isoformat], [get_stats] returns: the checks of today are the entries
    whose timestamp bears the date of the clock, the percentage of entries
    labelled Low lies between 0 and 100 and is an integer nearest to the
    exact percentage, and the fines are 50000 for each entry labelled Low
    plus 10000 for each labelled Medium.  An empty history gives three
    zeros. *)
Theorem stats_of_history (LL : LibraryLaws LB) (o : outside) (st : server) :
  stamped (analysis_history st) ->
  (List.length (analysis_history st) <= 50)%nat ->
  exists s,
    get_stats o st = inr s /\
    let total := Z.of_nat (List.length (analysis_history st)) in
    let low := labelled "Low" (analysis_history st) in
    (exists stamps,
       List.map Entry.timestamp (analysis_history st) = List.map isoformat stamps
       /\ Stats.checksToday s
          = Z.of_nat
              (List.length
                 (filter (fun t => date_eqb (date_of t) (date_of (readings o 0)))
                    stamps))) /\
    0 <= Stats.checksToday s <= total /\
    0 <= Stats.highRiskPercentage s <= 100 /\
    2 * Z.abs (100 * low - Stats.highRiskPercentage s * total) <= total /\
    Stats.estimatedFinesAvoided s
    = 50000 * low + 10000 * labelled "Medium" (analysis_history st) /\
    (analysis_history st = [] -> s = Stats.Make 0 0 0).
Proof.
  intros S B. unfold get_stats.
  destruct (analysis_history st) as [| h history] eqn:E.
  - exists (Stats.Make 0 0 0). split; [reflexivity |]. cbv zeta.
    split; [exists []; split; reflexivity |]. cbn. repeat split; lia.
  - destruct (for_each_stamped LL _ S) as (stamps & F & L).
    rewrite F. cbn [and_then].
    pose proof (labelled_range "Low" (h :: history)) as R.
    assert ((0 <? Z.of_nat (List.length (h :: history))) = true) as ->
        by (apply Z.ltb_lt; cbn [List.length]; lia).
    fold (labelled "Low" (h :: history)).
    destruct (percentage_nearest (labelled "Low" (h :: history))
                (Z.of_nat (List.length (h :: history))))
      as (p & P & P1 & P2);
      [lia | cbn [List.length] in *; lia |].
    rewrite P. cbn [and_then]. eexists. split; [reflexivity |].
    cbn [Stats.checksToday Stats.highRiskPercentage Stats.estimatedFinesAvoided].
    cbv zeta.
    split; [exists stamps; split; [exact L | reflexivity] |].
    split; [| split; [exact P1 | split; [exact P2 | split]]].
    + pose proof (filter_length_le
                    (fun t => date_eqb (date_of t) (date_of (readings o 0)))
                    stamps) as Fl.
      apply (f_equal (@List.length string)) in L. rewrite !length_map in L.
      lia.
    + apply fines_avoided_count.
    + discriminate.
Qed.

End StatsFacts.

(** * More on the parser *)

Lemma object_matches_none s :
  Text.contains "{" s = false \/ Text.contains "}" s = false ->
  Re.matches object_re s = [].
Proof.
  intros H. unfold object_re. destruct s as [| c s]; [reflexivity |].
  destruct (Ascii.eqb_spec "{" c) as [<- | N].
  - destruct H as [H | H]; [discriminate H |].
    change (String "{" s) with ("{" ++ s). rewrite seq_lit_some.
    rewrite brace_tail_none; [reflexivity |].
    unfold Text.contains in *. cbn [Text.any] in H.
    apply orb_false_iff in H. exact (proj2 H).
  - apply seq_lit_none. cbn [Text.strip_prefix].
    destruct (Ascii.eqb_spec "{" c); [contradiction | reflexivity].
Qed.

Lemma object_search_none : forall s,
  Text.contains "{" s = false \/ Text.contains "}" s = false ->
  Re.search object_re s = None.
Proof.
  induction s as [| c s IH]; intros H.
  - reflexivity.
  - rewrite search_skip by (apply object_matches_none; exact H).
    apply IH. unfold Text.contains in *. cbn [Text.any] in H.
    destruct H as [H | H]; apply orb_false_iff in H; [left | right];
      exact (proj2 H).
Qed.

Lemma fence_block_match body Q :
  Text.has_sub "```" (String "{" (body ++ "}")) = false ->
  exists m tl,
    Re.matches (Re.Seq (Re.Star Re.Greedy Re.space) fence_interior)
      (nl ++ String "{" (body ++ "}") ++ nl ++ "```" ++ Q)
    = m :: tl /\
    Re.group1 m = Some (String "{" (body ++ "}")).
Proof.
  intros H.
  assert (Text.has_sub "```" (String "{" body) = false) as Hb.
  { apply (has_sub_append_l _ "}"). exact H. }
  assert (Re.matches fence_close (nl ++ "```" ++ Q)
          = [Re.Found (nl ++ "```") None Q]) as Hv by reflexivity.
  destruct (fence_interior_head _ _ _ (String "{" body) Hb Hv) as (tl & E).
  cbn [append nl] in *. rewrite append_brace.
  rewrite (seq_star_greedy_cons Re.space _ "010" _ eq_refl).
  rewrite (seq_star_stop Re.Greedy Re.space fence_interior
             (String "{" (body ++ String "}"
                (String "010" (String "`" (String "`" (String "`" Q))))))
             eq_refl).
  rewrite E. cbn. do 2 eexists. split; reflexivity.
Qed.

Lemma fence_search_block body Q tag :
  tag = "" \/ tag = "json" ->
  Text.has_sub "```" (String "{" (body ++ "}")) = false ->
  exists m tl,
    Re.matches fence_re
      ("```" ++ tag ++ nl ++ String "{" (body ++ "}") ++ nl ++ "```" ++ Q)
    = m :: tl /\
    Re.group1 m = Some (String "{" (body ++ "}")).
Proof.
  intros Ht H.
  destruct (fence_block_match body Q H) as (m & tl & E & G).
  assert (forall r, Text.strip_prefix "json" (nl ++ r) = None) as N
      by reflexivity.
  unfold fence_re. rewrite seq_lit_some, seq_opt_lit.
  destruct Ht as [-> | ->].
  - change ("" ++ nl ++ String "{" (body ++ "}") ++ nl ++ "```" ++ Q)
      with (nl ++ String "{" (body ++ "}") ++ nl ++ "```" ++ Q).
    rewrite N, E. cbn [List.map app].
    do 2 eexists. split; [reflexivity |].
    repeat apply group1_then. exact G.
  - rewrite (strip_prefix_append "json"), E. cbn [List.map app].
    do 2 eexists. split; [reflexivity |].
    repeat apply group1_then. exact G.
Qed.

Lemma fence_search_in_prose body Q tag : forall P,
  Text.contains "`" P = false ->
  tag = "" \/ tag = "json" ->
  Text.has_sub "```" (String "{" (body ++ "}")) = false ->
  exists m,
    Re.search fence_re
      (P ++ "```" ++ tag ++ nl ++ String "{" (body ++ "}") ++ nl ++ "```" ++ Q)
    = Some m /\
    Re.group1 m = Some (String "{" (body ++ "}")).
Proof.
  intros P HP Ht H.
  destruct (fence_search_block body Q tag Ht H) as (m & tl & E & G).
  exists m. split; [| exact G].
  induction P as [| c P IH].
  - exact (search_here _ _ _ tl E).
  - unfold Text.contains in HP. cbn [Text.any] in HP.
    apply orb_false_iff in HP. destruct HP as [H1 H2].
    change (Re.search fence_re
              (String c (P ++ "```" ++ tag ++ nl ++ String "{" (body ++ "}")
                           ++ nl ++ "```" ++ Q)) = Some m).
    rewrite search_skip; [exact (IH H2) |].
    unfold fence_re. apply seq_lit_none. cbn [Text.strip_prefix].
    rewrite H1. reflexivity.
Qed.

Section ParserMore.

Variable loads : string -> Json.loaded.

(** X22.  On a reply with no triple backtick and no pair of braces the
    function is [json.loads] on the whole reply: its value when it decodes,
    the fallback when it is rejected. *)
Theorem parse_plain_reply (text : string) :
  Text.has_sub "```" text = false ->
  Text.contains "{" text = false \/ Text.contains "}" text = false ->
  parse_llm_response loads text
  = match loads text with
    | Json.Decoded v => Returns v
    | Json.Raised JSONDecodeError => Returns fallback
    | Json.Raised e => Raises e
    end.
Proof.
  intros Hf Hb. unfold parse_llm_response, try_loads, parse_fenced, parse_object.
  rewrite (fence_search_none _ Hf), (object_search_none _ Hb).
  destruct (loads text) as [v | []]; reflexivity.
Qed.

(** X23.  An object in a fenced block, untagged or tagged json, is found
    whatever prose surrounds the block, braces included: when the reply as a
    whole is not JSON, the prose before the block has no backtick and the
    object no triple backtick, the function returns what the object decodes
    to. *)
Theorem parse_fenced_in_prose (P Q body tag : string) (J : value) :
  let t := String "{" (body ++ "}") in
  let reply := P ++ "```" ++ tag ++ nl ++ t ++ nl ++ "```" ++ Q in
  Text.contains "`" P = false ->
  tag = "" \/ tag = "json" ->
  Text.has_sub "```" t = false ->
  loads reply = Json.Raised JSONDecodeError ->
  loads t = Json.Decoded J ->
  parse_llm_response loads reply = Returns J.
Proof.
  cbv zeta. intros HP Ht H Hr Hd.
  destruct (fence_search_in_prose body Q tag P HP Ht H) as (m & S & G).
  unfold parse_llm_response, try_loads at 1. rewrite Hr.
  unfold parse_fenced. rewrite S, G. unfold try_loads. rewrite Hd. reflexivity.
Qed.

End ParserMore.

Lemma parse_plain_reply_witness :
  parse_llm_response Json.loads "I cannot comply with this request."
  = Returns fallback.
Proof.
  rewrite (parse_plain_reply Json.loads "I cannot comply with this request."
             eq_refl (or_introl eq_refl)).
  vm_compute. reflexivity.
Defined.

Lemma parse_fenced_in_prose_witness :
  parse_llm_response Json.loads
    (("Fill the {placeholders} in:" ++ nl) ++ "```" ++ "json" ++ nl
     ++ sample_reply ++ nl ++ "```" ++ (nl ++ "Tell me if {anything} is unclear."))
  = Returns sample_value.
Proof.
  apply (parse_fenced_in_prose Json.loads ("Fill the {placeholders} in:" ++ nl)
           (nl ++ "Tell me if {anything} is unclear.") sample_body "json"
           sample_value).
  - reflexivity.
  - right. reflexivity.
  - vm_compute. reflexivity.
  - vm_compute. reflexivity.
  - vm_compute. reflexivity.
Defined.

(** * The endpoints on CPython, with the strict library *)

Lemma sample_readings_valid k : valid_instant (sample_readings k) = true.
Proof.
  unfold valid_instant, sample_readings.
  cbn [date_time microsecond year month day hour minute second].
  pose proof (Z.mod_pos_bound (Z.of_nat k) 60 ltac:(lia)) as B.
  assert ((0 <=? Z.of_nat k mod 60) = true) as -> by (apply Z.leb_le; lia).
  assert ((Z.of_nat k mod 60 <=? 59) = true) as -> by (apply Z.leb_le; lia).
  reflexivity.
Qed.


Example analyze_demo_mode_response :
  match fst (analyze_content (RT := cpython) (LB := strict) demo_outside
               sample_request sample_server) with
  | OK result =>
      (Response.score result, Response.label result,
       List.length (Response.issues result), Response.voiceSummary result,
       Response.timestamp result)
  | _ => (0, "", 0%nat, None, "")
  end
  = (64, "Medium", 1%nat,
     Some "Based on multi-model consensus analysis, this legal content has some areas of concern with a trust score of 64 out of 100. I identified 1 potential issue that requires attention. My recommendation is that this content should be reviewed by a qualified professional before proceeding.",
     "2026-11-03T09:00:01.250000").
Proof. vm_compute. reflexivity. Qed.


(** A reply that is a number, in live mode: status 500. *)
Lemma analyze_live_failure_witness :
  analyze_content (RT := cpython) (LB := strict) (live_outside "5")
    sample_request sample_server
  = (InternalError, sample_server).
Proof.
  apply (analyze_live_failure (RT := cpython) (LB := strict)).
  - reflexivity.
  - vm_compute. discriminate.
  - reflexivity.
  - vm_compute. reflexivity.
Defined.

(** Sixty requests in demo mode, from an empty history. *)
Lemma history_bounded_witness :
  (List.length
     (analysis_history
        (serve (RT := cpython) (LB := strict)
           (List.repeat (demo_outside, sample_request) 60) sample_server))
   <= 50)%nat.
Proof.
  apply (history_bounded (RT := cpython) (LB := strict)
           (List.repeat (demo_outside, sample_request) 60) sample_server).
  cbn. lia.
Defined.

(** The statistics after one request in demo mode. *)
Lemma stats_of_history_witness :
  exists s,
    get_stats (RT := cpython) (LB := strict) demo_outside
      (serve (RT := cpython) (LB := strict) [(demo_outside, sample_request)]
         sample_server)
    = inr s.
Proof.
  destruct (stats_of_history (RT := cpython) (LB := strict) strict_laws
              demo_outside
              (serve (RT := cpython) (LB := strict)
                 [(demo_outside, sample_request)] sample_server))
    as (s & E & _).
  - apply serve_stamped; [| constructor].
    constructor; [| constructor]. intros k. apply sample_readings_valid.
  - pose proof (analyze_history_length (RT := cpython) (LB := strict)
                  demo_outside sample_request sample_server) as L.
    cbn [serve]. cbn [sample_server analysis_history List.length] in L.
    specialize (L ltac:(lia)). cbn [sample_server analysis_history] . lia.
  - exists s. exact E.
Defined.

(** One request in demo mode, then the statistics on the same day: one
    check today, no entry labelled Low, 10000 for the entry labelled
    Medium. *)
Example stats_after_one_request :
  get_stats (RT := cpython) (LB := strict) demo_outside
    (serve (RT := cpython) (LB := strict) [(demo_outside, sample_request)]
       sample_server)
  = inr (Stats.Make 1 0 10000).
Proof. vm_compute. reflexivity. Qed.


(** ** Texts that are refused *)

Lemma lstrip_length s : (String.length (Str.lstrip s) <= String.length s)%nat.
Proof.
  induction s as [| c s IH]; cbn [Str.lstrip String.length]; [lia |].
  destruct (Text.isspace c); cbn [String.length]; lia.
Qed.

Lemma rstrip_length s : (String.length (Str.rstrip s) <= String.length s)%nat.
Proof.
  induction s as [| c s IH]; cbn [Str.rstrip String.length]; [lia |].
  destruct (Str.rstrip s); [destruct (Text.isspace c) |]; cbn [String.length] in *;
    lia.
Qed.

Lemma strip_length s : Text.len (Str.strip s) <= Text.len s.
Proof.
  unfold Str.strip, Text.len.
  pose proof (rstrip_length (Str.lstrip s)). pose proof (lstrip_length s). lia.
Qed.

Lemma lstrip_blank s : Text.all Text.isspace s = true -> Str.lstrip s = "".
Proof.
  induction s as [| c s IH]; intros H; [reflexivity |].
  cbn [Text.all] in H. apply andb_prop in H. destruct H as [H1 H2].
  cbn [Str.lstrip]. rewrite H1. exact (IH H2).
Qed.

Section Refused.

Context {RT : Runtime} {LB : Library}.

(** X24.  A text of fewer than 10 characters, and a text of blanks only,
    however long, are refused with status 400, in demo mode as in live mode,
    and nothing is stored. *)
Theorem analyze_rejects_short_or_blank (o : outside) (request : Request.t)
  (st : server) :
  Text.len (Request.answerText request) < 10
  \/ Text.all Text.isspace (Request.answerText request) = true ->
  analyze_content o request st
  = (BadRequest "Answer text must be at least 10 characters", st).
Proof.
  intros H. unfold analyze_content.
  assert (Text.len (Str.strip (Request.answerText request)) < 10) as S.
  { destruct H as [H | H].
    - pose proof (strip_length (Request.answerText request)). lia.
    - unfold Str.strip. rewrite (lstrip_blank _ H). cbn. lia. }
  apply Z.ltb_lt in S. rewrite S, orb_true_r. reflexivity.
Qed.

End Refused.

Lemma analyze_rejects_short_or_blank_witness :
  analyze_content (RT := cpython) (LB := strict) demo_outside
    (Request.Make "                    " "legal" false) sample_server
  = (BadRequest "Answer text must be at least 10 characters", sample_server).
Proof.
  apply (analyze_rejects_short_or_blank (RT := cpython) (LB := strict)).
  right. reflexivity.
Defined.

(** * Blanks around a JSON text *)

(** Nothing, or a text that starts with a blank. *)
Lemma blank_cases x :
  Text.all Json.is_ws x = true ->
  x = "" \/ exists c x', x = String c x' /\ Json.is_ws c = true.
Proof.
  destruct x as [| c x']; intros H; [left; reflexivity | right].
  cbn [Text.all] in H. apply andb_prop in H. exists c, x'. tauto.
Qed.

Lemma ws_char c :
  Json.is_ws c = true ->
  Text.isdigit c = false /\ Ascii.eqb c "-" = false /\ Ascii.eqb c "0" = false /\
  Ascii.eqb c "." = false /\ Ascii.eqb c "e" = false /\ Ascii.eqb c "E" = false /\
  Ascii.eqb c "+" = false.
Proof.
  unfold Json.is_ws. intros H.
  repeat (apply orb_prop in H; destruct H as [H | H]);
    apply Ascii.eqb_eq in H; subst c; repeat split; reflexivity.
Qed.

Lemma skip_ws_blank x : Text.all Json.is_ws x = true -> Json.skip_ws x = "".
Proof.
  induction x as [| c x IH]; intros H; [reflexivity |].
  cbn [Text.all] in H. apply andb_prop in H. destruct H as [H1 H2].
  cbn [Json.skip_ws]. rewrite H1. exact (IH H2).
Qed.

Lemma skip_ws_append_blank x : forall w,
  Text.all Json.is_ws w = true -> Json.skip_ws (w ++ x) = Json.skip_ws x.
Proof.
  induction w as [| c w IH]; intros H; [reflexivity |].
  cbn [Text.all] in H. apply andb_prop in H. destruct H as [H1 H2].
  cbn [append Json.skip_ws]. rewrite H1. exact (IH H2).
Qed.

Lemma skip_ws_frame x : forall s c r,
  Json.skip_ws s = String c r -> Json.skip_ws (s ++ x) = String c (r ++ x).
Proof.
  induction s as [| a s IH]; intros c r H; [discriminate H |].
  cbn [Json.skip_ws append] in *. destruct (Json.is_ws a).
  - exact (IH _ _ H).
  - injection H as -> ->. reflexivity.
Qed.

Lemma strip_prefix_frame x w : forall s r,
  Text.strip_prefix w s = Some r -> Text.strip_prefix w (s ++ x) = Some (r ++ x).
Proof.
  induction w as [| a w IH]; intros s r H.
  - cbn in *. injection H as ->. reflexivity.
  - destruct s as [| b s]; [discriminate H |].
    cbn [Text.strip_prefix append] in *. destruct (Ascii.eqb a b); [| discriminate H].
    exact (IH _ _ H).
Qed.

Lemma strip_prefix_none_frame x w : forall s,
  Text.all Json.is_ws x = true ->
  Text.any Json.is_ws w = false ->
  Text.strip_prefix w s = None -> Text.strip_prefix w (s ++ x) = None.
Proof.
  induction w as [| a w IH]; intros s Hx Hw H; [discriminate H |].
  cbn [Text.any] in Hw. apply orb_false_iff in Hw. destruct Hw as [Ha Hw].
  destruct s as [| b s].
  - cbn [append]. destruct (blank_cases x Hx) as [-> | (c & x' & -> & Hc)];
      [reflexivity |].
    cbn [Text.strip_prefix]. destruct (Ascii.eqb_spec a c) as [<- | _];
      [congruence | reflexivity].
  - cbn [Text.strip_prefix append] in *. destruct (Ascii.eqb a b); [| reflexivity].
    exact (IH _ Hx Hw H).
Qed.

(** ** Numbers *)

Lemma span_digits_frame x : forall s d r,
  Text.all Json.is_ws x = true ->
  Json.span_digits s = (d, r) -> Json.span_digits (s ++ x) = (d, r ++ x).
Proof.
  induction s as [| c s IH]; intros d r Hx H.
  - cbn in H. injection H as <- <-. cbn [append].
    destruct (blank_cases x Hx) as [-> | (c & x' & -> & Hc)]; [reflexivity |].
    cbn [Json.span_digits]. rewrite (proj1 (ws_char c Hc)). reflexivity.
  - cbn [Json.span_digits append] in *. destruct (Text.isdigit c).
    + destruct (Json.span_digits s) as [d' r'] eqn:E. injection H as <- <-.
      rewrite (IH _ _ Hx eq_refl). reflexivity.
    + injection H as <- <-. reflexivity.
Qed.

Lemma match_integer_frame x s i r :
  Text.all Json.is_ws x = true ->
  Json.match_integer s = Some (i, r) ->
  Json.match_integer (s ++ x) = Some (i, r ++ x).
Proof.
  intros Hx. unfold Json.match_integer.
  assert (forall sign s1,
            match s1 with
            | String c s2 =>
                if Ascii.eqb c "0" then Some (sign ++ "0", s2)
                else if Text.isdigit c
                     then let (d, r) := Json.span_digits s1 in Some (sign ++ d, r)
                     else None
            | EmptyString => None
            end = Some (i, r) ->
            match s1 ++ x with
            | String c s2 =>
                if Ascii.eqb c "0" then Some (sign ++ "0", s2)
                else if Text.isdigit c
                     then let (d, r) := Json.span_digits (s1 ++ x) in
                          Some (sign ++ d, r)
                     else None
            | EmptyString => None
            end = Some (i, r ++ x)) as G.
  { intros sign [| c s2] H; [discriminate H |]. cbn [append].
    destruct (Ascii.eqb c "0").
    - injection H as <- <-. reflexivity.
    - destruct (Text.isdigit c); [| discriminate H].
      destruct (Json.span_digits (String c s2)) as [d r'] eqn:E.
      injection H as <- <-.
      change (String c (s2 ++ x)) with (String c s2 ++ x).
      rewrite (span_digits_frame x _ _ _ Hx E). reflexivity. }
  destruct s as [| c s']; [discriminate |]. cbn [append].
  destruct (Ascii.eqb c "-").
  - exact (G "-" s').
  - exact (G "" (String c s')).
Qed.

Lemma match_integer_none_frame x s :
  Text.all Json.is_ws x = true ->
  Json.match_integer s = None -> Json.match_integer (s ++ x) = None.
Proof.
  intros Hx. unfold Json.match_integer.
  assert (forall sign : string,
            match x with
            | String c s2 =>
                if Ascii.eqb c "0" then Some (sign ++ "0", s2)
                else if Text.isdigit c
                     then let (d, r) := Json.span_digits x in Some (sign ++ d, r)
                     else None
            | EmptyString => None
            end = None) as X.
  { intros sign. destruct (blank_cases x Hx) as [-> | (c & x' & -> & Hc)];
      [reflexivity |].
    destruct (ws_char c Hc) as (D & _ & Z0 & _). rewrite Z0, D. reflexivity. }
  assert (forall sign s1,
            match s1 with
            | String c s2 =>
                if Ascii.eqb c "0" then Some (sign ++ "0", s2)
                else if Text.isdigit c
                     then let (d, r) := Json.span_digits s1 in Some (sign ++ d, r)
                     else None
            | EmptyString => None
            end = None ->
            match s1 ++ x with
            | String c s2 =>
                if Ascii.eqb c "0" then Some (sign ++ "0", s2)
                else if Text.isdigit c
                     then let (d, r) := Json.span_digits (s1 ++ x) in
                          Some (sign ++ d, r)
                     else None
            | EmptyString => None
            end = None) as G.
  { intros sign [| c s2] H; [apply X |]. cbn [append].
    destruct (Ascii.eqb c "0"); [discriminate H |].
    destruct (Text.isdigit c); [| reflexivity].
    destruct (Json.span_digits (String c s2)); discriminate H. }
  destruct s as [| c s'].
  - intros _. cbn [append].
    destruct (blank_cases x Hx) as [-> | (c & x' & -> & Hc)]; [reflexivity |].
    destruct (ws_char c Hc) as (D & M & Z0 & _). rewrite M, Z0, D. reflexivity.
  - cbn [append]. destruct (Ascii.eqb c "-").
    + exact (G "-" s').
    + exact (G "" (String c s')).
Qed.

Lemma match_frac_frame x s f r :
  Text.all Json.is_ws x = true ->
  Json.match_frac s = (f, r) -> Json.match_frac (s ++ x) = (f, r ++ x).
Proof.
  intros Hx. unfold Json.match_frac. destruct s as [| c s'].
  - intros [= <- <-]. cbn [append].
    destruct (blank_cases x Hx) as [-> | (c & x' & -> & Hc)]; [reflexivity |].
    destruct (ws_char c Hc) as (_ & _ & _ & P & _). rewrite P. reflexivity.
  - cbn [append]. destruct (Ascii.eqb c "."); [| intros [= <- <-]; reflexivity].
    destruct (Json.span_digits s') as [d r'] eqn:E.
    rewrite (span_digits_frame x _ _ _ Hx E).
    destruct d; intros [= <- <-]; reflexivity.
Qed.

Lemma match_exp_frame x s f r :
  Text.all Json.is_ws x = true ->
  Json.match_exp s = (f, r) -> Json.match_exp (s ++ x) = (f, r ++ x).
Proof.
  intros Hx. unfold Json.match_exp. destruct s as [| e s'].
  - intros [= <- <-]. cbn [append].
    destruct (blank_cases x Hx) as [-> | (c & x' & -> & Hc)]; [reflexivity |].
    destruct (ws_char c Hc) as (_ & _ & _ & _ & P1 & P2 & _). rewrite P1, P2.
    reflexivity.
  - cbn [append]. destruct (Ascii.eqb e "e" || Ascii.eqb e "E");
      [| intros [= <- <-]; reflexivity].
    destruct s' as [| c s2].
    + cbn [append Json.span_digits]. intros [= <- <-].
      destruct (blank_cases x Hx) as [-> | (c & x' & -> & Hc)]; [reflexivity |].
      destruct (ws_char c Hc) as (D & M & _ & _ & _ & _ & P).
      rewrite M, P. cbn [orb Json.span_digits]. rewrite D. reflexivity.
    + cbn [append]. destruct (Ascii.eqb c "-" || Ascii.eqb c "+").
      * destruct (Json.span_digits s2) as [d r'] eqn:E.
        rewrite (span_digits_frame x _ _ _ Hx E).
        destruct d; intros [= <- <-]; reflexivity.
      * destruct (Json.span_digits (String c s2)) as [d r'] eqn:E.
        change (String c (s2 ++ x)) with (String c s2 ++ x).
        rewrite (span_digits_frame x _ _ _ Hx E).
        destruct d; intros [= <- <-]; reflexivity.
Qed.

Lemma scan_number_frame x s v r :
  Text.all Json.is_ws x = true ->
  Json.scan_number s = Some (Json.Scanned v r) ->
  Json.scan_number (s ++ x) = Some (Json.Scanned v (r ++ x)).
Proof.
  intros Hx. unfold Json.scan_number.
  destruct (Json.match_integer s) as [[i s1] |] eqn:E1; [| discriminate].
  rewrite (match_integer_frame x _ _ _ Hx E1).
  destruct (Json.match_frac s1) as [f s2] eqn:E2.
  rewrite (match_frac_frame x _ _ _ Hx E2).
  destruct (Json.match_exp s2) as [e s3] eqn:E3.
  rewrite (match_exp_frame x _ _ _ Hx E3).
  destruct (String.eqb f "" && String.eqb e "").
  - destruct (Json.parse_int i); [discriminate |]. intros [= <- <-]. reflexivity.
  - intros [= <- <-]. reflexivity.
Qed.

Lemma scan_number_none_frame x s :
  Text.all Json.is_ws x = true ->
  Json.scan_number s = None -> Json.scan_number (s ++ x) = None.
Proof.
  intros Hx. unfold Json.scan_number.
  destruct (Json.match_integer s) as [[i s1] |] eqn:E1.
  - destruct (Json.match_frac s1), (Json.match_exp _).
    destruct (_ && _); [destruct (Json.parse_int i) |]; discriminate.
  - intros _. rewrite (match_integer_none_frame x _ Hx E1). reflexivity.
Qed.

Lemma scan_scalar_frame x s v r :
  Text.all Json.is_ws x = true ->
  Json.scan_scalar s = Json.Scanned v r ->
  Json.scan_scalar (s ++ x) = Json.Scanned v (r ++ x).
Proof.
  intros Hx. unfold Json.scan_scalar.
  destruct (Text.strip_prefix "null" s) as [r1 |] eqn:E1.
  { rewrite (strip_prefix_frame x _ _ _ E1). intros [= <- <-]. reflexivity. }
  rewrite (strip_prefix_none_frame x "null" _ Hx eq_refl E1).
  destruct (Text.strip_prefix "true" s) as [r2 |] eqn:E2.
  { rewrite (strip_prefix_frame x _ _ _ E2). intros [= <- <-]. reflexivity. }
  rewrite (strip_prefix_none_frame x "true" _ Hx eq_refl E2).
  destruct (Text.strip_prefix "false" s) as [r3 |] eqn:E3.
  { rewrite (strip_prefix_frame x _ _ _ E3). intros [= <- <-]. reflexivity. }
  rewrite (strip_prefix_none_frame x "false" _ Hx eq_refl E3).
  destruct (Json.scan_number s) as [[v' r' | e] |] eqn:E4.
  { rewrite (scan_number_frame x _ _ _ Hx E4). intros [= <- <-]. reflexivity. }
  { discriminate. }
  rewrite (scan_number_none_frame x _ Hx E4).
  destruct (Text.strip_prefix "NaN" s) as [r5 |] eqn:E5.
  { rewrite (strip_prefix_frame x _ _ _ E5). intros [= <- <-]. reflexivity. }
  rewrite (strip_prefix_none_frame x "NaN" _ Hx eq_refl E5).
  destruct (Text.strip_prefix "Infinity" s) as [r6 |] eqn:E6.
  { rewrite (strip_prefix_frame x _ _ _ E6). intros [= <- <-]. reflexivity. }
  rewrite (strip_prefix_none_frame x "Infinity" _ Hx eq_refl E6).
  destruct (Text.strip_prefix "-Infinity" s) as [r7 |] eqn:E7.
  { rewrite (strip_prefix_frame x _ _ _ E7). intros [= <- <-]. reflexivity. }
  discriminate.
Qed.

(** ** Strings *)

Lemma push_frame x chunk y str r :
  (forall a r', Json.scanstring y = Json.Scanned a r' ->
                Json.scanstring (y ++ x) = Json.Scanned a (r' ++ x)) ->
  Json.push chunk (Json.scanstring y) = Json.Scanned str r ->
  Json.push chunk (Json.scanstring (y ++ x)) = Json.Scanned str (r ++ x).
Proof.
  intros IH H. destruct (Json.scanstring y) as [a r' |] eqn:E; [| discriminate H].
  cbn [Json.push] in H. injection H as <- <-.
  rewrite (IH _ _ eq_refl). reflexivity.
Qed.

(** The six characters that [scanstring] looks at after a [\u] escape
    for the second half of a surrogate pair matter only when they start
    with another [\u]. *)
Lemma pair_lookahead_default (uni : N) (other : string -> Json.scanned string) y :
  match y with
  | String b (String u _) => Ascii.eqb b Json.backslash && Ascii.eqb u "u"
  | _ => false
  end = false ->
  match y with
  | String b (String u (String l1 (String l2 (String l3 (String l4 rest3))))) =>
      if Json.is_high uni && Ascii.eqb b Json.backslash && Ascii.eqb u "u"
      then
        match Json.hex4 l1 l2 l3 l4 with
        | None => Json.Failed JSONDecodeError
        | Some uni2 =>
            if Json.is_low uni2
            then Json.push (Json.utf8 (65536 + (uni - 55296) * 1024
                                       + (uni2 - 56320))%N)
                           (Json.scanstring rest3)
            else other y
        end
      else other y
  | _ => other y
  end = other y.
Proof.
  intros H.
  destruct y as [| b [| u [| l1 [| l2 [| l3 [| l4 rest3]]]]]]; try reflexivity.
  rewrite <- andb_assoc, H, andb_false_r. reflexivity.
Qed.

Lemma scanstring_escape_short b u y :
  (String.length y < 4)%nat ->
  Ascii.eqb b Json.backslash && Ascii.eqb u "u" = true ->
  Json.scanstring (String b (String u y)) = Json.Failed JSONDecodeError.
Proof.
  intros L H. apply andb_prop in H. destruct H as [Hb Hu].
  apply Ascii.eqb_eq in Hb, Hu. subst b u.
  destruct y as [| h1 [| h2 [| h3 [| h4 y]]]]; try reflexivity.
  cbn [String.length] in L. lia.
Qed.

Lemma scanstring_frame x n : forall s,
  (String.length s <= n)%nat ->
  forall str r,
    Json.scanstring s = Json.Scanned str r ->
    Json.scanstring (s ++ x) = Json.Scanned str (r ++ x).
Proof.
  induction n as [| n IH]; intros s L str r H.
  { destruct s; [discriminate H | cbn in L; lia]. }
  destruct s as [| c rest]; [discriminate H |].
  cbn [String.length] in L. cbn [append]. cbn [Json.scanstring] in H |- *.
  destruct (Ascii.eqb c Json.quote).
  { injection H as <- <-. reflexivity. }
  destruct (Ascii.eqb c Json.backslash).
  2:{ destruct (Text.ord c <? 32)%N; [discriminate H |].
      apply (push_frame x); [| exact H]. apply IH. lia. }
  destruct rest as [| esc rest1]; [discriminate H |].
  cbn [String.length] in L. cbn [append].
  destruct (Ascii.eqb esc "u").
  2:{ destruct (Json.unescape esc); [| discriminate H].
      apply (push_frame x); [| exact H]. apply IH. lia. }
  destruct rest1 as [| h1 [| h2 [| h3 [| h4 rest2]]]]; try discriminate H.
  cbn [String.length] in L. cbn [append].
  destruct (Json.hex4 h1 h2 h3 h4) as [uni |]; [| discriminate H].
  assert (forall a r', Json.scanstring rest2 = Json.Scanned a r' ->
                       Json.scanstring (rest2 ++ x) = Json.Scanned a (r' ++ x))
    as IH2 by (apply IH; lia).
  destruct rest2 as [| b [| u [| l1 [| l2 [| l3 [| l4 rest3]]]]]].
  7:{ cbn [append].
      change (String b (String u (String l1 (String l2 (String l3
                (String l4 (rest3 ++ x)))))))
        with (String b (String u (String l1 (String l2 (String l3
                (String l4 rest3))))) ++ x).
      destruct (Json.is_high uni && Ascii.eqb b Json.backslash && Ascii.eqb u "u").
      - destruct (Json.hex4 l1 l2 l3 l4) as [uni2 |]; [| discriminate H].
        destruct (Json.is_low uni2).
        + apply (push_frame x); [| exact H]. apply IH. cbn [String.length] in L. lia.
        + apply (push_frame x); [exact IH2 | exact H].
      - apply (push_frame x); [exact IH2 | exact H]. }
  all: rewrite (pair_lookahead_default uni
                  (fun y => Json.push (Json.utf8 uni) (Json.scanstring y)));
    [apply (push_frame x); [exact IH2 | exact H] |].
  - discriminate H.
  - cbn [append]. destruct x as [| u x']; [reflexivity |].
    destruct (Ascii.eqb_spec b Json.backslash) as [-> | _]; [| reflexivity].
    discriminate H.
  - cbn [append].
    destruct (Ascii.eqb b Json.backslash && Ascii.eqb u "u") eqn:E; [| reflexivity].
    rewrite (scanstring_escape_short b u "" ltac:(cbn; lia) E) in H. discriminate H.
  - cbn [append].
    destruct (Ascii.eqb b Json.backslash && Ascii.eqb u "u") eqn:E; [| reflexivity].
    rewrite (scanstring_escape_short b u (String l1 "") ltac:(cbn; lia) E) in H.
    discriminate H.
  - cbn [append].
    destruct (Ascii.eqb b Json.backslash && Ascii.eqb u "u") eqn:E; [| reflexivity].
    rewrite (scanstring_escape_short b u (String l1 (String l2 "")) ltac:(cbn; lia) E) in H.
    discriminate H.
  - cbn [append].
    destruct (Ascii.eqb b Json.backslash && Ascii.eqb u "u") eqn:E; [| reflexivity].
    rewrite (scanstring_escape_short b u (String l1 (String l2 (String l3 ""))) ltac:(cbn; lia) E) in H.
    discriminate H.
Qed.

(** ** Values *)

Lemma scan_once_empty fuel : exists e, Json.scan_once fuel "" = Json.Failed e.
Proof. destruct fuel; eexists; reflexivity. Qed.

Lemma items_empty fuel acc : exists e, Json.items fuel "" acc = Json.Failed e.
Proof.
  destruct fuel as [| f]; [eexists; reflexivity |].
  cbn [Json.items]. destruct (scan_once_empty f) as (e & ->). eexists; reflexivity.
Qed.

Lemma skip_ws_frame_nonempty x s :
  Json.skip_ws s <> "" -> Json.skip_ws (s ++ x) = Json.skip_ws s ++ x.
Proof.
  intros N. destruct (Json.skip_ws s) as [| c r] eqn:E; [congruence |].
  cbn [append]. exact (skip_ws_frame x _ _ _ E).
Qed.

Lemma skip_ws_through x : forall s,
  Json.skip_ws s = "" -> Json.skip_ws (s ++ x) = Json.skip_ws x.
Proof.
  induction s as [| c s IH]; intros H; [reflexivity |].
  cbn [Json.skip_ws append] in *. destruct (Json.is_ws c); [exact (IH H) |].
  discriminate H.
Qed.

(** A value scanned from a text is scanned from the text followed by
    blanks, which are left over. *)
Lemma scan_frame x :
  Text.all Json.is_ws x = true ->
  forall fuel,
    (forall s v r, Json.scan_once fuel s = Json.Scanned v r ->
                   Json.scan_once fuel (s ++ x) = Json.Scanned v (r ++ x))
    /\ (forall s acc v r, Json.items fuel s acc = Json.Scanned v r ->
                          Json.items fuel (s ++ x) acc = Json.Scanned v (r ++ x))
    /\ (forall s acc v r, Json.members fuel s acc = Json.Scanned v r ->
                          Json.members fuel (s ++ x) acc = Json.Scanned v (r ++ x)).
Proof.
  intros Hx. induction fuel as [| f (IHs & IHi & IHm)];
    [repeat split; intros; discriminate |].
  repeat split.
  - intros s v r H. destruct s as [| c rest]; [discriminate H |].
    cbn [append]. cbn [Json.scan_once] in H |- *.
    destruct (Ascii.eqb c Json.quote).
    { destruct (Json.scanstring rest) as [str rest' |] eqn:E; [| discriminate H].
      injection H as <- <-.
      rewrite (scanstring_frame x _ rest (le_n _) _ _ E). reflexivity. }
    destruct (Ascii.eqb c "{").
    { destruct (Json.skip_ws rest) as [| c1 rest1] eqn:E; [discriminate H |].
      rewrite (skip_ws_frame x _ _ _ E).
      destruct (Ascii.eqb c1 "}"); [injection H as <- <-; reflexivity |].
      destruct (Ascii.eqb c1 Json.quote); [| discriminate H].
      apply IHm. exact H. }
    destruct (Ascii.eqb c "[").
    { destruct (Json.skip_ws rest) as [| c1 rest1] eqn:E.
      - destruct (items_empty f []) as (e & F). rewrite F in H. discriminate H.
      - rewrite (skip_ws_frame x _ _ _ E).
        destruct (Ascii.eqb c1 "]"); [injection H as <- <-; reflexivity |].
        apply (IHi (String c1 rest1)). exact H. }
    apply (scan_scalar_frame x (String c rest) _ _ Hx H).
  - intros s acc v r H. cbn [Json.items] in H |- *.
    destruct (Json.scan_once f s) as [v' rest |] eqn:E; [| discriminate H].
    rewrite (IHs _ _ _ E).
    destruct (Json.skip_ws rest) as [| c rest1] eqn:E1; [discriminate H |].
    rewrite (skip_ws_frame x _ _ _ E1).
    destruct (Ascii.eqb c "]"); [injection H as <- <-; reflexivity |].
    destruct (Ascii.eqb c ","); [| discriminate H].
    rewrite skip_ws_frame_nonempty; [apply IHi; exact H |].
    intros N. rewrite N in H.
    destruct (items_empty f (v' :: acc)) as (e & F). rewrite F in H. discriminate H.
  - intros s acc v r H. cbn [Json.members] in H |- *.
    destruct (Json.scanstring s) as [key rest |] eqn:E; [| discriminate H].
    rewrite (scanstring_frame x _ s (le_n _) _ _ E).
    destruct (Json.skip_ws rest) as [| c0 rest1] eqn:E1; [discriminate H |].
    rewrite (skip_ws_frame x _ _ _ E1).
    destruct (Ascii.eqb c0 ":"); [| discriminate H].
    destruct (Json.scan_once f (Json.skip_ws rest1)) as [v' rest2 |] eqn:E2;
      [| discriminate H].
    rewrite skip_ws_frame_nonempty.
    2:{ intros N. rewrite N in E2.
        destruct (scan_once_empty f) as (e & F). rewrite F in E2. discriminate E2. }
    rewrite (IHs _ _ _ E2).
    destruct (Json.skip_ws rest2) as [| c rest3] eqn:E3; [discriminate H |].
    rewrite (skip_ws_frame x _ _ _ E3).
    destruct (Ascii.eqb c "}"); [injection H as <- <-; reflexivity |].
    destruct (Ascii.eqb c ","); [| discriminate H].
    destruct (Json.skip_ws rest3) as [| c' rest4] eqn:E4; [discriminate H |].
    rewrite (skip_ws_frame x _ _ _ E4).
    destruct (Ascii.eqb c' Json.quote); [| discriminate H].
    apply IHm. exact H.
Qed.

(** More fuel does not change a value that was scanned. *)
Lemma scan_more_fuel fuel :
  (forall s v r, Json.scan_once fuel s = Json.Scanned v r ->
                 Json.scan_once (S fuel) s = Json.Scanned v r)
  /\ (forall s acc v r, Json.items fuel s acc = Json.Scanned v r ->
                        Json.items (S fuel) s acc = Json.Scanned v r)
  /\ (forall s acc v r, Json.members fuel s acc = Json.Scanned v r ->
                        Json.members (S fuel) s acc = Json.Scanned v r).
Proof.
  induction fuel as [| f (IHs & IHi & IHm)];
    [repeat split; intros; discriminate |].
  repeat split.
  - intros s v r H. destruct s as [| c rest]; [discriminate H |].
    cbn [Json.scan_once] in H. cbn [Json.scan_once].
    destruct (Ascii.eqb c Json.quote); [exact H |].
    destruct (Ascii.eqb c "{").
    { destruct (Json.skip_ws rest) as [| c1 rest1]; [discriminate H |].
      destruct (Ascii.eqb c1 "}"); [exact H |].
      destruct (Ascii.eqb c1 Json.quote); [| discriminate H].
      apply IHm. exact H. }
    destruct (Ascii.eqb c "[").
    { destruct (Json.skip_ws rest) as [| c1 rest1]; [apply IHi; exact H |].
      destruct (Ascii.eqb c1 "]"); [exact H |]. apply IHi. exact H. }
    exact H.
  - intros s acc v r H. cbn [Json.items] in H. cbn [Json.items].
    destruct (Json.scan_once f s) as [v' rest |] eqn:E; [| discriminate H].
    rewrite (IHs _ _ _ E).
    destruct (Json.skip_ws rest) as [| c rest1]; [discriminate H |].
    destruct (Ascii.eqb c "]"); [exact H |].
    destruct (Ascii.eqb c ","); [| discriminate H].
    apply IHi. exact H.
  - intros s acc v r H. cbn [Json.members] in H. cbn [Json.members].
    destruct (Json.scanstring s) as [key rest |]; [| discriminate H].
    destruct (Json.skip_ws rest) as [| c0 rest1]; [discriminate H |].
    destruct (Ascii.eqb c0 ":"); [| discriminate H].
    destruct (Json.scan_once f (Json.skip_ws rest1)) as [v' rest2 |] eqn:E;
      [| discriminate H].
    rewrite (IHs _ _ _ E).
    destruct (Json.skip_ws rest2) as [| c rest3]; [discriminate H |].
    destruct (Ascii.eqb c "}"); [exact H |].
    destruct (Ascii.eqb c ","); [| discriminate H].
    destruct (Json.skip_ws rest3) as [| c' rest4]; [discriminate H |].
    destruct (Ascii.eqb c' Json.quote); [| discriminate H].
    apply IHm. exact H.
Qed.

Lemma scan_once_fuel k : forall fuel s v r,
  Json.scan_once fuel s = Json.Scanned v r ->
  Json.scan_once (k + fuel) s = Json.Scanned v r.
Proof.
  induction k as [| k IH]; intros fuel s v r H; [exact H |].
  cbn [Nat.add]. apply (proj1 (scan_more_fuel (k + fuel))). apply IH. exact H.
Qed.

(** [json.loads] does not see the blanks around a text that it
    decodes. *)
Lemma loads_padded s w1 w2 J :
  Text.all Json.is_ws w1 = true -> Text.all Json.is_ws w2 = true ->
  Json.loads s = Json.Decoded J ->
  Json.loads (w1 ++ s ++ w2) = Json.Decoded J.
Proof.
  intros H1 H2. unfold Json.loads, Json.decode. intros H.
  destruct (Json.scan_once (S (S (2 * String.length s))) (Json.skip_ws s))
    as [v rest |] eqn:E; [| discriminate H].
  destruct (Json.skip_ws rest) eqn:R; [| discriminate H]. injection H as ->.
  rewrite (skip_ws_append_blank _ _ H1).
  rewrite skip_ws_frame_nonempty
    by (intros N; rewrite N in E; discriminate E).
  pose proof (proj1 (scan_frame w2 H2 _) _ _ _ E) as F.
  rewrite !length_append.
  replace (S (S (2 * (String.length w1 + (String.length s + String.length w2)))))
    with (2 * (String.length w1 + String.length w2)
          + S (S (2 * String.length s)))%nat by lia.
  rewrite (scan_once_fuel _ _ _ _ _ F).
  rewrite (skip_ws_through _ _ R), (skip_ws_blank _ H2). reflexivity.
Qed.

(** X25.  A reply that is JSON with blanks before and after it (spaces,
    tabs, line feeds, carriage returns; a final line feed, say) is returned
    as the reply without them is: decoded by the first attempt. *)
Theorem parse_padded_reply (s w1 w2 : string) (J : value) :
  Text.all Json.is_ws w1 = true -> Text.all Json.is_ws w2 = true ->
  Json.loads s = Json.Decoded J ->
  parse_llm_response Json.loads (w1 ++ s ++ w2) = Returns J.
Proof.
  intros H1 H2 H. unfold parse_llm_response, try_loads.
  rewrite (loads_padded s w1 w2 J H1 H2 H). reflexivity.
Qed.

(** The sample reply after two spaces and before a line feed. *)
Lemma parse_padded_reply_witness :
  parse_llm_response Json.loads ("  " ++ sample_reply ++ nl)
  = Returns sample_value.
Proof.
  apply (parse_padded_reply sample_reply "  " nl sample_value).
  - reflexivity.
  - reflexivity.
  - vm_compute. reflexivity.
Defined.
